(** * Sitemap discovery, page classification and reconciliation

    A shallow embedding of the sitemap pipeline of the Minnesota directory
    scripts (directory [neon-mcp-server]): the page extractors, the
    business-intelligence classifier, the sitemap-index walkers and the
    reconcilers that replace a company's stored pages.

    Python strings are Rocq strings.  The case functions act on the ASCII
    letters as Python's do and leave every other character unchanged, so
    the model is exact on ASCII text. *)

From Stdlib Require Import String Ascii List ZArith Lia Bool DecimalString Sorted.
From stdpp Require Import base option list gmap strings.

Set Warnings "-register-all".

#[local] Arguments String.append : simpl nomatch.

Local Open Scope string_scope.
Local Open Scope Z_scope.

(** ** Python string operations *)

Module PyStr.

Definition is_upper (c : ascii) : bool :=
  let n := nat_of_ascii c in (65 <=? n)%nat && (n <=? 90)%nat.

Definition is_lower (c : ascii) : bool :=
  let n := nat_of_ascii c in (97 <=? n)%nat && (n <=? 122)%nat.

Definition lower_char (c : ascii) : ascii :=
  if is_upper c then ascii_of_nat (nat_of_ascii c + 32) else c.

Definition upper_char (c : ascii) : ascii :=
  if is_lower c then ascii_of_nat (nat_of_ascii c - 32) else c.

(** [s.lower()] *)
Fixpoint lower (s : string) : string :=
  match s with
  | EmptyString => EmptyString
  | String c s' => String (lower_char c) (lower s')
  end.

(** [s.startswith(p)] *)
Fixpoint startswith (p s : string) : bool :=
  match p, s with
  | EmptyString, _ => true
  | String a p', String b s' => Ascii.eqb a b && startswith p' s'
  | String _ _, EmptyString => false
  end.

(** [p in s] *)
Fixpoint str_in (p s : string) : bool :=
  startswith p s
  || match s with
     | EmptyString => false
     | String _ s' => str_in p s'
     end.

(** [s.endswith(p)] *)
Fixpoint endswith (p s : string) : bool :=
  String.eqb p s
  || match s with
     | EmptyString => false
     | String _ s' => endswith p s'
     end.

(** [any(x in s for x in patterns)] *)
Definition any_in (patterns : list string) (s : string) : bool :=
  existsb (fun x => str_in x s) patterns.

(** [not s] for a string is emptiness. *)
Definition is_empty (s : string) : bool :=
  match s with EmptyString => true | String _ _ => false end.

Fixpoint drop (n : nat) (s : string) : string :=
  match n, s with
  | O, _ => s
  | S _, EmptyString => EmptyString
  | S k, String _ s' => drop k s'
  end.

(** [s.replace(old, new)] for a non-empty [old]: occurrences are taken
    from the left and do not overlap; [skip] counts the characters of
    the occurrence being consumed. *)
Fixpoint replace_from (old new : string) (skip : nat) (s : string) : string :=
  match s with
  | EmptyString => EmptyString
  | String c s' =>
      match skip with
      | S k => replace_from old new k s'
      | O =>
          if startswith old s
          then new ++ replace_from old new (String.length old - 1) s'
          else String c (replace_from old new O s')
      end
  end.

(** With an empty [old], Python puts [new] before every character and
    at the end. *)
Fixpoint interleave (new s : string) : string :=
  match s with
  | EmptyString => new
  | String c s' => new ++ String c (interleave new s')
  end.

Definition replace (old new s : string) : string :=
  if is_empty old then interleave new s else replace_from old new O s.

(** [s.split(sep)] for a one-character separator; [cur] is the piece
    being read. *)
Fixpoint split_from (sep : ascii) (cur : string) (s : string) : list string :=
  match s with
  | EmptyString => [cur]
  | String c s' =>
      if Ascii.eqb c sep
      then cur :: split_from sep EmptyString s'
      else split_from sep (cur ++ String c EmptyString) s'
  end.

Definition split (sep : ascii) (s : string) : list string :=
  split_from sep EmptyString s.

(** [[x for x in s.split('/') if x]] *)
Definition segments (s : string) : list string :=
  List.filter (fun x => negb (is_empty x)) (split "/"%char s).

(** The whitespace of [str.strip()] among the first 256 code points. *)
Definition is_space (c : ascii) : bool :=
  let n := nat_of_ascii c in
  ((9 <=? n)%nat && (n <=? 13)%nat) || ((28 <=? n)%nat && (n <=? 32)%nat)
  || (n =? 133)%nat || (n =? 160)%nat.

Fixpoint lstrip_by (f : ascii -> bool) (s : string) : string :=
  match s with
  | EmptyString => EmptyString
  | String c s' => if f c then lstrip_by f s' else s
  end.

Fixpoint rstrip_by (f : ascii -> bool) (s : string) : string :=
  match s with
  | EmptyString => EmptyString
  | String c s' =>
      let r := rstrip_by f s' in
      if f c && is_empty r then EmptyString else String c r
  end.

Definition strip_by (f : ascii -> bool) (s : string) : string :=
  rstrip_by f (lstrip_by f s).

(** [s.strip()] *)
Definition strip (s : string) : string := strip_by is_space s.

(** [s.strip('/')] *)
Definition strip_slash (s : string) : string :=
  strip_by (Ascii.eqb "/"%char) s.

(** [s.title()]: a cased character is upper-cased when the previous
    character is not cased and lower-cased otherwise. *)
Fixpoint title_from (previous_is_cased : bool) (s : string) : string :=
  match s with
  | EmptyString => EmptyString
  | String c s' =>
      if is_upper c || is_lower c
      then String (if previous_is_cased then lower_char c else upper_char c)
                  (title_from true s')
      else String c (title_from false s')
  end.

Definition title (s : string) : string := title_from false s.

(** [segments[-1]] of a non-empty list. *)
Definition last_segment (segs : list string) : string :=
  List.last segs EmptyString.

(** [l[:n]] for a Python integer [n]: a negative [n] counts from the
    end. *)
Definition slice_to {A} (n : Z) (l : list A) : list A :=
  if 0 <=? n then firstn (Z.to_nat n) l
  else firstn (Z.to_nat (Z.of_nat (List.length l) + n)) l.

End PyStr.

(** ** bi_page_classifier.py *)

Module BiPageClassifier.
Import PyStr.

Record config := {
  tier : Z;
  intelligence : string;
  url_patterns : list string;
  title_patterns : list string
}.

(** The dictionary literal, in insertion order (the order in which
    [BI_TAXONOMY.items()] yields it). *)
Definition BI_TAXONOMY : list (string * config) :=
  [ ("careers",
     {| tier := 1;
        intelligence := "Hiring activity, growth indicators, business expansion signals";
        url_patterns := ["/careers"; "/jobs"; "/employment"; "/opportunities"; "/hiring"; "/work-with-us"; "/join-us"];
        title_patterns := ["careers"; "jobs"; "employment"; "opportunities"; "join us"; "work with us"; "hiring"; "open positions"] |});
    ("services",
     {| tier := 1;
        intelligence := "Revenue streams, core competencies, competitive positioning";
        url_patterns := ["/services"; "/solutions"; "/offerings"; "/capabilities"; "/expertise"; "/what-we-do"];
        title_patterns := ["services"; "solutions"; "what we do"; "capabilities"; "offerings"; "expertise"] |});
    ("products",
     {| tier := 1;
        intelligence := "Product portfolio, market focus, innovation pipeline";
        url_patterns := ["/products"; "/catalog"; "/portfolio"; "/brands"; "/shop"];
        title_patterns := ["products"; "catalog"; "portfolio"; "brands"; "offerings"; "shop"] |});
    ("about",
     {| tier := 1;
        intelligence := "Mission, history, size, business model, values";
        url_patterns := ["/about"; "/company"; "/who-we-are"; "/overview"; "/our-story"];
        title_patterns := ["about"; "company"; "who we are"; "overview"; "our story"; "about us"] |});
    ("team",
     {| tier := 2;
        intelligence := "Leadership depth, expertise, company culture, decision makers";
        url_patterns := ["/team"; "/leadership"; "/people"; "/staff"; "/management"; "/executives"; "/board"; "/founders"];
        title_patterns := ["team"; "leadership"; "people"; "staff"; "management"; "executives"; "our team"; "meet the team"; "board of directors"; "founders"] |});
    ("news",
     {| tier := 2;
        intelligence := "Market activity, thought leadership, PR activity, company momentum";
        url_patterns := ["/news"; "/blog"; "/insights"; "/updates"; "/press"; "/media"; "/articles"; "/resources"];
        title_patterns := ["news"; "blog"; "insights"; "updates"; "press releases"; "media"; "articles"; "thought leadership"; "resources"] |});
    ("locations",
     {| tier := 3;
        intelligence := "Market reach, geographic expansion, operational footprint";
        url_patterns := ["/locations"; "/offices"; "/facilities"; "/branches"; "/stores"; "/find-us"];
        title_patterns := ["locations"; "offices"; "facilities"; "branches"; "stores"; "find us"; "where we are"] |});
    ("contact",
     {| tier := 3;
        intelligence := "Geographic presence, contact channels, business accessibility";
        url_patterns := ["/contact"; "/reach-us"; "/get-in-touch"; "/connect"];
        title_patterns := ["contact"; "reach us"; "get in touch"; "contact us"; "connect"] |});
    ("case-studies",
     {| tier := 4;
        intelligence := "Client quality, project scale, market positioning, success metrics";
        url_patterns := ["/case-studies"; "/portfolio"; "/work"; "/projects"; "/clients"; "/success-stories"; "/testimonials"];
        title_patterns := ["case studies"; "portfolio"; "our work"; "projects"; "success stories"; "client stories"; "testimonials"] |});
    ("industries",
     {| tier := 4;
        intelligence := "Market segments, vertical expertise, industry positioning";
        url_patterns := ["/industries"; "/sectors"; "/markets"; "/verticals"; "/who-we-serve"];
        title_patterns := ["industries"; "sectors"; "markets"; "verticals"; "who we serve"; "market focus"] |});
    ("investors",
     {| tier := 5;
        intelligence := "Financial health, public company status, growth metrics";
        url_patterns := ["/investors"; "/investor-relations"; "/financials"; "/sec-filings"; "/earnings"];
        title_patterns := ["investors"; "investor relations"; "financials"; "sec filings"; "earnings"] |});
    ("legal",
     {| tier := 6;
        intelligence := "Compliance status (minimal business intelligence)";
        url_patterns := ["/terms"; "/privacy"; "/legal"; "/compliance"; "/gdpr"; "/ccpa"; "/cookies"];
        title_patterns := ["terms"; "privacy"; "legal"; "compliance"; "gdpr"; "ccpa"; "cookie policy"] |}) ].

(** A classification result: category, tier, intelligence value. *)
Definition classification : Type := string * Z * string.

Definition unclassified : classification :=
  ("unclassified", 7, "Unknown business intelligence value").

(** [s.lower() if s else ''], for [s] a string or [None]. *)
Definition lower_or_empty (s : option string) : string :=
  match s with
  | None => ""
  | Some EmptyString => ""
  | Some s => lower s
  end.

(** The body of the [for classification, config in ...] loop: the inner
    loop over the URL patterns runs to its end before the loop over the
    title patterns starts; falling out of both continues with the next
    entry. *)
Fixpoint classify_loop (taxonomy : list (string * config))
    (url_lower title_lower : string) : classification :=
  match taxonomy with
  | [] => unclassified
  | (name, cfg) :: rest =>
      if any_in (url_patterns cfg) url_lower
      then (name, tier cfg, intelligence cfg)
      else if any_in (title_patterns cfg) title_lower
      then (name, tier cfg, intelligence cfg)
      else classify_loop rest url_lower title_lower
  end.

Definition classify_page_bi (url title : option string) : classification :=
  let url_lower := lower_or_empty url in
  let title_lower := lower_or_empty title in
  classify_loop BI_TAXONOMY url_lower title_lower.

(** A taxonomy entry matches when one of its URL patterns occurs in the
    lower-cased URL or one of its title patterns in the lower-cased
    title. *)
Definition entry_matches (url_lower title_lower : string)
    (entry : string * config) : bool :=
  any_in (url_patterns entry.2) url_lower
  || any_in (title_patterns entry.2) title_lower.

Definition result_of (entry : string * config) : classification :=
  (entry.1, tier entry.2, intelligence entry.2).

End BiPageClassifier.


(** ** Parsed XML, as [xml.etree.ElementTree] presents it *)

Module Xml.

Inductive element : Type :=
  Element (tag : string) (text : option string) (children : list element).

Definition tag_of (e : element) : string :=
  match e with Element t _ _ => t end.

(** [elem.text] *)
Definition text_of (e : element) : option string :=
  match e with Element _ t _ => t end.

(** All elements strictly below [e], in document order. *)
Fixpoint descendants (e : element) : list element :=
  match e with
  | Element _ _ cs =>
      (fix over (l : list element) : list element :=
         match l with
         | [] => []
         | c :: l' => c :: descendants c ++ over l'
         end) cs
  end.

(** [e.findall('.//' + t)] *)
Definition findall (t : string) (e : element) : list element :=
  List.filter (fun d => String.eqb (tag_of d) t) (descendants e).

(** [e.find('.//' + t)] *)
Definition find (t : string) (e : element) : option element :=
  List.head (findall t e).

Definition ns (local : string) : string :=
  "{http://www.sitemaps.org/schemas/sitemap/0.9}" ++ local.

End Xml.

(** ** The outside world: HTTP *)

Module Http.

(** What a GET gives: a response with its status and body, or an
    exception (time-out, connection error, unusable URL). *)
Inductive response : Type :=
| Response (status : Z) (text : string)
| Failed.

(** [session.get(u)] for [u] a string or [None]; [None] makes the
    client raise. *)
Definition get (http_get : string -> response) (u : option string) : response :=
  match u with
  | None => Failed
  | Some u => http_get u
  end.

End Http.

(** ** The relational store *)

Module Store.

(** A row of [website_pages], with the columns the scripts write. *)
Record row := {
  website_structure_id : Z;
  url : string;
  path : string;
  title : string;
  page_type : string;
  bi_classification : string;
  business_value_tier : Z;
  intelligence_value : string
}.

(** A row of [website_structures], keyed by its [id] in the store. *)
Record structure := {
  domain : string;
  total_pages : Z;
  updated_at : Z
}.

(** A company joined with its structure, as the selection queries
    return it. *)
Record company := {
  name : string;
  company_domain : string;
  structure_id : Z
}.

Record db := {
  companies : list company;
  website_structures : gmap Z structure;
  website_pages : list row
}.

Definition owned_by (sid : Z) (r : row) : bool :=
  website_structure_id r =? sid.

(** [SELECT COUNT( * ) FROM website_pages WHERE website_structure_id = $1] *)
Definition count_pages (d : db) (sid : Z) : Z :=
  Z.of_nat (List.length (List.filter (owned_by sid) (website_pages d))).

(** [DELETE FROM website_pages WHERE website_structure_id = $1] *)
Definition delete_pages (d : db) (sid : Z) : db :=
  {| companies := companies d;
     website_structures := website_structures d;
     website_pages := List.filter (fun r => negb (owned_by sid r)) (website_pages d) |}.

(** [DELETE FROM website_pages WHERE website_structure_id = $1
    RETURNING COUNT( * )]: PostgreSQL allows no aggregate function in a
    RETURNING list and refuses the statement whatever the data; nothing
    is deleted and the client raises ([None]). *)
Definition delete_pages_returning_count (d : db) (sid : Z) : option (Z * db) :=
  None.

(** [UPDATE website_structures SET total_pages = $1, updated_at = NOW()
    WHERE id = $2] *)
Definition update_structure (d : db) (total : Z) (now : Z) (sid : Z) : db :=
  {| companies := companies d;
     website_structures :=
       alter (fun s => {| domain := domain s; total_pages := total; updated_at := now |})
             sid (website_structures d);
     website_pages := website_pages d |}.

(** [SELECT ... FROM companies c JOIN website_structures ws ...
    WHERE c.name = $1], first row. *)
Definition company_named (d : db) (n : string) : option company :=
  List.find (fun c => String.eqb (name c) n) (companies d).

Section Insert.
(** The store's constraints (unique keys, field lengths): whether a
    row is accepted next to the rows already there.  A rejected
    [INSERT] raises in the client. *)
Variable accepts : list row -> row -> bool.

Definition insert_page (d : db) (r : row) : option db :=
  if accepts (website_pages d) r
  then Some {| companies := companies d;
               website_structures := website_structures d;
               website_pages := (website_pages d ++ [r])%list |}
  else None.

End Insert.

End Store.

(** The four classification keys that the URL classifiers return and that
    are merged into a page dictionary. *)
Record bi_info := {
  page_type : string;
  bi_classification : string;
  business_value_tier : Z;
  intelligence_value : string
}.

(** ** advanced_sitemap_parser.py *)

Module AdvancedSitemapParser.
Import PyStr Xml Http.

Definition classify_page_for_bi (url : string) : bi_info :=
  let url_lower := lower url in
  if any_in ["/career"; "/job"; "/hiring"; "/employment"; "/work-with-us"; "/join-us"] url_lower then
    {| page_type := "careers"; bi_classification := "careers"; business_value_tier := 1;
       intelligence_value := "Hiring activity, growth indicators, business expansion signals" |}
  else if any_in ["/service"; "/solution"; "/offering"; "/capability"; "/what-we-do"] url_lower then
    {| page_type := "services"; bi_classification := "services"; business_value_tier := 1;
       intelligence_value := "Revenue streams, core competencies, competitive positioning" |}
  else if any_in ["/product"; "/shop"; "/catalog"; "/store"; "/brands"] url_lower then
    {| page_type := "products"; bi_classification := "products"; business_value_tier := 1;
       intelligence_value := "Product portfolio, market focus, innovation pipeline" |}
  else if any_in ["/about"; "/company"; "/who-we-are"; "/overview"; "/our-story"] url_lower then
    {| page_type := "about"; bi_classification := "about"; business_value_tier := 1;
       intelligence_value := "Mission, history, size, business model, values" |}
  else if any_in ["/team"; "/leadership"; "/people"; "/staff"; "/management"; "/executives"] url_lower then
    {| page_type := "team"; bi_classification := "team"; business_value_tier := 2;
       intelligence_value := "Leadership depth, expertise, company culture, decision makers" |}
  else if any_in ["/news"; "/blog"; "/insight"; "/article"; "/press"; "/media"] url_lower then
    {| page_type := "news"; bi_classification := "news"; business_value_tier := 2;
       intelligence_value := "Market activity, thought leadership, PR activity, company momentum" |}
  else if any_in ["/location"; "/office"; "/facility"; "/branch"; "/store"] url_lower then
    {| page_type := "locations"; bi_classification := "locations"; business_value_tier := 3;
       intelligence_value := "Market reach, geographic expansion, operational footprint" |}
  else if any_in ["/contact"; "/reach-us"; "/get-in-touch"] url_lower then
    {| page_type := "contact"; bi_classification := "contact"; business_value_tier := 3;
       intelligence_value := "Geographic presence, contact channels, business accessibility" |}
  else
    {| page_type := "other"; bi_classification := "unclassified"; business_value_tier := 7;
       intelligence_value := "Unknown business intelligence value" |}.

(** [re.sub(r'[_-]', ' ', s)] *)
Fixpoint sub_separators (s : string) : string :=
  match s with
  | EmptyString => EmptyString
  | String c s' =>
      String (if Ascii.eqb c "_"%char || Ascii.eqb c "-"%char then " "%char else c)
             (sub_separators s')
  end.

Definition newline : string := String (ascii_of_nat 10) EmptyString.

Definition drop_last (n : nat) (s : string) : string :=
  String.substring 0 (String.length s - n) s.

(** [re.sub(r'\.html?$', '', s, flags=re.IGNORECASE)]: the dollar
    matches at the end and before a newline that ends the string. *)
Definition sub_html_suffix (s : string) : string :=
  let ends_nl := endswith newline s in
  let body := if ends_nl then drop_last 1 s else s in
  let tail := if ends_nl then newline else EmptyString in
  if endswith ".html" (lower body) then drop_last 5 body ++ tail
  else if endswith ".htm" (lower body) then drop_last 4 body ++ tail
  else s.

(** The entries of one sitemap before classification. *)
Record page {pyfloat : Type} := {
  url : string;
  path : string;
  title : string;
  lastModified : option string;
  priority : option pyfloat;
  changeFreq : option string;
  depth : nat
}.
Arguments page : clear implicits.

(** An entry after [page.update(classify_page_for_bi(page['url']))]. *)
Record classified_page {pyfloat : Type} := {
  entry : page pyfloat;
  bi : bi_info
}.
Arguments classified_page : clear implicits.

Section Parser.
(** Python's library, taken as given: [ET.fromstring] ([None] for a
    [ParseError]), the [path] of [urlparse] ([None] when [urlparse]
    raises) and [float] ([None] when it raises). *)
Variable fromstring : string -> option element.
Variable urlparse_path : string -> option string.
Variable pyfloat : Type.
Variable float : string -> option pyfloat.
Variable http_get : string -> response.

Definition generate_title_from_url (url : string) : string :=
  match urlparse_path url with
  | None => "Page"
  | Some parsed_path =>
      let path := strip_slash parsed_path in
      if is_empty path then "Home"
      else
        match segments path with
        | [] => "Page"
        | segs =>
            let last_segment := PyStr.last_segment segs in
            let title := sub_separators last_segment in
            let title := sub_html_suffix title in
            PyStr.title title
        end
  end.

(** What one turn of the loop over the [url] elements does. *)
Inductive turn : Type :=
| Skip
| Append (p : page pyfloat)
| Raise.

(** The filter on a stripped [loc] text. *)
Definition is_real_page (domain url : string) : bool :=
  str_in domain url
  && negb (str_in "sitemap" (lower url))
  && negb (str_in ".xml" (lower url))
  && (startswith "http://" url || startswith "https://" url).

Definition extract_turn (domain : string) (url_elem : element) : turn :=
  match find (ns "loc") url_elem with
  | None => Skip
  | Some loc_elem =>
      match text_of loc_elem with
      | None => Skip
      | Some EmptyString => Skip
      | Some loc_text =>
          let url := strip loc_text in
          if is_real_page domain url then
            let lastmod_elem := find (ns "lastmod") url_elem in
            let priority_elem := find (ns "priority") url_elem in
            let changefreq_elem := find (ns "changefreq") url_elem in
            match (if startswith "http" url then urlparse_path url else Some url) with
            | None => Raise
            | Some path =>
                let mk priority :=
                  Append {| url := url;
                            path := path;
                            title := generate_title_from_url url;
                            lastModified := lastmod_elem ≫= text_of;
                            priority := priority;
                            changeFreq := changefreq_elem ≫= text_of;
                            depth := List.length (segments path) |} in
                match priority_elem with
                | None => mk None
                | Some e =>
                    match text_of e ≫= float with
                    | None => Raise
                    | Some f => mk (Some f)
                    end
                end
            end
          else Skip
      end
  end.

(** The loop over the [url] elements; an exception ends it and the
    pages appended so far are returned. *)
Fixpoint extract_loop (domain : string) (url_elements : list element)
    : list (page pyfloat) :=
  match url_elements with
  | [] => []
  | url_elem :: rest =>
      match extract_turn domain url_elem with
      | Skip => extract_loop domain rest
      | Append p => p :: extract_loop domain rest
      | Raise => []
      end
  end.

Definition extract_real_pages_from_xml (xml_content domain : string)
    : list (page pyfloat) :=
  match fromstring xml_content with
  | None => []
  | Some root => extract_loop domain (findall (ns "url") root)
  end.

Definition classify (p : page pyfloat) : classified_page pyfloat :=
  {| entry := p; bi := classify_page_for_bi (url p) |}.

Definition common_paths (domain : string) : list string :=
  [ "https://" ++ domain ++ "/sitemap.xml";
    "https://www." ++ domain ++ "/sitemap.xml";
    "https://" ++ domain ++ "/sitemap_index.xml";
    "https://" ++ domain ++ "/sitemaps.xml" ].

Fixpoint first_found (candidates : list string) : option string :=
  match candidates with
  | [] => None
  | sitemap_url :: rest =>
      match http_get sitemap_url with
      | Response status _ =>
          if status =? 200 then Some sitemap_url else first_found rest
      | Failed => first_found rest
      end
  end.

Definition find_main_sitemap (domain : string) : option string :=
  first_found (common_paths domain).

(** The loop [for page in sub_pages], appending to [real_pages]. *)
Fixpoint append_pages (limit_pages : Z) (sub_pages : list (page pyfloat))
    (real_pages : list (classified_page pyfloat))
    : list (classified_page pyfloat) :=
  match sub_pages with
  | [] => real_pages
  | page :: rest =>
      if Z.of_nat (List.length real_pages) >=? limit_pages then real_pages
      else append_pages limit_pages rest (real_pages ++ [classify page])%list
  end.

(** The loop [for i, sitemap_elem in enumerate(sitemap_elements)]; a
    missing [loc], a status other than 200 and an exception all go on to
    the next element. *)
Fixpoint index_loop (domain : string) (limit_pages : Z)
    (sitemap_elements : list element)
    (real_pages : list (classified_page pyfloat))
    : list (classified_page pyfloat) :=
  match sitemap_elements with
  | [] => real_pages
  | sitemap_elem :: rest =>
      if Z.of_nat (List.length real_pages) >=? limit_pages then real_pages
      else
        match find (ns "loc") sitemap_elem with
        | None => index_loop domain limit_pages rest real_pages
        | Some loc_elem =>
            let sub_sitemap_url := text_of loc_elem in
            match get http_get sub_sitemap_url with
            | Response status sub_xml =>
                if status =? 200 then
                  let sub_pages := extract_real_pages_from_xml sub_xml domain in
                  index_loop domain limit_pages rest
                    (append_pages limit_pages sub_pages real_pages)
                else index_loop domain limit_pages rest real_pages
            | Failed => index_loop domain limit_pages rest real_pages
            end
        end
  end.

Definition parse_company_real_pages (domain : string) (limit_pages : Z)
    : list (classified_page pyfloat) :=
  match find_main_sitemap domain with
  | None => []
  | Some main_sitemap_url =>
      match http_get main_sitemap_url with
      | Failed => []
      | Response status xml_content =>
          if status =? 200 then
            match fromstring xml_content with
            | None => []
            | Some root =>
                match findall (ns "sitemap") root with
                | [] =>
                    let pages := extract_real_pages_from_xml xml_content domain in
                    map classify (slice_to limit_pages pages)
                | sitemap_elements =>
                    index_loop domain limit_pages sitemap_elements []
                end
            end
          else []
      end
  end.

End Parser.

End AdvancedSitemapParser.

(** ** database_sitemap_fixer.py: extraction *)

Module DatabaseSitemapFixer.
Import PyStr Xml Http.

Record page := {
  url : string;
  path : string;
  title : string;
  page_type : string;
  bi_classification : string;
  tier : Z;
  intelligence_value : string
}.

Definition classify_real_page (url : string) : string :=
  let url_lower := lower url in
  if any_in ["/career"; "/job"; "/hiring"] url_lower then "careers"
  else if any_in ["/service"; "/solution"] url_lower then "services"
  else if any_in ["/product"; "/shop"; "/catalog"] url_lower then "products"
  else if any_in ["/about"; "/company"] url_lower then "about"
  else if any_in ["/news"; "/blog"; "/press"] url_lower then "news"
  else if any_in ["/team"; "/leadership"] url_lower then "team"
  else if any_in ["/contact"] url_lower then "contact"
  else "other".

Definition bi_other : string * Z * string :=
  ("unclassified", 7, "Unknown business intelligence value").

Definition bi_map : gmap string (string * Z * string) :=
  list_to_map
    [ ("careers", ("careers", 1, "Hiring activity, growth indicators, business expansion signals"));
      ("services", ("services", 1, "Revenue streams, core competencies, competitive positioning"));
      ("products", ("products", 1, "Product portfolio, market focus, innovation pipeline"));
      ("about", ("about", 1, "Mission, history, size, business model, values"));
      ("team", ("team", 2, "Leadership depth, expertise, company culture, decision makers"));
      ("news", ("news", 2, "Market activity, thought leadership, PR activity, company momentum"));
      ("contact", ("contact", 3, "Geographic presence, contact channels, business accessibility"));
      ("other", bi_other) ].

(** [bi_map.get(page_type, bi_map['other'])] *)
Definition get_bi_classification (page_type : string) : string * Z * string :=
  default bi_other (bi_map !! page_type).

Definition generate_title_from_path (path : string) : string :=
  if String.eqb path "/" then "Home"
  else
    match segments path with
    | [] => "Page"
    | segs =>
        let last_segment :=
          replace "_" " " (replace "-" " " (PyStr.last_segment segs)) in
        PyStr.title last_segment
    end.

Section Extraction.
Variable fromstring : string -> option element.
Variable http_get : string -> response.

(** One turn of the loop over the [url] elements: the page appended,
    if any.  Nothing in the loop raises. *)
Definition extract_turn (domain : string) (url_elem : element) : option page :=
  match find (ns "loc") url_elem with
  | None => None
  | Some loc_elem =>
      match text_of loc_elem with
      | None => None
      | Some EmptyString => None
      | Some url =>
          if str_in domain url && negb (str_in "sitemap" (lower url)) then
            let path :=
              replace ("http://" ++ domain) ""
                (replace ("https://" ++ domain) "" url) in
            let path := if startswith "/" path then path else "/" ++ path in
            let page_type := classify_real_page url in
            let '(bi_class, tier, intelligence) := get_bi_classification page_type in
            Some {| url := url;
                    path := path;
                    title := generate_title_from_path path;
                    page_type := page_type;
                    bi_classification := bi_class;
                    tier := tier;
                    intelligence_value := intelligence |}
          else None
      end
  end.

Definition extract_urls_from_sitemap_xml (xml_content domain : string)
    : list page :=
  match fromstring xml_content with
  | None => []
  | Some root => omap (extract_turn domain) (findall (ns "url") root)
  end.

(** The loop over the sub-sitemap elements of an index. *)
Fixpoint index_loop (domain : string) (sitemap_elements : list element)
    (real_pages : list page) : list page :=
  match sitemap_elements with
  | [] => real_pages
  | sitemap_elem :: rest =>
      match find (ns "loc") sitemap_elem with
      | None => index_loop domain rest real_pages
      | Some loc_elem =>
          match get http_get (text_of loc_elem) with
          | Response status sub_xml =>
              if status =? 200
              then index_loop domain rest
                     (real_pages ++ extract_urls_from_sitemap_xml sub_xml domain)%list
              else index_loop domain rest real_pages
          | Failed => index_loop domain rest real_pages
          end
      end
  end.

Definition sitemap_patterns (domain : string) : list string :=
  [ "https://" ++ domain ++ "/sitemap.xml";
    "https://www." ++ domain ++ "/sitemap.xml" ].

(** The loop over [sitemap_patterns]: the first answer with status 200
    whose body parses is used and ends the loop. *)
Fixpoint patterns_loop (domain : string) (patterns : list string)
    (real_pages : list page) : list page :=
  match patterns with
  | [] => real_pages
  | sitemap_url :: rest =>
      match http_get sitemap_url with
      | Failed => patterns_loop domain rest real_pages
      | Response status xml_content =>
          if status =? 200 then
            match fromstring xml_content with
            | None => patterns_loop domain rest real_pages
            | Some root =>
                match findall (ns "sitemap") root with
                | [] => (real_pages ++ extract_urls_from_sitemap_xml xml_content domain)%list
                | sitemap_elements => index_loop domain sitemap_elements real_pages
                end
            end
          else patterns_loop domain rest real_pages
      end
  end.

Definition parse_company_real_pages (domain : string) : list page :=
  patterns_loop domain (sitemap_patterns domain) [].

End Extraction.

(** The values bound by the [INSERT]; every key read with [page.get]
    is present in the dictionaries built above. *)
Definition row_of (structure_id : Z) (p : page) : Store.row :=
  {| Store.website_structure_id := structure_id;
     Store.url := url p;
     Store.path := path p;
     Store.title := title p;
     Store.page_type := page_type p;
     Store.bi_classification := bi_classification p;
     Store.business_value_tier := tier p;
     Store.intelligence_value := intelligence_value p |}.

Section Reconciliation.
Variable accepts : list Store.row -> Store.row -> bool.
(** [parse_company_real_pages], and the value of [NOW()]. *)
Variable parse_company_real_pages : string -> list page.
Variable now : Z.

(** The loop [for page in real_pages_sample]; it keeps no count. *)
Fixpoint insert_loop (structure_id : Z) (pages : list page) (d : Store.db)
    : Store.db :=
  match pages with
  | [] => d
  | page :: rest =>
      match Store.insert_page accepts d (row_of structure_id page) with
      | Some d' => insert_loop structure_id rest d'
      | None => insert_loop structure_id rest d
      end
  end.

(** How a run ends: it returns, or an exception leaves it; either way
    with the store as the statements executed so far left it. *)
Inductive outcome : Type :=
| Returned (conn : Store.db)
| Raised (conn : Store.db).

Definition store_of (o : outcome) : Store.db :=
  match o with Returned conn => conn | Raised conn => conn end.

(** The body of the loop [for company in problem_companies].  The
    [DELETE] stands outside every [try]: when the store refuses it the
    exception leaves the function. *)
Definition fix_company (conn : Store.db) (company : Store.company) : outcome :=
  let structure_id := Store.structure_id company in
  let real_pages := parse_company_real_pages (Store.company_domain company) in
  if Z.of_nat (List.length real_pages) >? 20 then
    match Store.delete_pages_returning_count conn structure_id with
    | None => Raised conn
    | Some (deleted, conn) =>
        let real_pages_sample := slice_to 100 real_pages in
        let conn := insert_loop structure_id real_pages_sample conn in
        Returned
          (Store.update_structure conn (Z.of_nat (List.length real_pages_sample)) now
             structure_id)
    end
  else Returned conn.

(** The loop [for company in problem_companies]. *)
Fixpoint companies_loop (conn : Store.db) (problem_companies : list Store.company)
    : outcome :=
  match problem_companies with
  | [] => Returned conn
  | company :: rest =>
      match fix_company conn company with
      | Returned conn => companies_loop conn rest
      | Raised conn => Raised conn
      end
  end.

(** [problem_companies] is the answer of the selection query. *)
Definition fix_sitemap_database (conn : Store.db)
    (problem_companies : list Store.company) : outcome :=
  companies_loop conn problem_companies.

End Reconciliation.

End DatabaseSitemapFixer.

(** ** phase3_scaled_processor.py *)

Module Phase3ScaledProcessor.
Import PyStr Xml Http.

(** A page dictionary: the four literal keys and the keys of
    [bi_info] merged in. *)
Record page := {
  url : string;
  path : string;
  title : string;
  depth : nat;
  bi : bi_info
}.

Definition get_enhanced_bi_classification (url : string) : bi_info :=
  let url_lower := lower url in
  if any_in ["/career"; "/job"; "/hiring"; "/employment"; "/opportunity"] url_lower then
    {| page_type := "careers"; bi_classification := "careers"; business_value_tier := 1;
       intelligence_value := "Hiring activity, growth indicators, business expansion signals" |}
  else if any_in ["/service"; "/solution"; "/offering"; "/capability"] url_lower then
    {| page_type := "services"; bi_classification := "services"; business_value_tier := 1;
       intelligence_value := "Revenue streams, core competencies, competitive positioning" |}
  else if any_in ["/product"; "/catalog"; "/shop"; "/store"; "/brand"] url_lower then
    {| page_type := "products"; bi_classification := "products"; business_value_tier := 1;
       intelligence_value := "Product portfolio, market focus, innovation pipeline" |}
  else if any_in ["/about"; "/company"; "/who-we-are"; "/overview"] url_lower then
    {| page_type := "about"; bi_classification := "about"; business_value_tier := 1;
       intelligence_value := "Mission, history, size, business model, values" |}
  else if any_in ["/team"; "/leadership"; "/people"; "/staff"; "/management"] url_lower then
    {| page_type := "team"; bi_classification := "team"; business_value_tier := 2;
       intelligence_value := "Leadership depth, expertise, company culture, decision makers" |}
  else if any_in ["/news"; "/blog"; "/insight"; "/article"; "/press"; "/media"] url_lower then
    {| page_type := "news"; bi_classification := "news"; business_value_tier := 2;
       intelligence_value := "Market activity, thought leadership, PR activity, company momentum" |}
  else if any_in ["/location"; "/office"; "/facility"; "/branch"] url_lower then
    {| page_type := "locations"; bi_classification := "locations"; business_value_tier := 3;
       intelligence_value := "Market reach, geographic expansion, operational footprint" |}
  else if any_in ["/contact"; "/reach-us"; "/get-in-touch"] url_lower then
    {| page_type := "contact"; bi_classification := "contact"; business_value_tier := 3;
       intelligence_value := "Geographic presence, contact channels, business accessibility" |}
  else
    {| page_type := "other"; bi_classification := "unclassified"; business_value_tier := 7;
       intelligence_value := "Unknown business intelligence value" |}.

Definition create_title_from_path (path : string) : string :=
  if String.eqb path "/" then "Home"
  else
    match segments path with
    | [] => "Page"
    | segs =>
        let last_segment := PyStr.last_segment segs in
        let title := replace "_" " " (replace "-" " " last_segment) in
        let title := replace ".php" "" (replace ".htm" "" (replace ".html" "" title)) in
        PyStr.title title
    end.

(** The filter on a stripped [loc] text. *)
Definition is_real_page (domain url : string) : bool :=
  str_in domain url
  && negb (str_in "sitemap" (lower url))
  && negb (str_in ".xml" (lower url))
  && negb (endswith ".xml" url)
  && (startswith "http://" url || startswith "https://" url).

Section Extraction.
Variable fromstring : string -> option element.
Variable http_get : string -> response.

Definition extract_turn (domain : string) (url_elem : element) : option page :=
  match find (ns "loc") url_elem with
  | None => None
  | Some loc_elem =>
      match text_of loc_elem with
      | None => None
      | Some EmptyString => None
      | Some loc_text =>
          let url := strip loc_text in
          if is_real_page domain url then
            let path :=
              replace ("https://" ++ domain) ""
                (replace ("https://www." ++ domain) "" url) in
            let path := if is_empty path then "/" else path in
            let bi_info := get_enhanced_bi_classification url in
            Some {| url := url;
                    path := path;
                    title := create_title_from_path path;
                    depth := List.length (segments path);
                    bi := bi_info |}
          else None
      end
  end.

Definition parse_sitemap_for_real_pages (xml_content domain : string)
    : list page :=
  match fromstring xml_content with
  | None => []
  | Some root => omap (extract_turn domain) (findall (ns "url") root)
  end.

(** The loop over [sitemap_elements[:10]]. *)
Fixpoint index_loop (domain : string) (sitemap_elements : list element)
    (all_pages : list page) : list page :=
  match sitemap_elements with
  | [] => all_pages
  | sitemap_elem :: rest =>
      match find (ns "loc") sitemap_elem with
      | None => index_loop domain rest all_pages
      | Some loc_elem =>
          match get http_get (text_of loc_elem) with
          | Response status sub_xml =>
              if status =? 200 then
                let pages := parse_sitemap_for_real_pages sub_xml domain in
                let all_pages := (all_pages ++ pages)%list in
                if Z.of_nat (List.length all_pages) >=? 300 then all_pages
                else index_loop domain rest all_pages
              else index_loop domain rest all_pages
          | Failed => index_loop domain rest all_pages
          end
      end
  end.

Definition parse_sitemap_index_for_real_pages (xml_content domain : string)
    : list page :=
  match fromstring xml_content with
  | None => []
  | Some root =>
      let sitemap_elements := findall (ns "sitemap") root in
      index_loop domain (slice_to 10 sitemap_elements) []
  end.

Definition sitemap_urls (domain : string) : list string :=
  [ "https://" ++ domain ++ "/sitemap.xml";
    "https://www." ++ domain ++ "/sitemap.xml" ].

Fixpoint urls_loop (domain : string) (urls : list string)
    (real_pages : list page) : list page :=
  match urls with
  | [] => real_pages
  | sitemap_url :: rest =>
      match http_get sitemap_url with
      | Failed => urls_loop domain rest real_pages
      | Response status xml_content =>
          if status =? 200 then
            let pages :=
              if str_in "sitemapindex" xml_content || str_in "<sitemap>" xml_content
              then parse_sitemap_index_for_real_pages xml_content domain
              else parse_sitemap_for_real_pages xml_content domain in
            let real_pages := (real_pages ++ pages)%list in
            if Z.of_nat (List.length pages) >? 0 then real_pages
            else urls_loop domain rest real_pages
          else urls_loop domain rest real_pages
      end
  end.

Definition extract_company_real_pages (domain : string) : list page :=
  urls_loop domain (sitemap_urls domain) [].

End Extraction.

(** The counters of the [stats] dictionary. *)
Record stats := {
  processed : Z;
  successful : Z;
  failed : Z;
  total_pages_before : Z;
  total_pages_after : Z
}.

Definition row_of (structure_id : Z) (p : page) : Store.row :=
  {| Store.website_structure_id := structure_id;
     Store.url := url p;
     Store.path := path p;
     Store.title := title p;
     Store.page_type := page_type (bi p);
     Store.bi_classification := bi_classification (bi p);
     Store.business_value_tier := business_value_tier (bi p);
     Store.intelligence_value := intelligence_value (bi p) |}.

Section Reconciliation.
Variable accepts : list Store.row -> Store.row -> bool.
(** [extract_company_real_pages], and the value of [NOW()]. *)
Variable extract_company_real_pages : string -> list page.
Variable now : Z.

(** The loop [for page in pages_to_insert], with its counter. *)
Fixpoint insert_loop (structure_id : Z) (pages : list page)
    (d : Store.db) (inserted : Z) : Store.db * Z :=
  match pages with
  | [] => (d, inserted)
  | page :: rest =>
      match Store.insert_page accepts d (row_of structure_id page) with
      | Some d' => insert_loop structure_id rest d' (inserted + 1)
      | None => insert_loop structure_id rest d inserted
      end
  end.

Definition fix_company_with_real_pages (pool : Store.db)
    (company : Store.company) (st : stats) : bool * Store.db * stats :=
  let domain := Store.company_domain company in
  let structure_id := Store.structure_id company in
  let current_count := Store.count_pages pool structure_id in
  let st :=
    {| processed := processed st; successful := successful st; failed := failed st;
       total_pages_before := total_pages_before st + current_count;
       total_pages_after := total_pages_after st |} in
  let real_pages := extract_company_real_pages domain in
  if Z.of_nat (List.length real_pages) <? 5 then (false, pool, st)
  else
    let pages_to_insert := slice_to 300 real_pages in
    let pool := Store.delete_pages pool structure_id in
    let '(pool, inserted) := insert_loop structure_id pages_to_insert pool 0 in
    let pool := Store.update_structure pool inserted now structure_id in
    let st :=
      {| processed := processed st; successful := successful st; failed := failed st;
         total_pages_before := total_pages_before st;
         total_pages_after := total_pages_after st + inserted |} in
    (true, pool, st).

End Reconciliation.

End Phase3ScaledProcessor.

(** ** phase3_final.py: reconciliation *)

Module Phase3Final.
Import PyStr.

Record page := {
  url : string;
  path : string;
  title : string;
  bi : bi_info
}.

Definition row_of (structure_id : Z) (p : page) : Store.row :=
  {| Store.website_structure_id := structure_id;
     Store.url := url p;
     Store.path := path p;
     Store.title := title p;
     Store.page_type := page_type (bi p);
     Store.bi_classification := bi_classification (bi p);
     Store.business_value_tier := business_value_tier (bi p);
     Store.intelligence_value := intelligence_value (bi p) |}.

Section Reconciliation.
Variable accepts : list Store.row -> Store.row -> bool.
(** [extract_real_pages], and the value of [NOW()]. *)
Variable extract_real_pages : string -> list page.
Variable now : Z.

Fixpoint insert_loop (structure_id : Z) (pages : list page)
    (d : Store.db) (inserted : Z) : Store.db * Z :=
  match pages with
  | [] => (d, inserted)
  | page :: rest =>
      match Store.insert_page accepts d (row_of structure_id page) with
      | Some d' => insert_loop structure_id rest d' (inserted + 1)
      | None => insert_loop structure_id rest d inserted
      end
  end.

(** Returns the pair [(success, pages_added)] and the store. *)
Definition fix_company_pages (pool : Store.db) (company : Store.company)
    : (bool * Z) * Store.db :=
  let domain := Store.company_domain company in
  let structure_id := Store.structure_id company in
  let real_pages := extract_real_pages domain in
  if Z.of_nat (List.length real_pages) <? 5 then ((false, 0), pool)
  else
    let pool := Store.delete_pages pool structure_id in
    let real_pages_limited := slice_to 200 real_pages in
    let '(pool, inserted) := insert_loop structure_id real_pages_limited pool 0 in
    let pool := Store.update_structure pool inserted now structure_id in
    ((true, inserted), pool).

End Reconciliation.

End Phase3Final.

(** ** phase2_pilot_fix.py: reconciliation *)

Module Phase2PilotFix.
Import PyStr.

Record page := {
  url : string;
  path : string;
  title : string;
  bi : bi_info
}.

Definition row_of (structure_id : Z) (p : page) : Store.row :=
  {| Store.website_structure_id := structure_id;
     Store.url := url p;
     Store.path := path p;
     Store.title := title p;
     Store.page_type := page_type (bi p);
     Store.bi_classification := bi_classification (bi p);
     Store.business_value_tier := business_value_tier (bi p);
     Store.intelligence_value := intelligence_value (bi p) |}.

Section Reconciliation.
Variable accepts : list Store.row -> Store.row -> bool.
(** [extract_real_pages_for_company], and the value of [NOW()]. *)
Variable extract_real_pages_for_company : string -> list page.
Variable now : Z.

Fixpoint insert_loop (structure_id : Z) (pages : list page)
    (d : Store.db) (inserted : Z) : Store.db * Z :=
  match pages with
  | [] => (d, inserted)
  | page :: rest =>
      match Store.insert_page accepts d (row_of structure_id page) with
      | Some d' => insert_loop structure_id rest d' (inserted + 1)
      | None => insert_loop structure_id rest d inserted
      end
  end.

Definition fix_company_sitemap (pool : Store.db) (company_name : string)
    : bool * Store.db :=
  match Store.company_named pool company_name with
  | None => (false, pool)
  | Some company =>
      let structure_id := Store.structure_id company in
      let real_pages := extract_real_pages_for_company (Store.company_domain company) in
      if Z.of_nat (List.length real_pages) <? 10 then (false, pool)
      else
        let pilot_pages := slice_to 200 real_pages in
        let pool := Store.delete_pages pool structure_id in
        let '(pool, inserted) := insert_loop structure_id pilot_pages pool 0 in
        let pool := Store.update_structure pool inserted now structure_id in
        (true, pool)
  end.

End Reconciliation.

End Phase2PilotFix.

(** ** URLs *)

Module Url.
Import PyStr.

Fixpoint take_until (f : ascii -> bool) (s : string) : string :=
  match s with
  | EmptyString => EmptyString
  | String c s' => if f c then EmptyString else String c (take_until f s')
  end.

Fixpoint drop_until (f : ascii -> bool) (s : string) : string :=
  match s with
  | EmptyString => EmptyString
  | String c s' => if f c then s else drop_until f s'
  end.

(** What follows the first "://", or the whole string without one. *)
Fixpoint after_scheme_from (whole s : string) : string :=
  match s with
  | EmptyString => whole
  | String _ s' => if startswith "://" s then drop 3 s else after_scheme_from whole s'
  end.

Definition after_scheme (u : string) : string := after_scheme_from u u.

Definition ends_netloc (c : ascii) : bool :=
  Ascii.eqb c "/"%char || Ascii.eqb c "?"%char || Ascii.eqb c "#"%char.

Definition ends_path (c : ascii) : bool :=
  Ascii.eqb c "?"%char || Ascii.eqb c "#"%char.

(** The network location of a URL: what stands between the "://" and the
    first slash, question mark or hash. *)
Definition netloc (u : string) : string := take_until ends_netloc (after_scheme u).

(** The host of [u] belongs to [domain]: it is the domain or one of its
    subdomains. *)
Definition host_belongs (domain u : string) : bool :=
  String.eqb (netloc u) domain || endswith ("." ++ domain) (netloc u).

(** *** [urllib.parse.urlparse]

    The [path] of [urlparse(u)] for a string [u], following the library's
    [urlsplit], [_splitnetloc], [_check_bracketed_netloc], [_splitparams]
    and the address parser of [ipaddress] that the bracket check calls;
    [None] where [urlparse] raises [ValueError]. *)

Definition is_char (x : ascii) (c : ascii) : bool := Ascii.eqb c x.

Fixpoint all_chars (f : ascii -> bool) (s : string) : bool :=
  match s with
  | EmptyString => true
  | String c s' => f c && all_chars f s'
  end.

Fixpoint has_char (x : ascii) (s : string) : bool :=
  match s with
  | EmptyString => false
  | String c s' => Ascii.eqb c x || has_char x s'
  end.

Fixpoint remove_chars (f : ascii -> bool) (s : string) : string :=
  match s with
  | EmptyString => EmptyString
  | String c s' => if f c then remove_chars f s' else String c (remove_chars f s')
  end.

Definition is_digit (c : ascii) : bool :=
  (48 <=? nat_of_ascii c)%nat && (nat_of_ascii c <=? 57)%nat.

Definition is_hex_digit (c : ascii) : bool :=
  is_digit c
  || ((65 <=? nat_of_ascii c)%nat && (nat_of_ascii c <=? 70)%nat)
  || ((97 <=? nat_of_ascii c)%nat && (nat_of_ascii c <=? 102)%nat).

(** [_WHATWG_C0_CONTROL_OR_SPACE]: the characters up to the space. *)
Definition is_c0_control_or_space (c : ascii) : bool :=
  (nat_of_ascii c <=? 32)%nat.

(** [_UNSAFE_URL_BYTES_TO_REMOVE]: tab, carriage return and line feed. *)
Definition is_unsafe_byte (c : ascii) : bool :=
  (nat_of_ascii c =? 9)%nat || (nat_of_ascii c =? 13)%nat || (nat_of_ascii c =? 10)%nat.

(** [scheme_chars] *)
Definition is_scheme_char (c : ascii) : bool :=
  is_lower c || is_upper c || is_digit c
  || Ascii.eqb c "+"%char || Ascii.eqb c "-"%char || Ascii.eqb c "."%char.

Definition uses_params : list string :=
  [ ""; "ftp"; "hdl"; "prospero"; "http"; "imap"; "https"; "shttp"; "rtsp";
    "rtspu"; "sip"; "sips"; "mms"; "sftp"; "tel" ].

(** The scheme and what follows its colon; without a scheme, the empty
    scheme and the whole string. *)
Definition split_scheme (url : string) : string * string :=
  match drop_until (is_char ":"%char) url with
  | EmptyString => ("", url)
  | String _ rest =>
      match take_until (is_char ":"%char) url with
      | EmptyString => ("", url)
      | String c _ as head =>
          if (is_lower c || is_upper c) && all_chars is_scheme_char head
          then (lower head, rest)
          else ("", url)
      end
  end.

(** [s.rpartition(x)[2]]: what follows the last [x], or the whole of [s]. *)
Fixpoint after_last (x : ascii) (s : string) : string :=
  match s with
  | EmptyString => EmptyString
  | String c s' =>
      if has_char x s' then after_last x s'
      else if Ascii.eqb c x then s' else s
  end.

(** What follows the first character for which [f] holds. *)
Definition after_first (f : ascii -> bool) (s : string) : string :=
  match drop_until f s with
  | EmptyString => EmptyString
  | String _ rest => rest
  end.

(** [IPv4Address._parse_octet] accepts the text. *)
Definition is_octet (s : string) : bool :=
  negb (is_empty s)
  && all_chars is_digit s
  && (String.length s <=? 3)%nat
  && (String.eqb s "0" || negb (startswith "0" s))
  && (match NilEmpty.uint_of_string s with
      | Some n => (Nat.of_uint n <=? 255)%nat
      | None => false
      end).

(** [IPv4Address(s)] does not raise. *)
Definition is_ipv4 (s : string) : bool :=
  negb (has_char "/"%char s)
  && negb (is_empty s)
  && (List.length (split "."%char s) =? 4)%nat
  && forallb is_octet (split "."%char s).

(** [IPv6Address._parse_hextet] accepts the text. *)
Definition is_hextet (s : string) : bool :=
  negb (is_empty s) && all_chars is_hex_digit s && (String.length s <=? 4)%nat.

(** The parts of an address text; an IPv4-style last part stands for two
    parts when it is an IPv4 address and makes the text invalid
    otherwise. *)
Definition ipv6_parts (addr : string) : option (list string) :=
  let parts := split ":"%char addr in
  let last_part := List.last parts "" in
  if has_char "."%char last_part then
    if is_ipv4 last_part
    then Some (List.removelast parts ++ ["0"; "0"])%list
    else None
  else Some parts.

(** The indices from 1 to [length parts - 2] whose part is empty. *)
Definition inner_empty (parts : list string) : list nat :=
  List.filter (fun i => is_empty (nth i parts "x"))
              (seq 1 (List.length parts - 2)).

(** [IPv6Address._ip_int_from_string] does not raise. *)
Definition is_ipv6_address (addr : string) : bool :=
  negb (is_empty addr)
  && (3 <=? List.length (split ":"%char addr))%nat
  && match ipv6_parts addr with
     | None => false
     | Some parts =>
         let n := List.length parts in
         (n <=? 9)%nat
         && match inner_empty parts with
            | [] =>
                (n =? 8)%nat && forallb is_hextet parts
            | [skip_index] =>
                let first_empty := is_empty (nth 0 parts "x") in
                let last_empty := is_empty (List.last parts "x") in
                let parts_hi := if first_empty then (skip_index - 1)%nat else skip_index in
                let parts_lo :=
                  if last_empty then (n - skip_index - 1 - 1)%nat
                  else (n - skip_index - 1)%nat in
                (if first_empty then (parts_hi =? 0)%nat else true)
                && (if last_empty then (parts_lo =? 0)%nat else true)
                && (parts_hi + parts_lo <=? 7)%nat
                && forallb is_hextet (firstn parts_hi parts)
                && forallb is_hextet (skipn (n - parts_lo) parts)
            | _ => false
            end
     end.

(** [IPv6Address(s)] does not raise: the text before an optional scope
    is an address, and a scope is neither empty nor holds a percent
    sign. *)
Definition is_ipv6 (s : string) : bool :=
  negb (has_char "/"%char s)
  && (if has_char "%"%char s
      then let scope_id := after_first (is_char "%"%char) s in
           negb (is_empty scope_id) && negb (has_char "%"%char scope_id)
      else true)
  && is_ipv6_address (take_until (is_char "%"%char) s).

(** [_check_bracketed_host] does not raise. *)
Definition bracketed_host_ok (hostname : string) : bool :=
  match hostname with
  | String "v"%char rest =>
      let digits := take_until (fun c => negb (is_hex_digit c)) rest in
      negb (is_empty digits)
      && match drop (String.length digits) rest with
         | String "."%char (String _ _) => true
         | _ => false
         end
  | _ => is_ipv6 hostname
  end.

(** [_check_bracketed_netloc] does not raise. *)
Definition bracketed_netloc_ok (netloc : string) : bool :=
  let hostname_and_port := after_last "@"%char netloc in
  if has_char "["%char hostname_and_port then
    let before_bracket := take_until (is_char "["%char) hostname_and_port in
    let bracketed := after_first (is_char "["%char) hostname_and_port in
    let hostname := take_until (is_char "]"%char) bracketed in
    let port := after_first (is_char "]"%char) bracketed in
    is_empty before_bracket
    && (is_empty port || startswith ":" port)
    && bracketed_host_ok hostname
  else bracketed_host_ok (take_until (is_char ":"%char) hostname_and_port).

(** [_splitparams(url)[0]]: the path without the parameters of its last
    segment. *)
Fixpoint cut_params (url : string) : string :=
  match url with
  | EmptyString => EmptyString
  | String c url' =>
      if has_char "/"%char url' then String c (cut_params url')
      else take_until (is_char ";"%char) url
  end.

(** [urlparse(u).path] *)
Definition plain_path (u : string) : option string :=
  let url := lstrip_by is_c0_control_or_space u in
  let url := remove_chars is_unsafe_byte url in
  let '(scheme, url) := split_scheme url in
  let netloc := if startswith "//" url then take_until ends_netloc (drop 2 url) else "" in
  let url := if startswith "//" url then drop_until ends_netloc (drop 2 url) else url in
  if xorb (has_char "["%char netloc) (has_char "]"%char netloc) then None
  else if has_char "["%char netloc && has_char "]"%char netloc && negb (bracketed_netloc_ok netloc)
  then None
  else
    let url := take_until ends_path url in
    Some (if existsb (String.eqb scheme) uses_params then cut_params url else url).

End Url.

(** ** Sample documents and sample worlds *)

Module Samples.
Import Xml Http.

Definition loc (u : string) : element := Element (ns "loc") (Some u) [].
Definition url_entry (u : string) : element := Element (ns "url") None [loc u].
Definition urlset (us : list string) : element :=
  Element (ns "urlset") None (map url_entry us).
Definition sitemap_entry (u : string) : element := Element (ns "sitemap") None [loc u].
Definition sitemapindex (us : list string) : element :=
  Element (ns "sitemapindex") None (map sitemap_entry us).

(** The text of a [urlset] document listing [us]. *)
Definition urlset_xml (us : list string) : string :=
  "<urlset xmlns='http://www.sitemaps.org/schemas/sitemap/0.9'>"
  ++ String.concat "" (map (fun u => "<url><loc>" ++ u ++ "</loc></url>") us)
  ++ "</urlset>".

(** The text of a [sitemapindex] document listing [us]. *)
Definition sitemapindex_xml (us : list string) : string :=
  "<sitemapindex xmlns='http://www.sitemaps.org/schemas/sitemap/0.9'>"
  ++ String.concat "" (map (fun u => "<sitemap><loc>" ++ u ++ "</loc></sitemap>") us)
  ++ "</sitemapindex>".

(** A parser that knows the listed documents and rejects every other
    text. *)
Definition parser_of (documents : list (string * element)) (text : string)
    : option element :=
  snd <$> List.find (fun d => String.eqb (fst d) text) documents.

(** A network that serves the listed bodies with status 200 and answers
    404 elsewhere. *)
Definition network_of (served : list (string * string)) (u : string) : response :=
  match List.find (fun d => String.eqb (fst d) u) served with
  | Some d => Response 200 (snd d)
  | None => Response 404 ""
  end.

Definition feed_urls : list string :=
  ["https://example.com/about"; "https://example.com/feed.xml"].

Definition outsider_urls : list string :=
  ["https://evil.org/?ref=example.com"].

(** 301 distinct page URLs of one site. *)
Definition many_urls : list string :=
  map (fun n => "https://example.com/p" ++ NilEmpty.string_of_uint (Nat.to_uint n))
      (seq 0 301).

Definition index_urls : list string := ["https://example.com/pages.xml"].

Definition fromstring : string -> option element :=
  parser_of
    [ (urlset_xml feed_urls, urlset feed_urls);
      (urlset_xml outsider_urls, urlset outsider_urls);
      (urlset_xml many_urls, urlset many_urls);
      (sitemapindex_xml index_urls, sitemapindex index_urls) ].

Definition http_get : string -> response :=
  network_of
    [ ("https://example.com/sitemap.xml", sitemapindex_xml index_urls);
      ("https://example.com/pages.xml", urlset_xml many_urls) ].

(** No sample document has a [priority] element. *)
Definition float (s : string) : option Z := None.

(** A shop whose sitemap lists twenty short page URLs and one URL of 320
    characters. *)
Definition long_url : string :=
  "https://shop.example/" ++ String.concat "" (repeat "a" 299).

Definition item_url (n : nat) : string :=
  "https://shop.example/item" ++ NilEmpty.string_of_uint (Nat.to_uint n).

Definition shop_urls : list string :=
  List.app (map item_url (seq 0 10))
           (long_url :: map item_url (seq 10 10)).

Definition shop_fromstring : string -> option element :=
  parser_of [ (urlset_xml shop_urls, urlset shop_urls) ].

Definition shop_http_get : string -> response :=
  network_of [ ("https://shop.example/sitemap.xml", urlset_xml shop_urls) ].

Definition shop : Store.company :=
  {| Store.name := "Shop"; Store.company_domain := "shop.example";
     Store.structure_id := 1 |}.

(** The store before the run: the shop's structure with two stored pages
    that are sitemap files. *)
Definition shop_db : Store.db :=
  {| Store.companies := [shop];
     Store.website_structures :=
       {[ 1 := {| Store.domain := "shop.example"; Store.total_pages := 2;
                  Store.updated_at := 0 |} ]};
     Store.website_pages :=
       map (fun u =>
              {| Store.website_structure_id := 1; Store.url := u;
                 Store.path := "/"; Store.title := "Sitemap";
                 Store.page_type := "other";
                 Store.bi_classification := "unclassified";
                 Store.business_value_tier := 7;
                 Store.intelligence_value := "Unknown" |})
           ["https://shop.example/sitemap.xml";
            "https://shop.example/page-sitemap.xml"] |}.

(** Two candidate pages of the shop: one with a short URL and one whose
    URL has 320 characters. *)
Definition short_page (n : nat) : Phase3ScaledProcessor.page :=
  {| Phase3ScaledProcessor.url := item_url n;
     Phase3ScaledProcessor.path := "/item";
     Phase3ScaledProcessor.title := "Item";
     Phase3ScaledProcessor.depth := 1;
     Phase3ScaledProcessor.bi :=
       Phase3ScaledProcessor.get_enhanced_bi_classification (item_url n) |}.

Definition long_page : Phase3ScaledProcessor.page :=
  {| Phase3ScaledProcessor.url := long_url;
     Phase3ScaledProcessor.path := "/long";
     Phase3ScaledProcessor.title := "Long";
     Phase3ScaledProcessor.depth := 1;
     Phase3ScaledProcessor.bi :=
       Phase3ScaledProcessor.get_enhanced_bi_classification long_url |}.

Definition no_stats : Phase3ScaledProcessor.stats :=
  {| Phase3ScaledProcessor.processed := 0;
     Phase3ScaledProcessor.successful := 0;
     Phase3ScaledProcessor.failed := 0;
     Phase3ScaledProcessor.total_pages_before := 0;
     Phase3ScaledProcessor.total_pages_after := 0 |}.

End Samples.

(** ** What a sub-sitemap contributes to the scaled processor's walk *)

Module WalkerSpec.
Import Xml Http Phase3ScaledProcessor.

(** The pages that the advanced parser extracts for [sitemap_elem],
    before the limit is applied. *)
Definition advanced_sub_pages (fromstring : string -> option element)
    (urlparse_path : string -> option string)
    (pyfloat : Type) (float : string -> option pyfloat)
    (http_get : string -> response) (domain : string) (sitemap_elem : element)
    : list (AdvancedSitemapParser.page pyfloat) :=
  match find (ns "loc") sitemap_elem with
  | None => []
  | Some loc_elem =>
      match get http_get (text_of loc_elem) with
      | Response status sub_xml =>
          if status =? 200
          then AdvancedSitemapParser.extract_real_pages_from_xml
                 fromstring urlparse_path pyfloat float sub_xml domain
          else []
      | Failed => []
      end
  end.

(** The pages that the turn for [sitemap_elem] adds to [all_pages]. *)
Definition scaled_sub_pages (fromstring : string -> option element)
    (http_get : string -> response) (domain : string) (sitemap_elem : element)
    : list page :=
  match find (ns "loc") sitemap_elem with
  | None => []
  | Some loc_elem =>
      match get http_get (text_of loc_elem) with
      | Response status sub_xml =>
          if status =? 200
          then parse_sitemap_for_real_pages fromstring sub_xml domain
          else []
      | Failed => []
      end
  end.

(** Whether the turn for [sitemap_elem] gets a body, and so reaches the
    test of the count. *)
Definition scaled_answered (http_get : string -> response) (sitemap_elem : element)
    : bool :=
  match find (ns "loc") sitemap_elem with
  | None => false
  | Some loc_elem =>
      match get http_get (text_of loc_elem) with
      | Response status _ => status =? 200
      | Failed => false
      end
  end.

End WalkerSpec.

(** ** The rows that a run of insertions leaves in the store *)

Module StoreSpec.
Import Store.

Definition with_pages (d : db) (rows : list row) : db :=
  {| companies := companies d;
     website_structures := website_structures d;
     website_pages := rows |}.

(** The rows of [rows] that the store accepts when they are offered one
    after the other, each next to the rows there at its turn. *)
Fixpoint accepted_rows (accepts : list row -> row -> bool)
    (existing rows : list row) : list row :=
  match rows with
  | [] => []
  | r :: rest =>
      if accepts existing r
      then r :: accepted_rows accepts (existing ++ [r]) rest
      else accepted_rows accepts existing rest
  end.

(** The insertion loop of the reconcilers, on rows. *)
Fixpoint insert_rows (accepts : list row -> row -> bool)
    (rows : list row) (d : db) (inserted : Z) : db * Z :=
  match rows with
  | [] => (d, inserted)
  | r :: rest =>
      match insert_page accepts d r with
      | Some d' => insert_rows accepts rest d' (inserted + 1)
      | None => insert_rows accepts rest d inserted
      end
  end.

(** A store that refuses a URL of more than 255 characters. *)
Definition accepts_short_urls (existing : list row) (r : row) : bool :=
  (String.length (url r) <=? 255)%nat.

End StoreSpec.

(** ** phase3_final.py: extraction *)

Module Phase3FinalParser.
Import PyStr Xml Http.

Definition classify_page_bi (url : string) : bi_info :=
  let url_lower := lower url in
  if any_in ["/career"; "/job"; "/hiring"; "/employment"; "/opportunity"] url_lower then
    {| page_type := "careers"; bi_classification := "careers"; business_value_tier := 1;
       intelligence_value := "Hiring activity, growth indicators, business expansion signals" |}
  else if any_in ["/product"; "/catalog"; "/shop"; "/store"; "/brand"] url_lower then
    {| page_type := "products"; bi_classification := "products"; business_value_tier := 1;
       intelligence_value := "Product portfolio, market focus, innovation pipeline" |}
  else if any_in ["/service"; "/solution"; "/offering"; "/capability"] url_lower then
    {| page_type := "services"; bi_classification := "services"; business_value_tier := 1;
       intelligence_value := "Revenue streams, core competencies, competitive positioning" |}
  else if any_in ["/about"; "/company"; "/who-we-are"; "/overview"] url_lower then
    {| page_type := "about"; bi_classification := "about"; business_value_tier := 1;
       intelligence_value := "Mission, history, size, business model, values" |}
  else if any_in ["/team"; "/leadership"; "/people"; "/staff"; "/management"] url_lower then
    {| page_type := "team"; bi_classification := "team"; business_value_tier := 2;
       intelligence_value := "Leadership depth, expertise, company culture, decision makers" |}
  else if any_in ["/news"; "/blog"; "/insight"; "/article"; "/press"] url_lower then
    {| page_type := "news"; bi_classification := "news"; business_value_tier := 2;
       intelligence_value := "Market activity, thought leadership, PR activity, company momentum" |}
  else
    {| page_type := "other"; bi_classification := "unclassified"; business_value_tier := 7;
       intelligence_value := "Unknown business intelligence value" |}.

Definition generate_title (path : string) : string :=
  if String.eqb path "/" then "Home"
  else
    match segments path with
    | [] => "Page"
    | segs =>
        let last := replace "_" " " (replace "-" " " (PyStr.last_segment segs)) in
        PyStr.title last
    end.

(** The filter on a stripped [loc] text. *)
Definition is_real_page (domain url : string) : bool :=
  str_in domain url
  && negb (str_in "sitemap" (lower url))
  && negb (str_in ".xml" (lower url))
  && (startswith "http://" url || startswith "https://" url).

Section Extraction.
Variable fromstring : string -> option element.
(** [requests.get]: the response, or an exception. *)
Variable http_get : string -> response.

Definition extract_turn (domain : string) (url_elem : element)
    : option Phase3Final.page :=
  match find (ns "loc") url_elem with
  | None => None
  | Some loc_elem =>
      match text_of loc_elem with
      | None => None
      | Some EmptyString => None
      | Some loc_text =>
          let url := strip loc_text in
          if is_real_page domain url then
            let path :=
              replace ("https://" ++ domain) ""
                (replace ("https://www." ++ domain) "" url) in
            let path := if is_empty path then "/" else path in
            let classification := classify_page_bi url in
            Some {| Phase3Final.url := url;
                    Phase3Final.path := path;
                    Phase3Final.title := generate_title path;
                    Phase3Final.bi := classification |}
          else None
      end
  end.

Definition parse_sitemap_direct (xml_content domain : string)
    : list Phase3Final.page :=
  match fromstring xml_content with
  | None => []
  | Some root => omap (extract_turn domain) (findall (ns "url") root)
  end.

(** The loop over [sitemap_elements[:5]]. *)
Fixpoint index_loop (domain : string) (sitemap_elements : list element)
    (all_pages : list Phase3Final.page) : list Phase3Final.page :=
  match sitemap_elements with
  | [] => all_pages
  | sitemap_elem :: rest =>
      match find (ns "loc") sitemap_elem with
      | None => index_loop domain rest all_pages
      | Some loc_elem =>
          match get http_get (text_of loc_elem) with
          | Response status sub_xml =>
              if status =? 200 then
                let pages := parse_sitemap_direct sub_xml domain in
                let all_pages := (all_pages ++ pages)%list in
                if Z.of_nat (List.length all_pages) >=? 300 then all_pages
                else index_loop domain rest all_pages
              else index_loop domain rest all_pages
          | Failed => index_loop domain rest all_pages
          end
      end
  end.

Definition parse_sitemap_index (xml_content domain : string)
    : list Phase3Final.page :=
  match fromstring xml_content with
  | None => []
  | Some root =>
      let sitemap_elements := findall (ns "sitemap") root in
      index_loop domain (slice_to 5 sitemap_elements) []
  end.

Definition sitemap_urls (domain : string) : list string :=
  [ "https://" ++ domain ++ "/sitemap.xml";
    "https://www." ++ domain ++ "/sitemap.xml" ].

Fixpoint urls_loop (domain : string) (urls : list string)
    (real_pages : list Phase3Final.page) : list Phase3Final.page :=
  match urls with
  | [] => real_pages
  | sitemap_url :: rest =>
      match http_get sitemap_url with
      | Failed => urls_loop domain rest real_pages
      | Response status xml_content =>
          if status =? 200 then
            let pages :=
              if str_in "sitemapindex" xml_content
              then parse_sitemap_index xml_content domain
              else parse_sitemap_direct xml_content domain in
            let real_pages := (real_pages ++ pages)%list in
            if Z.of_nat (List.length pages) >? 0 then real_pages
            else urls_loop domain rest real_pages
          else urls_loop domain rest real_pages
      end
  end.

Definition extract_real_pages (domain : string) : list Phase3Final.page :=
  urls_loop domain (sitemap_urls domain) [].

End Extraction.

End Phase3FinalParser.

(** ** phase2_pilot_fix.py: extraction *)

Module Phase2PilotParser.
Import PyStr Xml Http.

Definition classify_business_page (url : string) : bi_info :=
  let url_lower := lower url in
  if any_in ["/product"; "/catalog"; "/shop"] url_lower
     || any_in ["varroa"; "beekeeping"; "poultry"; "honey"; "supplies"] url_lower then
    {| page_type := "products"; bi_classification := "products"; business_value_tier := 1;
       intelligence_value := "Product portfolio, market focus, innovation pipeline" |}
  else if any_in ["/career"; "/job"; "/hiring"] url_lower then
    {| page_type := "careers"; bi_classification := "careers"; business_value_tier := 1;
       intelligence_value := "Hiring activity, growth indicators, business expansion signals" |}
  else if any_in ["/about"; "/company"] url_lower then
    {| page_type := "about"; bi_classification := "about"; business_value_tier := 1;
       intelligence_value := "Mission, history, size, business model, values" |}
  else if any_in ["/service"; "/solution"] url_lower then
    {| page_type := "services"; bi_classification := "services"; business_value_tier := 1;
       intelligence_value := "Revenue streams, core competencies, competitive positioning" |}
  else
    {| page_type := "other"; bi_classification := "unclassified"; business_value_tier := 7;
       intelligence_value := "Unknown business intelligence value" |}.

Definition make_title_from_path (path : string) : string :=
  if String.eqb path "/" then "Home"
  else
    match segments path with
    | [] => "Page"
    | segs =>
        PyStr.title (replace "_" " " (replace "-" " " (PyStr.last_segment segs)))
    end.

(** The filter on a stripped [loc] text; the scheme is not asked for. *)
Definition is_real_page (domain url : string) : bool :=
  str_in domain url
  && negb (str_in "sitemap" (lower url))
  && negb (str_in ".xml" (lower url)).

Section Extraction.
Variable fromstring : string -> option element.
Variable http_get : string -> response.

Definition extract_turn (domain : string) (url_elem : element)
    : option Phase2PilotFix.page :=
  match find (ns "loc") url_elem with
  | None => None
  | Some loc_elem =>
      match text_of loc_elem with
      | None => None
      | Some EmptyString => None
      | Some loc_text =>
          let url := strip loc_text in
          if is_real_page domain url then
            let path :=
              replace ("https://" ++ domain) ""
                (replace ("https://www." ++ domain) "" url) in
            let path := if is_empty path then "/" else path in
            let classification := classify_business_page url in
            Some {| Phase2PilotFix.url := url;
                    Phase2PilotFix.path := path;
                    Phase2PilotFix.title := make_title_from_path path;
                    Phase2PilotFix.bi := classification |}
          else None
      end
  end.

Definition parse_direct_sitemap (xml_content domain : string)
    : list Phase2PilotFix.page :=
  match fromstring xml_content with
  | None => []
  | Some root => omap (extract_turn domain) (findall (ns "url") root)
  end.

(** The loop over [sitemap_elements[:5]]; it has no page limit. *)
Fixpoint index_loop (domain : string) (sitemap_elements : list element)
    (all_pages : list Phase2PilotFix.page) : list Phase2PilotFix.page :=
  match sitemap_elements with
  | [] => all_pages
  | sitemap_elem :: rest =>
      match find (ns "loc") sitemap_elem with
      | None => index_loop domain rest all_pages
      | Some loc_elem =>
          match get http_get (text_of loc_elem) with
          | Response status sub_xml =>
              if status =? 200 then
                let pages := parse_direct_sitemap sub_xml domain in
                index_loop domain rest (all_pages ++ pages)%list
              else index_loop domain rest all_pages
          | Failed => index_loop domain rest all_pages
          end
      end
  end.

Definition parse_sitemap_index (xml_content domain : string)
    : list Phase2PilotFix.page :=
  match fromstring xml_content with
  | None => []
  | Some root =>
      let sitemap_elements := findall (ns "sitemap") root in
      index_loop domain (slice_to 5 sitemap_elements) []
  end.

Definition sitemap_urls (domain : string) : list string :=
  [ "https://" ++ domain ++ "/sitemap.xml";
    "https://www." ++ domain ++ "/sitemap.xml" ].

(** The loop over [sitemap_urls]: the first answer with status 200 is
    used and ends the loop, whatever it yields. *)
Fixpoint urls_loop (domain : string) (urls : list string)
    (real_pages : list Phase2PilotFix.page) : list Phase2PilotFix.page :=
  match urls with
  | [] => real_pages
  | sitemap_url :: rest =>
      match http_get sitemap_url with
      | Failed => urls_loop domain rest real_pages
      | Response status xml_content =>
          if status =? 200 then
            if str_in "sitemapindex" xml_content || str_in "<sitemap>" xml_content
            then (real_pages ++ parse_sitemap_index xml_content domain)%list
            else (real_pages ++ parse_direct_sitemap xml_content domain)%list
          else urls_loop domain rest real_pages
      end
  end.

Definition extract_real_pages_for_company (domain : string) : list Phase2PilotFix.page :=
  urls_loop domain (sitemap_urls domain) [].

End Extraction.

End Phase2PilotParser.

(** ** bi_page_classifier.py: the migration *)

Module Migration.

(** A row of [website_pages] as the migration sees it: its key, the two
    columns it reads ([NULL] is [None]), the three it writes, and
    [page_type] for the columns it leaves alone. *)
Record page_row := {
  id : Z;
  url : option string;
  title : option string;
  page_type : string;
  bi_classification : string;
  business_value_tier : Z;
  intelligence_value : string
}.

(** The table is the list of its rows in the order of [ORDER BY id]. *)
Definition table : Type := list page_row.

(** [SELECT id, url, title FROM website_pages ORDER BY id OFFSET $1 LIMIT $2] *)
Definition fetch (t : table) (offset limit : Z) : list page_row :=
  firstn (Z.to_nat limit) (skipn (Z.to_nat offset) t).

(** [UPDATE website_pages SET bi_classification = $2,
    business_value_tier = $3, intelligence_value = $4 WHERE id = $1] *)
Definition update (t : table) (u : Z * BiPageClassifier.classification) : table :=
  map (fun r =>
         if id r =? u.1
         then {| id := id r; url := url r; title := title r; page_type := page_type r;
                 bi_classification := u.2.1.1;
                 business_value_tier := u.2.1.2;
                 intelligence_value := u.2.2 |}
         else r) t.

(** [conn.executemany]: the updates, one after the other. *)
Definition executemany (t : table) (updates : list (Z * BiPageClassifier.classification))
    : table :=
  fold_left update updates t.

Definition batch_size : Z := 1000.

(** The loop [while processed < total_pages]; each turn takes a batch
    that is not empty, so [fuel] above the number of rows is enough. *)
Fixpoint migrate_loop (fuel : nat) (total_pages : Z) (t : table) (processed : Z)
    : option (table * Z) :=
  match fuel with
  | O => None
  | S fuel =>
      if processed <? total_pages then
        let pages := fetch t processed batch_size in
        match pages with
        | [] => Some (t, processed)
        | _ =>
            let updates :=
              map (fun page =>
                     (id page, BiPageClassifier.classify_page_bi (url page) (title page)))
                  pages in
            let t := match updates with [] => t | _ => executemany t updates end in
            migrate_loop fuel total_pages t (processed + Z.of_nat (List.length pages))
        end
      else Some (t, processed)
  end.

(** The table after the migration and the number of pages processed. *)
Definition migrate_existing_pages (t : table) : option (table * Z) :=
  let total_pages := Z.of_nat (List.length t) in
  migrate_loop (S (List.length t)) total_pages t 0.

(** A row with the classification of its own URL and title. *)
Definition reclassified (r : page_row) : page_row :=
  let c := BiPageClassifier.classify_page_bi (url r) (title r) in
  {| id := id r; url := url r; title := title r; page_type := page_type r;
     bi_classification := c.1.1;
     business_value_tier := c.1.2;
     intelligence_value := c.2 |}.

(** The update that the migration computes for a page. *)
Definition update_of (page : page_row) : Z * BiPageClassifier.classification :=
  (id page, BiPageClassifier.classify_page_bi (url page) (title page)).

(** The table when the first [k] rows of [original] are done. *)
Definition done_upto (original : table) (k : nat) : table :=
  (map reclassified (firstn k original) ++ skipn k original)%list.

(** Three pages with distinct keys, none classified yet. *)
Definition sample_table : table :=
  [ {| id := 1; url := Some "https://x.com/Careers"; title := Some "Join";
       page_type := "page"; bi_classification := "";
       business_value_tier := 0; intelligence_value := "" |};
    {| id := 2; url := Some "https://x.com/a"; title := None;
       page_type := "page"; bi_classification := "";
       business_value_tier := 0; intelligence_value := "" |};
    {| id := 5; url := None; title := Some "Our Team";
       page_type := "page"; bi_classification := "";
       business_value_tier := 0; intelligence_value := "" |} ].

End Migration.

(** ** Reading a classification *)

Module ClassifierSpec.

(** The tier of a classification triple. *)
Definition tier_of (c : BiPageClassifier.classification) : Z := c.1.2.

(** The category of a classification triple. *)
Definition category_of (c : BiPageClassifier.classification) : string := c.1.1.

(** The category is one of the first three of the taxonomy. *)
Definition first_three (c : BiPageClassifier.classification) : Prop :=
  category_of c = "careers" \/ category_of c = "services" \/ category_of c = "products".

End ClassifierSpec.

(** ** What a sub-sitemap contributes to the other walks *)

Module WalkerMoreSpec.
Import Xml Http.

(** The pages that the final script's turn for [sitemap_elem] adds. *)
Definition final_sub_pages (fromstring : string -> option element)
    (http_get : string -> response) (domain : string) (sitemap_elem : element)
    : list Phase3Final.page :=
  match find (ns "loc") sitemap_elem with
  | None => []
  | Some loc_elem =>
      match get http_get (text_of loc_elem) with
      | Response status sub_xml =>
          if status =? 200
          then Phase3FinalParser.parse_sitemap_direct fromstring sub_xml domain
          else []
      | Failed => []
      end
  end.

(** The same for the pilot script. *)
Definition pilot_sub_pages (fromstring : string -> option element)
    (http_get : string -> response) (domain : string) (sitemap_elem : element)
    : list Phase2PilotFix.page :=
  match find (ns "loc") sitemap_elem with
  | None => []
  | Some loc_elem =>
      match get http_get (text_of loc_elem) with
      | Response status sub_xml =>
          if status =? 200
          then Phase2PilotParser.parse_direct_sitemap fromstring sub_xml domain
          else []
      | Failed => []
      end
  end.

(** The same for the database fixer. *)
Definition fixer_sub_pages (fromstring : string -> option element)
    (http_get : string -> response) (domain : string) (sitemap_elem : element)
    : list DatabaseSitemapFixer.page :=
  match find (ns "loc") sitemap_elem with
  | None => []
  | Some loc_elem =>
      match get http_get (text_of loc_elem) with
      | Response status sub_xml =>
          if status =? 200
          then DatabaseSitemapFixer.extract_urls_from_sitemap_xml fromstring sub_xml domain
          else []
      | Failed => []
      end
  end.

(** Whether a turn adds a page. *)
Definition has_pages {A} (pages : list A) : bool :=
  match pages with
  | [] => false
  | _ :: _ => true
  end.

Definition scaled_contributes (fromstring : string -> option element)
    (http_get : string -> response) (domain : string) (sitemap_elem : element) : bool :=
  has_pages (WalkerSpec.scaled_sub_pages fromstring http_get domain sitemap_elem).

Definition final_contributes (fromstring : string -> option element)
    (http_get : string -> response) (domain : string) (sitemap_elem : element) : bool :=
  has_pages (final_sub_pages fromstring http_get domain sitemap_elem).

End WalkerMoreSpec.

(** ** The store after a replacement *)

Module ReplaceSpec.
Import Store StoreSpec.

(** The store after the pages of structure [sid] were deleted, [rows]
    offered one by one, and the count of the accepted ones written to the
    structure. *)
Definition replaced (accepts : list row -> row -> bool) (now : Z) (sid : Z)
    (rows : list row) (d : db) : db :=
  let kept := website_pages (delete_pages d sid) in
  let inserted := accepted_rows accepts kept rows in
  update_structure
    (with_pages (delete_pages d sid) (kept ++ inserted))
    (Z.of_nat (List.length inserted)) now sid.

(** The pages of structure [sid] in the store. *)
Definition pages_of (d : db) (sid : Z) : list row :=
  List.filter (owned_by sid) (website_pages d).

End ReplaceSpec.

(** ** Reading pages and sitemap documents *)

Module ExtractSpec.
Import PyStr Xml Http.

(** The triples of the taxonomy of bi_page_classifier.py, with the
    fallback. *)
Definition taxonomy_triples : list BiPageClassifier.classification :=
  (map BiPageClassifier.result_of BiPageClassifier.BI_TAXONOMY
   ++ [BiPageClassifier.unclassified])%list.

Definition bi_triple (b : bi_info) : BiPageClassifier.classification :=
  (bi_classification b, business_value_tier b, intelligence_value b).

(** The page type is the classification, or "other" for the
    unclassified. *)
Definition page_type_fits (b : bi_info) : Prop :=
  (page_type b = bi_classification b /\ bi_classification b <> "unclassified")
  \/ (page_type b = "other" /\ bi_classification b = "unclassified").

(** The text of the [loc] of a [url] element, when there is one and it is
    not empty. *)
Definition loc_text (url_elem : element) : option string :=
  match find (ns "loc") url_elem with
  | None => None
  | Some loc_elem =>
      match text_of loc_elem with
      | None => None
      | Some EmptyString => None
      | Some t => Some t
      end
  end.

(** The [loc] texts of a document, in document order. *)
Definition raw_locs (root : element) : list string :=
  omap loc_text (findall (ns "url") root).

(** The same, stripped. *)
Definition stripped_locs (root : element) : list string :=
  map strip (raw_locs root).

(** The test of the database fixer's extractor. *)
Definition fixer_is_real_page (domain url : string) : bool :=
  str_in domain url && negb (str_in "sitemap" (lower url)).

(** A classified page of the advanced parser that passes its filter and
    carries the classification of its URL. *)
Definition advanced_sound (pyfloat : Type) (domain : string)
    (cp : AdvancedSitemapParser.classified_page pyfloat) : Prop :=
  AdvancedSitemapParser.is_real_page domain
    (AdvancedSitemapParser.url (AdvancedSitemapParser.entry cp)) = true
  /\ AdvancedSitemapParser.bi cp
     = AdvancedSitemapParser.classify_page_for_bi
         (AdvancedSitemapParser.url (AdvancedSitemapParser.entry cp)).

(** A URL of the domain that is no sitemap file: it holds the domain
    string and, in whatever case, neither "sitemap" nor ".xml". *)
Definition clean_url (domain u : string) : Prop :=
  str_in domain u = true
  /\ str_in "sitemap" (lower u) = false
  /\ str_in ".xml" (lower u) = false.

(** An optional value as a list of at most one element. *)
Definition option_list {A} (o : option A) : list A :=
  match o with Some x => [x] | None => [] end.

(** Whether a GET of [u] answers with status 200. *)
Definition answers_200 (http_get : string -> response) (u : string) : bool :=
  match http_get u with
  | Response status _ => status =? 200
  | Failed => false
  end.

End ExtractSpec.

(** ** More sample documents and stores *)

Module MoreSamples.
Import Xml Http Samples.

(** An index whose first sub-sitemap is gone and whose second lists two
    URLs, and the index that lists only the second. *)
Definition both_urls : list string :=
  ["https://example.com/gone.xml"; "https://example.com/small.xml"].

Definition live_urls : list string := ["https://example.com/small.xml"].

Definition fromstring : string -> option element :=
  parser_of
    [ (sitemapindex_xml both_urls, sitemapindex both_urls);
      (sitemapindex_xml live_urls, sitemapindex live_urls);
      (urlset_xml feed_urls, urlset feed_urls) ].

Definition http_get : string -> response :=
  network_of [ ("https://example.com/small.xml", urlset_xml feed_urls) ].

(** A second company with a page and a structure of its own, next to the
    shop. *)
Definition bakery : Store.company :=
  {| Store.name := "Bakery"; Store.company_domain := "bakery.example";
     Store.structure_id := 2 |}.

Definition bakery_page : Store.row :=
  {| Store.website_structure_id := 2;
     Store.url := "https://bakery.example/bread";
     Store.path := "/bread"; Store.title := "Bread";
     Store.page_type := "products";
     Store.bi_classification := "products";
     Store.business_value_tier := 1;
     Store.intelligence_value := "Product portfolio, market focus, innovation pipeline" |}.

Definition bakery_structure : Store.structure :=
  {| Store.domain := "bakery.example"; Store.total_pages := 1; Store.updated_at := 0 |}.

Definition town_db : Store.db :=
  {| Store.companies := [shop; bakery];
     Store.website_structures :=
       <[ 2 := bakery_structure ]> (Store.website_structures shop_db);
     Store.website_pages :=
       match Store.website_pages shop_db with
       | first :: rest => first :: bakery_page :: rest
       | [] => [bakery_page]
       end |}.

End MoreSamples.

(** ** What a concurrent reader can see *)

Module Visible.
Import Store.

(** No script opens a transaction, so the store commits every
    [conn.execute] on its own and the store after each statement is what
    another session reads until the next one.  The stores below are
    listed in the order in which the statements of a run produce them,
    the store at the start first. *)

(** The stores after the accepted [INSERT]s of the insertion loop. *)
Fixpoint insert_states (accepts : list row -> row -> bool) (rows : list row) (d : db)
    : list db :=
  match rows with
  | [] => []
  | r :: rest =>
      match insert_page accepts d r with
      | Some d' => d' :: insert_states accepts rest d'
      | None => insert_states accepts rest d
      end
  end.

(** The store at the start of the replacement, after the [DELETE], after
    each accepted [INSERT] and after the [UPDATE]. *)
Definition replace_states (accepts : list row -> row -> bool) (now : Z) (sid : Z)
    (rows : list row) (pool : db) : list db :=
  let deleted := delete_pages pool sid in
  let inserts := insert_states accepts rows deleted in
  (pool :: deleted :: inserts
   ++ [update_structure (List.last inserts deleted) (Z.of_nat (List.length inserts))
         now sid])%list.

(** The stores of a run of [fix_company_with_real_pages]. *)
Definition scaled_states (accepts : list row -> row -> bool)
    (extract_company_real_pages : string -> list Phase3ScaledProcessor.page) (now : Z)
    (pool : db) (company : company) : list db :=
  let structure_id := structure_id company in
  let real_pages := extract_company_real_pages (company_domain company) in
  if Z.of_nat (List.length real_pages) <? 5 then [pool]
  else
    let pages_to_insert := PyStr.slice_to 300 real_pages in
    replace_states accepts now structure_id
      (map (Phase3ScaledProcessor.row_of structure_id) pages_to_insert) pool.

(** The stores of a run of [fix_company_sitemap]. *)
Definition pilot_states (accepts : list row -> row -> bool)
    (extract_real_pages_for_company : string -> list Phase2PilotFix.page) (now : Z)
    (pool : db) (company_name : string) : list db :=
  match company_named pool company_name with
  | None => [pool]
  | Some company =>
      let structure_id := structure_id company in
      let real_pages := extract_real_pages_for_company (company_domain company) in
      if Z.of_nat (List.length real_pages) <? 10 then [pool]
      else
        let pilot_pages := PyStr.slice_to 200 real_pages in
        replace_states accepts now structure_id
          (map (Phase2PilotFix.row_of structure_id) pilot_pages) pool
  end.

(** Atomic visibility of the replacement: in every store that a reader
    can see, the pages of structure [sid] are those of the store before
    the run or those of the store after it. *)
Definition atomic_for (sid : Z) (before after : db) (states : list db) : Prop :=
  Forall (fun d => ReplaceSpec.pages_of d sid = ReplaceSpec.pages_of before sid
                   \/ ReplaceSpec.pages_of d sid = ReplaceSpec.pages_of after sid)
         states.

(** What holds instead of a store [d] seen during the run that ends with
    [after]: the pages of [sid] are a front part of those that the run
    leaves, and the structures are still those of the store [before]. *)
Definition in_progress (sid : Z) (before after d : db) : Prop :=
  (exists rest,
     ReplaceSpec.pages_of after sid = (ReplaceSpec.pages_of d sid ++ rest)%list)
  /\ website_structures d = website_structures before.

End Visible.

(** * Properties *)

(** ** Strings *)

Module PyStrFacts.
Import PyStr.

Lemma startswith_spec (p s : string) :
  startswith p s = true <-> exists t, s = p ++ t.
Proof.
  revert s; induction p as [|a p IH]; intros s; simpl.
  - split; [intros _; exists s; reflexivity | reflexivity].
  - destruct s as [|b s]; simpl.
    + split; [discriminate | intros [t Ht]; discriminate].
    + rewrite andb_true_iff, Ascii.eqb_eq, IH. split.
      * intros [-> [t ->]]. exists t; reflexivity.
      * intros [t Ht]. injection Ht as -> ->. split; [reflexivity | exists t; reflexivity].
Qed.

Lemma str_in_spec (p s : string) :
  str_in p s = true <-> exists a b, s = a ++ p ++ b.
Proof.
  induction s as [|c s IH]; simpl.
  - rewrite orb_false_r, startswith_spec. split.
    + intros [t Ht]. exists "", t. exact Ht.
    + intros [a [b Hab]]. destruct a; simpl in Hab; [exists b; exact Hab | discriminate].
  - rewrite orb_true_iff, startswith_spec, IH. split.
    + intros [[t Ht] | [a [b Hab]]].
      * exists "", t. exact Ht.
      * exists (String c a), b. simpl. rewrite Hab. reflexivity.
    + intros [a [b Hab]]. destruct a as [|c' a]; simpl in Hab.
      * left. exists b. exact Hab.
      * right. injection Hab as -> ->. exists a, b. reflexivity.
Qed.

Lemma endswith_spec (p s : string) :
  endswith p s = true <-> exists a, s = a ++ p.
Proof.
  induction s as [|c s IH]; simpl.
  - rewrite orb_false_r, String.eqb_eq. split.
    + intros ->. exists "". reflexivity.
    + intros [a Ha]. destruct a; simpl in Ha; [congruence | discriminate].
  - rewrite orb_true_iff, String.eqb_eq, IH. split.
    + intros [-> | [a ->]]; [exists "" | exists (String c a)]; reflexivity.
    + intros [a Ha]. destruct a as [|c' a]; simpl in Ha.
      * left. congruence.
      * right. injection Ha as -> ->. exists a. reflexivity.
Qed.

Lemma lower_app (a b : string) : lower (a ++ b) = lower a ++ lower b.
Proof. induction a as [|c a IH]; simpl; [reflexivity | rewrite IH; reflexivity]. Qed.

(** A substring stays one when both strings are lower-cased. *)
Lemma str_in_lower (p s : string) :
  str_in p s = true -> str_in (lower p) (lower s) = true.
Proof.
  rewrite !str_in_spec. intros [a [b ->]].
  exists (lower a), (lower b). rewrite !lower_app. reflexivity.
Qed.

Lemma app_empty_r (s : string) : s ++ "" = s.
Proof. induction s as [|c s IH]; simpl; [reflexivity | rewrite IH; reflexivity]. Qed.

Lemma endswith_str_in (p s : string) :
  endswith p s = true -> str_in p s = true.
Proof.
  rewrite endswith_spec, str_in_spec. intros [a ->].
  exists a, "". rewrite app_empty_r. reflexivity.
Qed.

(** What [lower] leaves out cannot be in the original. *)
Lemma not_in_lower (p s : string) :
  lower p = p -> str_in p (lower s) = false -> str_in p s = false.
Proof.
  intros Hp Hl. destruct (str_in p s) eqn:E; [|reflexivity].
  apply str_in_lower in E. rewrite Hp in E. congruence.
Qed.

End PyStrFacts.

(** ** The classifier *)

Module BiPageClassifierFacts.
Import PyStr BiPageClassifier.

(** The loop returns the result of the first entry that matches. *)
Lemma classify_loop_find (taxonomy : list (string * config)) (ul tl : string) :
  classify_loop taxonomy ul tl =
  match List.find (entry_matches ul tl) taxonomy with
  | Some e => result_of e
  | None => unclassified
  end.
Proof.
  induction taxonomy as [|[name cfg] rest IH]; simpl; [reflexivity|].
  unfold entry_matches at 1; simpl.
  destruct (any_in (url_patterns cfg) ul); simpl; [reflexivity|].
  destruct (any_in (title_patterns cfg) tl); simpl; [reflexivity | exact IH].
Qed.

Lemma find_app_none {A} (f : A -> bool) (pre post : list A) :
  (forall e, In e pre -> f e = false) ->
  List.find f (pre ++ post) = List.find f post.
Proof.
  induction pre as [|x pre IH]; intros H; simpl; [reflexivity|].
  rewrite (H x (or_introl eq_refl)). apply IH. intros e He. apply H. right. exact He.
Qed.

(** No entry has tier 7 or the name of the fallback. *)
Lemma taxonomy_tiers :
  Forall (fun e : string * config =>
            1 <= tier e.2 <= 6 /\ e.1 <> "unclassified") BI_TAXONOMY.
Proof. unfold BI_TAXONOMY. repeat constructor; simpl; (lia || discriminate). Qed.

Lemma find_in {A} (f : A -> bool) (l : list A) (x : A) :
  List.find f l = Some x -> In x l.
Proof. intros H. apply List.find_some in H. tauto. Qed.

End BiPageClassifierFacts.

(** C3: the classifier returns the result of the first entry of the
    taxonomy, in its listed order, one of whose URL patterns occurs in the
    lower-cased URL or one of whose title patterns occurs in the
    lower-cased title (the fallback when there is none); when the URL
    matches the URL patterns of two entries and nothing before the earlier
    one matches, the earlier one decides; a URL containing "/careers" is
    classified as careers whatever else it contains. *)
Theorem classify_page_bi_first_match (url title : option string) :
  let ul := BiPageClassifier.lower_or_empty url in
  let tl := BiPageClassifier.lower_or_empty title in
  BiPageClassifier.classify_page_bi url title =
    match List.find (BiPageClassifier.entry_matches ul tl) BiPageClassifier.BI_TAXONOMY with
    | Some e => BiPageClassifier.result_of e
    | None => BiPageClassifier.unclassified
    end
  /\ (forall pre e1 mid e2 post,
        BiPageClassifier.BI_TAXONOMY = (pre ++ e1 :: mid ++ e2 :: post)%list ->
        PyStr.any_in (BiPageClassifier.url_patterns e1.2) ul = true ->
        PyStr.any_in (BiPageClassifier.url_patterns e2.2) ul = true ->
        (forall e, In e pre -> BiPageClassifier.entry_matches ul tl e = false) ->
        BiPageClassifier.classify_page_bi url title = BiPageClassifier.result_of e1)
  /\ (PyStr.str_in "/careers" ul = true ->
      BiPageClassifier.classify_page_bi url title =
        ("careers", 1, "Hiring activity, growth indicators, business expansion signals")).
Proof.
  intros ul tl. unfold BiPageClassifier.classify_page_bi. fold ul tl.
  split; [apply BiPageClassifierFacts.classify_loop_find|]. split.
  - intros pre e1 mid e2 post Htax H1 _ Hpre.
    rewrite BiPageClassifierFacts.classify_loop_find, Htax.
    rewrite BiPageClassifierFacts.find_app_none by exact Hpre.
    simpl. unfold BiPageClassifier.entry_matches at 1. rewrite H1. reflexivity.
  - intros H. unfold BiPageClassifier.BI_TAXONOMY.
    cbn [BiPageClassifier.classify_loop BiPageClassifier.url_patterns].
    unfold PyStr.any_in at 1. cbn [existsb]. rewrite H. reflexivity.
Qed.

Lemma classify_page_bi_first_match_witness :
  BiPageClassifier.classify_page_bi (Some "https://x.com/About/Careers") None =
    ("careers", 1, "Hiring activity, growth indicators, business expansion signals").
Proof.
  pose proof (classify_page_bi_first_match (Some "https://x.com/About/Careers") None)
    as [_ [Hpre _]].
  refine (Hpre [] _ (firstn 2 (skipn 1 BiPageClassifier.BI_TAXONOMY)) _
            (skipn 4 BiPageClassifier.BI_TAXONOMY) eq_refl eq_refl eq_refl _).
  intros e [].
Defined.

(** The taxonomy at work: a path under /legal; "/portfolio", listed for
    products and for case studies; a title that matches an entry listed
    before the entry that the URL matches. *)
Example classify_legal :
  BiPageClassifier.classify_page_bi (Some "https://example.com/legal/terms") (Some "")
  = ("legal", 6, "Compliance status (minimal business intelligence)").
Proof. reflexivity. Qed.

Example classify_portfolio :
  BiPageClassifier.classify_page_bi (Some "https://example.com/portfolio") None
  = ("products", 1, "Product portfolio, market focus, innovation pipeline").
Proof. reflexivity. Qed.

Example classify_title_first :
  BiPageClassifier.classify_page_bi (Some "https://example.com/about") (Some "Careers")
  = ("careers", 1, "Hiring activity, growth indicators, business expansion signals").
Proof. reflexivity. Qed.

(** C4: the tier returned is between 1 and 7; the category is
    "unclassified" exactly when the tier is 7; no entry of the taxonomy
    has tier 7. *)
Theorem classify_page_bi_tier (url title : option string) :
  (1 <= (BiPageClassifier.classify_page_bi url title).1.2 <= 7)
  /\ ((BiPageClassifier.classify_page_bi url title).1.1 = "unclassified"
      <-> (BiPageClassifier.classify_page_bi url title).1.2 = 7)
  /\ Forall (fun e : string * BiPageClassifier.config => BiPageClassifier.tier e.2 <> 7)
       BiPageClassifier.BI_TAXONOMY.
Proof.
  pose proof BiPageClassifierFacts.taxonomy_tiers as HT.
  split; [|split].
  - unfold BiPageClassifier.classify_page_bi.
    rewrite BiPageClassifierFacts.classify_loop_find.
    destruct (List.find _ _) as [e|] eqn:E; simpl; [|lia].
    apply BiPageClassifierFacts.find_in in E.
    rewrite List.Forall_forall in HT. destruct (HT e E) as [? _]. lia.
  - unfold BiPageClassifier.classify_page_bi.
    rewrite BiPageClassifierFacts.classify_loop_find.
    destruct (List.find _ _) as [e|] eqn:E; simpl; [|tauto].
    apply BiPageClassifierFacts.find_in in E.
    rewrite List.Forall_forall in HT. destruct (HT e E) as [? ?].
    split; [congruence | lia].
  - eapply List.Forall_impl; [|exact HT]. simpl. intros e [? _]. lia.
Qed.

(** C10: with the URL absent or empty and the title absent or empty the
    classifier returns the fallback triple; the model is a total
    function, no case raises. *)
Theorem classify_page_bi_absent (url title : option string) :
  url = None \/ url = Some "" ->
  title = None \/ title = Some "" ->
  BiPageClassifier.classify_page_bi url title =
    ("unclassified", 7, "Unknown business intelligence value").
Proof. intros [-> | ->] [-> | ->]; reflexivity. Qed.

Lemma classify_page_bi_absent_witness :
  BiPageClassifier.classify_page_bi None (Some "") =
    ("unclassified", 7, "Unknown business intelligence value").
Proof.
  apply (classify_page_bi_absent None (Some "")); [left | right]; reflexivity.
Defined.

(** ** The page extractors *)

Module ExtractorFacts.
Import PyStr Xml PyStrFacts.

Section Advanced.
Import AdvancedSitemapParser.
Variable fromstring : string -> option element.
Variable urlparse_path : string -> option string.
Variable pyfloat : Type.
Variable float : string -> option pyfloat.

(** A turn appends a page only for a URL that passes the filter. *)
Lemma advanced_turn_filter (domain : string) (e : element) (p : page pyfloat) :
  extract_turn urlparse_path pyfloat float domain e = Append pyfloat p ->
  is_real_page domain (url p) = true.
Proof.
  unfold extract_turn.
  destruct (find (ns "loc") e) as [loc_elem|]; [|discriminate].
  destruct (text_of loc_elem) as [[|c t]|]; [discriminate| |discriminate].
  destruct (is_real_page domain (strip (String c t))) eqn:F; [|discriminate].
  destruct (if startswith "http" _ then _ else _) as [pth|]; [|discriminate].
  destruct (find (ns "priority") e) as [pe|].
  - destruct (text_of pe ≫= float) as [f|]; [|discriminate].
    intros H. injection H as <-. exact F.
  - intros H. injection H as <-. exact F.
Qed.

Lemma advanced_loop_filter (domain : string) (els : list element) (p : page pyfloat) :
  In p (extract_loop urlparse_path pyfloat float domain els) ->
  is_real_page domain (url p) = true.
Proof.
  induction els as [|e els IH]; simpl; [tauto|].
  destruct (extract_turn _ _ _ domain e) eqn:T; simpl.
  - exact IH.
  - intros [<- | H]; [eapply advanced_turn_filter; exact T | exact (IH H)].
  - tauto.
Qed.

Lemma advanced_extract_filter (xml_content domain : string) (p : page pyfloat) :
  In p (extract_real_pages_from_xml fromstring urlparse_path pyfloat float xml_content domain) ->
  is_real_page domain (url p) = true.
Proof.
  unfold extract_real_pages_from_xml.
  destruct (fromstring xml_content); simpl; [apply advanced_loop_filter | tauto].
Qed.

End Advanced.

(** The filter of the advanced parser excludes every URL that contains
    "sitemap" or ends in ".xml". *)
Lemma advanced_filter_excludes (domain u : string) :
  AdvancedSitemapParser.is_real_page domain u = true ->
  str_in "sitemap" u = false /\ endswith ".xml" u = false.
Proof.
  unfold AdvancedSitemapParser.is_real_page.
  rewrite !andb_true_iff, !negb_true_iff. intros [[[_ Hs] Hx] _]. split.
  - apply not_in_lower; [reflexivity | exact Hs].
  - destruct (endswith ".xml" u) eqn:E; [|reflexivity].
    apply endswith_str_in, str_in_lower in E.
    change (lower ".xml") with ".xml" in E. congruence.
Qed.

Section Fixer.
Import DatabaseSitemapFixer.
Variable fromstring : string -> option element.

(** The test of the database fixer: the domain occurs and "sitemap" does
    not; nothing is asked about ".xml". *)
Lemma fixer_turn_filter (domain : string) (e : element) (p : page) :
  extract_turn domain e = Some p ->
  str_in domain (url p) = true /\ str_in "sitemap" (lower (url p)) = false.
Proof.
  unfold extract_turn.
  destruct (find (ns "loc") e) as [loc_elem|]; [|discriminate].
  destruct (text_of loc_elem) as [[|c t]|]; [discriminate| |discriminate].
  destruct (str_in domain (String c t) && _) eqn:F; [|discriminate].
  destruct (get_bi_classification _) as [[bi_class tr] intel].
  intros H. injection H as <-. simpl.
  apply andb_true_iff in F. rewrite negb_true_iff in F. exact F.
Qed.

Lemma fixer_extract_filter (xml_content domain : string) (p : page) :
  In p (extract_urls_from_sitemap_xml fromstring xml_content domain) ->
  str_in domain (url p) = true /\ str_in "sitemap" (url p) = false.
Proof.
  unfold extract_urls_from_sitemap_xml.
  destruct (fromstring xml_content) as [root|]; simpl; [|tauto].
  rewrite <- list_elem_of_In, list_elem_of_omap. intros [e [_ He]].
  apply fixer_turn_filter in He as [Hd Hs]. split; [exact Hd|].
  apply not_in_lower; [reflexivity | exact Hs].
Qed.

End Fixer.

Section Phase3.
Import Phase3ScaledProcessor.
Variable fromstring : string -> option element.

Lemma phase3_turn_filter (domain : string) (e : element) (p : page) :
  extract_turn domain e = Some p -> is_real_page domain (url p) = true.
Proof.
  unfold extract_turn.
  destruct (find (ns "loc") e) as [loc_elem|]; [|discriminate].
  destruct (text_of loc_elem) as [[|c t]|]; [discriminate| |discriminate].
  destruct (is_real_page domain (strip (String c t))) eqn:F; [|discriminate].
  intros H. injection H as <-. exact F.
Qed.

Lemma phase3_extract_filter (xml_content domain : string) (p : page) :
  In p (parse_sitemap_for_real_pages fromstring xml_content domain) ->
  is_real_page domain (url p) = true.
Proof.
  unfold parse_sitemap_for_real_pages.
  destruct (fromstring xml_content) as [root|]; simpl; [|tauto].
  rewrite <- list_elem_of_In, list_elem_of_omap. intros [e [_ He]].
  eapply phase3_turn_filter; exact He.
Qed.

End Phase3.

End ExtractorFacts.

(** What the advanced parser yields never contains "sitemap" and never
    ends in ".xml". *)
Lemma advanced_extract_no_sitemap_no_xml
    (fromstring : string -> option Xml.element)
    (urlparse_path : string -> option string)
    (pyfloat : Type) (float : string -> option pyfloat)
    (xml_content domain : string) (p : AdvancedSitemapParser.page pyfloat) :
  In p (AdvancedSitemapParser.extract_real_pages_from_xml
          fromstring urlparse_path pyfloat float xml_content domain) ->
  PyStr.str_in "sitemap" (AdvancedSitemapParser.url p) = false
  /\ PyStr.endswith ".xml" (AdvancedSitemapParser.url p) = false.
Proof.
  intros H. eapply ExtractorFacts.advanced_filter_excludes.
  eapply ExtractorFacts.advanced_extract_filter. exact H.
Qed.

(** What the database fixer yields never contains "sitemap". *)
Lemma fixer_extract_no_sitemap
    (fromstring : string -> option Xml.element)
    (xml_content domain : string) (p : DatabaseSitemapFixer.page) :
  In p (DatabaseSitemapFixer.extract_urls_from_sitemap_xml fromstring xml_content domain) ->
  PyStr.str_in "sitemap" (DatabaseSitemapFixer.url p) = false.
Proof. intros H. eapply ExtractorFacts.fixer_extract_filter. exact H. Qed.

(** C1: the extractor of the database fixer yields a URL that ends in
    ".xml".  For the document listing https://example.com/about and
    https://example.com/feed.xml and the domain example.com it yields both
    URLs; the advanced parser yields the first one only. *)
Theorem extract_urls_from_sitemap_xml_yields_xml :
  map DatabaseSitemapFixer.url
    (DatabaseSitemapFixer.extract_urls_from_sitemap_xml Samples.fromstring
       (Samples.urlset_xml Samples.feed_urls) "example.com")
  = ["https://example.com/about"; "https://example.com/feed.xml"]
  /\ PyStr.endswith ".xml" "https://example.com/feed.xml" = true
  /\ map AdvancedSitemapParser.url
       (AdvancedSitemapParser.extract_real_pages_from_xml Samples.fromstring
          Url.plain_path Z Samples.float
          (Samples.urlset_xml Samples.feed_urls) "example.com")
     = ["https://example.com/about"].
Proof. repeat split; vm_compute; reflexivity. Qed.

(** The claim of C2 fails: for the document listing
    https://evil.org/?ref=example.com and the domain example.com, both
    extractors yield the URL, whose host evil.org is outside the domain. *)
Lemma extract_yields_outside_host :
  map AdvancedSitemapParser.url
    (AdvancedSitemapParser.extract_real_pages_from_xml Samples.fromstring
       Url.plain_path Z Samples.float
       (Samples.urlset_xml Samples.outsider_urls) "example.com")
  = ["https://evil.org/?ref=example.com"]
  /\ map Phase3ScaledProcessor.url
       (Phase3ScaledProcessor.parse_sitemap_for_real_pages Samples.fromstring
          (Samples.urlset_xml Samples.outsider_urls) "example.com")
     = ["https://evil.org/?ref=example.com"]
  /\ Url.netloc "https://evil.org/?ref=example.com" = "evil.org"
  /\ Url.host_belongs "example.com" "https://evil.org/?ref=example.com" = false.
Proof. repeat split; vm_compute; reflexivity. Qed.

(** C2, amended: every URL yielded by the advanced parser and by the
    scaled processor contains the domain string somewhere and starts with
    "http://" or "https://". *)
Theorem extract_yields_domain_substring
    (fromstring : string -> option Xml.element)
    (urlparse_path : string -> option string)
    (pyfloat : Type) (float : string -> option pyfloat)
    (xml_content domain : string) :
  (forall p : AdvancedSitemapParser.page pyfloat,
     In p (AdvancedSitemapParser.extract_real_pages_from_xml
             fromstring urlparse_path pyfloat float xml_content domain) ->
     PyStr.str_in domain (AdvancedSitemapParser.url p) = true
     /\ (PyStr.startswith "http://" (AdvancedSitemapParser.url p) = true
         \/ PyStr.startswith "https://" (AdvancedSitemapParser.url p) = true))
  /\ (forall p : Phase3ScaledProcessor.page,
        In p (Phase3ScaledProcessor.parse_sitemap_for_real_pages
                fromstring xml_content domain) ->
        PyStr.str_in domain (Phase3ScaledProcessor.url p) = true
        /\ (PyStr.startswith "http://" (Phase3ScaledProcessor.url p) = true
            \/ PyStr.startswith "https://" (Phase3ScaledProcessor.url p) = true)).
Proof.
  split; intros p H.
  - apply ExtractorFacts.advanced_extract_filter in H.
    unfold AdvancedSitemapParser.is_real_page in H.
    rewrite !andb_true_iff, orb_true_iff in H. tauto.
  - apply ExtractorFacts.phase3_extract_filter in H.
    unfold Phase3ScaledProcessor.is_real_page in H.
    rewrite !andb_true_iff, orb_true_iff in H. tauto.
Qed.

Lemma extract_yields_domain_substring_witness :
  (In {| AdvancedSitemapParser.url := "https://example.com/about";
         AdvancedSitemapParser.path := "/about";
         AdvancedSitemapParser.title := "About";
         AdvancedSitemapParser.lastModified := None;
         AdvancedSitemapParser.priority := None;
         AdvancedSitemapParser.changeFreq := None;
         AdvancedSitemapParser.depth := 1 |}
      (AdvancedSitemapParser.extract_real_pages_from_xml Samples.fromstring
         Url.plain_path Z Samples.float
         (Samples.urlset_xml Samples.feed_urls) "example.com")
   /\ In {| Phase3ScaledProcessor.url := "https://example.com/about";
            Phase3ScaledProcessor.path := "/about";
            Phase3ScaledProcessor.title := "About";
            Phase3ScaledProcessor.depth := 1;
            Phase3ScaledProcessor.bi :=
              Phase3ScaledProcessor.get_enhanced_bi_classification
                "https://example.com/about" |}
         (Phase3ScaledProcessor.parse_sitemap_for_real_pages Samples.fromstring
            (Samples.urlset_xml Samples.feed_urls) "example.com"))
  /\ PyStr.str_in "example.com" "https://example.com/about" = true
  /\ (PyStr.startswith "http://" "https://example.com/about" = true
      \/ PyStr.startswith "https://" "https://example.com/about" = true).
Proof.
  assert (Ha : In {| AdvancedSitemapParser.url := "https://example.com/about";
                     AdvancedSitemapParser.path := "/about";
                     AdvancedSitemapParser.title := "About";
                     AdvancedSitemapParser.lastModified := None;
                     AdvancedSitemapParser.priority := None;
                     AdvancedSitemapParser.changeFreq := None;
                     AdvancedSitemapParser.depth := 1 |}
                 (AdvancedSitemapParser.extract_real_pages_from_xml Samples.fromstring
                    Url.plain_path Z Samples.float
                    (Samples.urlset_xml Samples.feed_urls) "example.com"))
    by (vm_compute; left; reflexivity).
  assert (Hp : In {| Phase3ScaledProcessor.url := "https://example.com/about";
                     Phase3ScaledProcessor.path := "/about";
                     Phase3ScaledProcessor.title := "About";
                     Phase3ScaledProcessor.depth := 1;
                     Phase3ScaledProcessor.bi :=
                       Phase3ScaledProcessor.get_enhanced_bi_classification
                         "https://example.com/about" |}
                 (Phase3ScaledProcessor.parse_sitemap_for_real_pages Samples.fromstring
                    (Samples.urlset_xml Samples.feed_urls) "example.com"))
    by (vm_compute; left; reflexivity).
  split; [split; assumption|].
  pose proof (extract_yields_domain_substring Samples.fromstring Url.plain_path Z
                Samples.float (Samples.urlset_xml Samples.feed_urls) "example.com")
    as [HA HP].
  destruct (HP _ Hp) as [_ _].
  exact (HA _ Ha).
Defined.

(** ** The sitemap-index walkers *)

Module WalkerFacts.
Import PyStr Xml Http.

Lemma firstn_app_firstn {A} (k : nat) (l1 l2 : list A) :
  firstn k (l1 ++ l2) = (firstn k l1 ++ firstn (k - List.length (firstn k l1)) l2)%list.
Proof.
  rewrite List.firstn_app, List.length_firstn. f_equal.
  destruct (Nat.le_gt_cases k (List.length l1)) as [H|H].
  - rewrite Nat.min_l by exact H.
    replace (k - List.length l1)%nat with 0%nat by lia.
    replace (k - k)%nat with 0%nat by lia. reflexivity.
  - rewrite Nat.min_r by lia. reflexivity.
Qed.

Section Advanced.
Import AdvancedSitemapParser.
Variable fromstring : string -> option element.
Variable urlparse_path : string -> option string.
Variable pyfloat : Type.
Variable float : string -> option pyfloat.
Variable http_get : string -> response.

Abbreviation append_pages := (append_pages pyfloat).
Abbreviation index_loop :=
  (index_loop fromstring urlparse_path pyfloat float http_get).
Abbreviation sub_pages_of :=
  (WalkerSpec.advanced_sub_pages fromstring urlparse_path pyfloat float http_get).
Abbreviation classify := (classify pyfloat).

(** The inner loop appends the sub-pages, classified and in order, as
    long as there is room. *)
Lemma append_pages_spec (limit_pages : Z) (sub_pages : list (page pyfloat))
    (real_pages : list (classified_page pyfloat)) :
  Z.of_nat (List.length real_pages) <= limit_pages ->
  append_pages limit_pages sub_pages real_pages =
  (real_pages ++
   map classify (firstn (Z.to_nat limit_pages - List.length real_pages) sub_pages))%list.
Proof.
  revert real_pages. induction sub_pages as [|p rest IH]; intros acc Hacc; simpl.
  - rewrite List.firstn_nil, List.app_nil_r. reflexivity.
  - destruct (Z.of_nat (List.length acc) >=? limit_pages) eqn:E.
    + apply Z.geb_le in E.
      replace (Z.to_nat limit_pages - List.length acc)%nat with 0%nat by lia.
      simpl. rewrite List.app_nil_r. reflexivity.
    + rewrite Z.geb_leb in E. apply Z.leb_gt in E.
      rewrite IH by (rewrite List.length_app; simpl; lia).
      rewrite List.length_app. simpl List.length.
      replace (Z.to_nat limit_pages - List.length acc)%nat
        with (S (Z.to_nat limit_pages - (List.length acc + 1)))%nat by lia.
      simpl. rewrite <- List.app_assoc. reflexivity.
Qed.

Lemma append_pages_nil (limit_pages : Z)
    (real_pages : list (classified_page pyfloat)) :
  append_pages limit_pages [] real_pages = real_pages.
Proof. reflexivity. Qed.

(** One turn of the outer loop, in terms of what the element
    contributes. *)
Lemma index_loop_step (domain : string) (limit_pages : Z) (e : element)
    (rest : list element) (real_pages : list (classified_page pyfloat)) :
  index_loop domain limit_pages (e :: rest) real_pages =
  if Z.of_nat (List.length real_pages) >=? limit_pages then real_pages
  else index_loop domain limit_pages rest
         (append_pages limit_pages (sub_pages_of domain e) real_pages).
Proof.
  unfold WalkerSpec.advanced_sub_pages.
  cbn [AdvancedSitemapParser.index_loop].
  destruct (Z.of_nat (List.length real_pages) >=? limit_pages); [reflexivity|].
  destruct (find (ns "loc") e) as [loc_elem|]; [|reflexivity].
  destruct (get http_get (text_of loc_elem)) as [status sub_xml|]; [|reflexivity].
  destruct (status =? 200); reflexivity.
Qed.

(** The outer loop yields, after what was there, the pages of the listed
    sub-sitemaps in their listed order, cut where the limit is reached. *)
Lemma index_loop_spec (domain : string) (limit_pages : Z)
    (sitemap_elements : list element)
    (real_pages : list (classified_page pyfloat)) :
  Z.of_nat (List.length real_pages) <= limit_pages ->
  index_loop domain limit_pages sitemap_elements real_pages =
  (real_pages ++
   map classify
     (firstn (Z.to_nat limit_pages - List.length real_pages)
        (concat (map (sub_pages_of domain) sitemap_elements))))%list.
Proof.
  revert real_pages.
  induction sitemap_elements as [|e rest IH]; intros acc Hacc.
  - simpl. rewrite List.firstn_nil, List.app_nil_r. reflexivity.
  - rewrite index_loop_step. cbn [map concat].
    destruct (Z.of_nat (List.length acc) >=? limit_pages) eqn:E.
    + apply Z.geb_le in E.
      replace (Z.to_nat limit_pages - List.length acc)%nat with 0%nat by lia.
      simpl. rewrite List.app_nil_r. reflexivity.
    + rewrite Z.geb_leb in E. apply Z.leb_gt in E.
      rewrite append_pages_spec by exact Hacc.
      set (k := (Z.to_nat limit_pages - List.length acc)%nat).
      set (sub := sub_pages_of domain e).
      assert (Hlen : (List.length (firstn k sub) <= k)%nat) by apply List.firstn_le_length.
      rewrite IH.
      2: { rewrite List.length_app, List.length_map. subst k. lia. }
      rewrite List.length_app, List.length_map, firstn_app_firstn.
      rewrite List.map_app, <- List.app_assoc.
      replace (Z.to_nat limit_pages - (List.length acc + List.length (firstn k sub)))%nat
        with (k - List.length (firstn k sub))%nat by (subst k; lia).
      reflexivity.
Qed.

Lemma append_pages_bound (limit_pages : Z) (sub_pages : list (page pyfloat))
    (real_pages : list (classified_page pyfloat)) :
  Z.of_nat (List.length real_pages) <= limit_pages ->
  Z.of_nat (List.length (append_pages limit_pages sub_pages real_pages)) <= limit_pages.
Proof.
  intros H. rewrite append_pages_spec by exact H.
  rewrite List.length_app, List.length_map.
  pose proof (List.firstn_le_length
                (Z.to_nat limit_pages - List.length real_pages) sub_pages). lia.
Qed.

Lemma index_loop_bound (domain : string) (limit_pages : Z)
    (sitemap_elements : list element)
    (real_pages : list (classified_page pyfloat)) :
  Z.of_nat (List.length real_pages) <= limit_pages ->
  Z.of_nat (List.length (index_loop domain limit_pages sitemap_elements real_pages))
  <= limit_pages.
Proof.
  intros H. rewrite index_loop_spec by exact H.
  rewrite List.length_app, List.length_map.
  pose proof (List.firstn_le_length
                (Z.to_nat limit_pages - List.length real_pages)
                (concat (map (sub_pages_of domain) sitemap_elements))). lia.
Qed.

Lemma parse_company_real_pages_bound (domain : string) (limit_pages : Z) :
  0 <= limit_pages ->
  Z.of_nat (List.length
              (parse_company_real_pages fromstring urlparse_path pyfloat float http_get
                 domain limit_pages)) <= limit_pages.
Proof.
  intros H. unfold parse_company_real_pages.
  destruct (find_main_sitemap _ _) as [main|]; [|exact H].
  destruct (http_get main) as [status xml|]; [|exact H].
  destruct (status =? 200); [|exact H].
  destruct (fromstring xml) as [root|]; [|exact H].
  destruct (findall (ns "sitemap") root) as [|e els].
  - rewrite List.length_map. unfold slice_to.
    replace (0 <=? limit_pages) with true by (symmetry; apply Z.leb_le; exact H).
    pose proof (List.firstn_le_length (Z.to_nat limit_pages)
                  (extract_real_pages_from_xml fromstring urlparse_path pyfloat float
                     xml domain)). lia.
  - apply index_loop_bound. simpl. exact H.
Qed.

End Advanced.

Section Phase3.
Import Phase3ScaledProcessor WalkerSpec.
Variable fromstring : string -> option element.
Variable http_get : string -> response.

Abbreviation index_loop := (index_loop fromstring http_get).
Abbreviation sub_pages := (scaled_sub_pages fromstring http_get).
Abbreviation answered := (scaled_answered http_get).

(** One turn of the loop, in terms of what the element contributes. *)
Lemma scaled_index_loop_step (domain : string) (e : element) (rest : list element)
    (all_pages : list page) :
  index_loop domain (e :: rest) all_pages =
  if answered e && (Z.of_nat (List.length (all_pages ++ sub_pages domain e)) >=? 300)
  then (all_pages ++ sub_pages domain e)%list
  else index_loop domain rest (all_pages ++ sub_pages domain e).
Proof.
  unfold scaled_sub_pages, scaled_answered.
  cbn [Phase3ScaledProcessor.index_loop].
  destruct (find (ns "loc") e) as [loc_elem|]; cbn [andb];
    [|rewrite List.app_nil_r; reflexivity].
  destruct (get http_get (text_of loc_elem)) as [status sub_xml|]; cbn [andb];
    [|rewrite List.app_nil_r; reflexivity].
  destruct (status =? 200); cbn [andb]; [|rewrite List.app_nil_r; reflexivity].
  reflexivity.
Qed.

Lemma scaled_unanswered_empty (domain : string) (e : element) :
  answered e = false -> sub_pages domain e = [].
Proof.
  unfold scaled_sub_pages, scaled_answered.
  destruct (find (ns "loc") e) as [loc_elem|]; [|reflexivity].
  destruct (get http_get (text_of loc_elem)) as [status sub_xml|]; [|reflexivity].
  destruct (status =? 200); [discriminate | reflexivity].
Qed.

(** The loop takes the listed sub-sitemaps in order and stops after the
    first one that brings the count to 300 or more. *)
Lemma scaled_index_loop_spec (domain : string) (sitemap_elements : list element)
    (all_pages : list page) :
  Z.of_nat (List.length all_pages) < 300 ->
  exists k : nat,
    (k <= List.length sitemap_elements)%nat
    /\ index_loop domain sitemap_elements all_pages =
       (all_pages ++ concat (map (sub_pages domain) (firstn k sitemap_elements)))%list
    /\ ((k < List.length sitemap_elements)%nat ->
        300 <= Z.of_nat (List.length (index_loop domain sitemap_elements all_pages)))
    /\ ((0 < k)%nat ->
        Z.of_nat
          (List.length
             (all_pages ++
              concat (map (sub_pages domain) (firstn (k - 1) sitemap_elements))))
        < 300).
Proof.
  revert all_pages.
  induction sitemap_elements as [|e rest IH]; intros acc Hacc.
  - exists 0%nat. cbn [firstn map concat List.length index_loop Phase3ScaledProcessor.index_loop].
    rewrite List.app_nil_r. repeat split; lia.
  - rewrite scaled_index_loop_step.
    destruct (answered e && (Z.of_nat (List.length (acc ++ sub_pages domain e)) >=? 300)) eqn:E.
    + exists 1%nat. cbn [firstn map concat List.length Nat.sub].
      rewrite !List.app_nil_r. repeat split; lia.
    + assert (Hacc' : Z.of_nat (List.length (acc ++ sub_pages domain e)) < 300).
      { apply andb_false_iff in E as [E|E].
        - rewrite (scaled_unanswered_empty _ _ E), List.app_nil_r. exact Hacc.
        - rewrite Z.geb_leb in E. apply Z.leb_gt in E. exact E. }
      destruct (IH _ Hacc') as [k [Hk [Hres [Hfull Hbefore]]]].
      exists (S k). cbn [List.length]. split; [lia|]. split; [|split].
      * rewrite Hres. cbn [firstn map concat]. rewrite <- List.app_assoc. reflexivity.
      * intros Hlt. apply Hfull. lia.
      * intros _. replace (S k - 1)%nat with k by lia.
        destruct k as [|k].
        -- cbn [firstn map concat]. rewrite List.app_nil_r. exact Hacc.
        -- cbn [firstn map concat]. rewrite List.app_assoc.
           replace k with (S k - 1)%nat at 1 by lia. apply Hbefore. lia.
Qed.

End Phase3.

End WalkerFacts.

(** The claim of C8 fails for the scaled processor: an index that lists
    one sub-sitemap with 301 page URLs makes its walk return 301 entries,
    more than its bound of 300. *)
Lemma scaled_walk_exceeds_bound :
  List.length
    (Phase3ScaledProcessor.parse_sitemap_index_for_real_pages
       Samples.fromstring Samples.http_get
       (Samples.sitemapindex_xml Samples.index_urls) "example.com")
  = 301%nat
  /\ 300 < Z.of_nat
             (List.length
                (Phase3ScaledProcessor.parse_sitemap_index_for_real_pages
                   Samples.fromstring Samples.http_get
                   (Samples.sitemapindex_xml Samples.index_urls) "example.com")).
Proof. split; vm_compute; reflexivity. Qed.

(** C8, amended.  In the advanced parser, for a bound that is not
    negative, no accumulation step takes the list beyond the bound, the
    list returned is within the bound, and the walk of an index yields the
    pages of the listed sub-sitemaps in their listed order, cut at the
    bound (there is no bound on the number of sub-sitemaps).  In the scaled
    processor the walk takes the first ten listed sub-sitemaps in their
    listed order and stops after the first one that brings the count to
    300 or more: the count is below 300 before the last sub-sitemap taken
    is added, and may exceed 300 after it. *)
Theorem sitemap_walk_order_and_bounds
    (fromstring : string -> option Xml.element)
    (urlparse_path : string -> option string)
    (pyfloat : Type) (float : string -> option pyfloat)
    (http_get : string -> Http.response)
    (domain : string) (limit_pages : Z) :
  0 <= limit_pages ->
  (forall real_pages : list (AdvancedSitemapParser.classified_page pyfloat),
     Z.of_nat (List.length real_pages) <= limit_pages ->
     (forall sub_pages,
        Z.of_nat (List.length
                    (AdvancedSitemapParser.append_pages pyfloat limit_pages
                       sub_pages real_pages)) <= limit_pages)
     /\ (forall sitemap_elements,
           Z.of_nat (List.length
                       (AdvancedSitemapParser.index_loop fromstring urlparse_path
                          pyfloat float http_get domain limit_pages
                          sitemap_elements real_pages)) <= limit_pages))
  /\ Z.of_nat (List.length
                 (AdvancedSitemapParser.parse_company_real_pages fromstring
                    urlparse_path pyfloat float http_get domain limit_pages))
     <= limit_pages
  /\ (forall sitemap_elements,
        AdvancedSitemapParser.index_loop fromstring urlparse_path pyfloat float
          http_get domain limit_pages sitemap_elements []
        = map (AdvancedSitemapParser.classify pyfloat)
            (firstn (Z.to_nat limit_pages)
               (concat (map (WalkerSpec.advanced_sub_pages fromstring
                               urlparse_path pyfloat float http_get domain)
                          sitemap_elements))))
  /\ (forall xml_content,
        match fromstring xml_content with
        | None =>
            Phase3ScaledProcessor.parse_sitemap_index_for_real_pages
              fromstring http_get xml_content domain = []
        | Some root =>
            let listed := firstn 10 (Xml.findall (Xml.ns "sitemap") root) in
            let sub := WalkerSpec.scaled_sub_pages fromstring http_get domain in
            exists k : nat,
              (k <= List.length listed)%nat
              /\ Phase3ScaledProcessor.parse_sitemap_index_for_real_pages
                   fromstring http_get xml_content domain
                 = concat (map sub (firstn k listed))
              /\ ((k < List.length listed)%nat ->
                  300 <= Z.of_nat
                           (List.length
                              (Phase3ScaledProcessor.parse_sitemap_index_for_real_pages
                                 fromstring http_get xml_content domain)))
              /\ ((0 < k)%nat ->
                  Z.of_nat (List.length (concat (map sub (firstn (k - 1) listed)))) < 300)
        end).
Proof.
  intros Hlimit. split; [|split; [|split]].
  - intros real_pages Hacc. split.
    + intros sub_pages. apply WalkerFacts.append_pages_bound. exact Hacc.
    + intros els. apply WalkerFacts.index_loop_bound. exact Hacc.
  - apply WalkerFacts.parse_company_real_pages_bound. exact Hlimit.
  - intros els. rewrite WalkerFacts.index_loop_spec by (simpl; exact Hlimit).
    simpl. rewrite Nat.sub_0_r. reflexivity.
  - intros xml_content.
    unfold Phase3ScaledProcessor.parse_sitemap_index_for_real_pages.
    destruct (fromstring xml_content) as [root|]; [|reflexivity].
    change (PyStr.slice_to 10 (Xml.findall (Xml.ns "sitemap") root))
      with (firstn 10 (Xml.findall (Xml.ns "sitemap") root)).
    cbv zeta.
    destruct (WalkerFacts.scaled_index_loop_spec fromstring http_get domain
                (firstn 10 (Xml.findall (Xml.ns "sitemap") root)) [])
      as [k [Hk [Hres [Hfull Hbefore]]]]; [simpl; lia|].
    exists k. split; [exact Hk|]. split; [exact Hres|]. split; [exact Hfull|].
    exact Hbefore.
Qed.

Lemma sitemap_walk_order_and_bounds_witness :
  0 <= 7
  /\ Z.of_nat (List.length
                 (AdvancedSitemapParser.parse_company_real_pages Samples.fromstring
                    Url.plain_path Z Samples.float Samples.http_get "example.com" 7))
     <= 7.
Proof.
  assert (H : 0 <= 7) by lia.
  split; [exact H|].
  exact (proj1 (proj2 (sitemap_walk_order_and_bounds Samples.fromstring
                         Url.plain_path Z Samples.float Samples.http_get
                         "example.com" 7 H))).
Defined.

(** ** The reconcilers *)

Module StoreFacts.
Import Store StoreSpec.

Section Insert.
Variable accepts : list row -> row -> bool.

(** The loop leaves the accepted rows after the rows that were there and
    counts them. *)
Lemma insert_rows_spec (rows : list row) (d : db) (inserted : Z) :
  insert_rows accepts rows d inserted =
  (with_pages d (website_pages d ++ accepted_rows accepts (website_pages d) rows),
   inserted + Z.of_nat (List.length (accepted_rows accepts (website_pages d) rows))).
Proof.
  revert d inserted. induction rows as [|r rest IH]; intros d n; simpl.
  - rewrite List.app_nil_r, Z.add_0_r. destruct d; reflexivity.
  - unfold insert_page. destruct (accepts (website_pages d) r).
    + rewrite IH. simpl website_pages. unfold with_pages; simpl.
      rewrite <- List.app_assoc. simpl. f_equal. lia.
    + apply IH.
Qed.

(** Running the loop on a list is running it on its front and then on
    its back. *)
Lemma insert_rows_app (front back : list row) (d : db) (inserted : Z) :
  insert_rows accepts (front ++ back) d inserted =
  insert_rows accepts back (insert_rows accepts front d inserted).1
                           (insert_rows accepts front d inserted).2.
Proof.
  revert d inserted. induction front as [|r rest IH]; intros d n; simpl.
  - reflexivity.
  - destruct (insert_page accepts d r); apply IH.
Qed.

(** Offering a list is offering its front and then its back, next to
    what the front left. *)
Lemma accepted_rows_app (existing front back : list row) :
  accepted_rows accepts existing (front ++ back) =
  (accepted_rows accepts existing front
   ++ accepted_rows accepts (existing ++ accepted_rows accepts existing front) back)%list.
Proof.
  revert existing. induction front as [|r rest IH]; intros existing; cbn [List.app accepted_rows].
  - rewrite List.app_nil_r. reflexivity.
  - destruct (accepts existing r).
    + rewrite IH. cbn [List.app]. rewrite <- List.app_assoc. reflexivity.
    + apply IH.
Qed.

(** A row refused at its turn leaves no trace: the rows before it and the
    rows after it are accepted as if it had not been offered. *)
Lemma accepted_rows_skip (existing front : list row) (r : row) (back : list row) :
  accepts (existing ++ accepted_rows accepts existing front) r = false ->
  accepted_rows accepts existing (front ++ r :: back) =
  (accepted_rows accepts existing front
   ++ accepted_rows accepts (existing ++ accepted_rows accepts existing front) back)%list.
Proof.
  intros Hr. rewrite accepted_rows_app. cbn [accepted_rows]. rewrite Hr. reflexivity.
Qed.

Lemma accepted_rows_owned (sid : Z) (existing rows : list row) :
  Forall (fun r => owned_by sid r = true) rows ->
  Forall (fun r => owned_by sid r = true) (accepted_rows accepts existing rows).
Proof.
  revert existing. induction rows as [|r rest IH]; intros existing H; simpl.
  - constructor.
  - inversion H as [|? ? Hr Hrest]; subst.
    destruct (accepts existing r); [constructor; [exact Hr|] |]; apply IH; exact Hrest.
Qed.

End Insert.

Lemma filter_all {A} (f : A -> bool) (l : list A) :
  Forall (fun x => f x = true) l -> List.filter f l = l.
Proof.
  induction 1 as [|x l Hx _ IH]; simpl; [reflexivity | rewrite Hx, IH; reflexivity].
Qed.

Lemma filter_none {A} (f : A -> bool) (l : list A) :
  List.filter f (List.filter (fun x => negb (f x)) l) = [].
Proof.
  induction l as [|x l IH]; simpl; [reflexivity|].
  destruct (f x) eqn:E; simpl; [exact IH | rewrite E; exact IH].
Qed.

(** After the deletion and the insertions the structure's pages are the
    accepted rows. *)
Lemma count_after_replace (accepts : list row -> row -> bool)
    (sid : Z) (d : db) (rows : list row) :
  Forall (fun r => owned_by sid r = true) rows ->
  count_pages
    (with_pages d
       (website_pages (delete_pages d sid) ++
        accepted_rows accepts (website_pages (delete_pages d sid)) rows)) sid
  = Z.of_nat (List.length
                (accepted_rows accepts (website_pages (delete_pages d sid)) rows)).
Proof.
  intros H. unfold count_pages. simpl website_pages.
  rewrite List.filter_app, filter_none. simpl.
  rewrite filter_all by (apply accepted_rows_owned; exact H). reflexivity.
Qed.

End StoreFacts.

Module ReconcilerFacts.
Import Store StoreSpec StoreFacts.

Lemma scaled_insert_loop_rows (accepts : list row -> row -> bool) (sid : Z)
    (pages : list Phase3ScaledProcessor.page) (d : db) (inserted : Z) :
  Phase3ScaledProcessor.insert_loop accepts sid pages d inserted =
  insert_rows accepts (map (Phase3ScaledProcessor.row_of sid) pages) d inserted.
Proof.
  revert d inserted. induction pages as [|p rest IH]; intros d n; simpl; [reflexivity|].
  destruct (insert_page accepts d _); apply IH.
Qed.

Lemma pilot_insert_loop_rows (accepts : list row -> row -> bool) (sid : Z)
    (pages : list Phase2PilotFix.page) (d : db) (inserted : Z) :
  Phase2PilotFix.insert_loop accepts sid pages d inserted =
  insert_rows accepts (map (Phase2PilotFix.row_of sid) pages) d inserted.
Proof.
  revert d inserted. induction pages as [|p rest IH]; intros d n; simpl; [reflexivity|].
  destruct (insert_page accepts d _); apply IH.
Qed.

Lemma scaled_rows_owned (sid : Z) (pages : list Phase3ScaledProcessor.page) :
  Forall (fun r => owned_by sid r = true) (map (Phase3ScaledProcessor.row_of sid) pages).
Proof.
  apply List.Forall_forall. intros r Hr. apply List.in_map_iff in Hr as [p [<- _]].
  unfold owned_by. simpl. apply Z.eqb_refl.
Qed.

(** A row that the store refuses in the middle of the list is passed
    over: the loop goes on with the rows after it from the store and the
    count reached before it, and the rows put there before stay. *)
Lemma insert_rows_skip (accepts : list row -> row -> bool)
    (front : list row) (r : row) (back : list row) (d : db) (inserted : Z) :
  insert_page accepts (insert_rows accepts front d inserted).1 r = None ->
  insert_rows accepts (front ++ r :: back) d inserted =
    insert_rows accepts back (insert_rows accepts front d inserted).1
                             (insert_rows accepts front d inserted).2
  /\ exists more,
       website_pages (insert_rows accepts (front ++ r :: back) d inserted).1 =
       (website_pages (insert_rows accepts front d inserted).1 ++ more)%list.
Proof.
  intros Hfail.
  assert (Heq : insert_rows accepts (front ++ r :: back) d inserted =
                insert_rows accepts back (insert_rows accepts front d inserted).1
                                         (insert_rows accepts front d inserted).2).
  { rewrite insert_rows_app. simpl. rewrite Hfail. reflexivity. }
  split; [exact Heq|]. rewrite Heq, insert_rows_spec. simpl. eexists. reflexivity.
Qed.

End ReconcilerFacts.

(** In the scaled processor, a run that replaces the pages stores as
    [total_pages] the number of rows it inserted, which is the number of
    pages the structure then owns. *)
Lemma scaled_total_is_inserted
    (accepts : list Store.row -> Store.row -> bool)
    (extract : string -> list Phase3ScaledProcessor.page) (now : Z)
    (pool : Store.db) (company : Store.company) (st : Phase3ScaledProcessor.stats) :
  5 <= Z.of_nat (List.length (extract (Store.company_domain company))) ->
  let sid := Store.structure_id company in
  let candidates :=
    map (Phase3ScaledProcessor.row_of sid)
        (firstn 300 (extract (Store.company_domain company))) in
  let kept := Store.website_pages (Store.delete_pages pool sid) in
  let inserted := StoreSpec.accepted_rows accepts kept candidates in
  let result :=
    Phase3ScaledProcessor.fix_company_with_real_pages accepts extract now pool company st in
  result.1.1 = true
  /\ Store.website_pages result.1.2 = (kept ++ inserted)%list
  /\ Store.count_pages result.1.2 sid = Z.of_nat (List.length inserted)
  /\ Store.total_pages <$> (Store.website_structures result.1.2 !! sid)
     = (fun _ => Z.of_nat (List.length inserted))
         <$> (Store.website_structures pool !! sid).
Proof.
  intros Hlen sid candidates kept inserted result.
  subst result. unfold Phase3ScaledProcessor.fix_company_with_real_pages.
  replace (Z.of_nat (List.length (extract (Store.company_domain company))) <? 5)
    with false by (symmetry; apply Z.ltb_ge; exact Hlen).
  change (PyStr.slice_to 300 (extract (Store.company_domain company)))
    with (firstn 300 (extract (Store.company_domain company))).
  rewrite ReconcilerFacts.scaled_insert_loop_rows, StoreFacts.insert_rows_spec.
  fold sid. fold candidates. fold kept. fold inserted.
  cbn [fst snd Store.update_structure Store.website_pages Store.website_structures
       StoreSpec.with_pages]. rewrite Z.add_0_l.
  split; [reflexivity|]. split; [reflexivity|]. split.
  - apply (StoreFacts.count_after_replace accepts sid pool candidates).
    apply ReconcilerFacts.scaled_rows_owned.
  - rewrite lookup_alter_eq. unfold Store.delete_pages.
    cbn [Store.website_structures].
    destruct (Store.website_structures pool !! sid); reflexivity.
Qed.

(** The database fixer passes over a company with at most 20 pages and
    ends at the [DELETE] of the first company with more: the store is
    never changed, and the run raises exactly when some listed company
    has more than 20 pages. *)
Lemma fixer_never_writes
    (accepts : list Store.row -> Store.row -> bool)
    (parse : string -> list DatabaseSitemapFixer.page) (now : Z)
    (conn : Store.db) (problem_companies : list Store.company) :
  DatabaseSitemapFixer.fix_sitemap_database accepts parse now conn problem_companies
  = if existsb (fun company =>
                  Z.of_nat (List.length (parse (Store.company_domain company))) >? 20)
               problem_companies
    then DatabaseSitemapFixer.Raised conn
    else DatabaseSitemapFixer.Returned conn.
Proof.
  unfold DatabaseSitemapFixer.fix_sitemap_database.
  induction problem_companies as [|company rest IH]; [reflexivity|].
  cbn [DatabaseSitemapFixer.companies_loop existsb].
  unfold DatabaseSitemapFixer.fix_company, Store.delete_pages_returning_count.
  destruct (Z.of_nat (List.length (parse (Store.company_domain company))) >? 20);
    [reflexivity | exact IH].
Qed.

(** C5: the database fixer stores no count at all.  The shop's sitemap
    lists 21 pages, one of them with a URL of 320 characters that the
    store refuses.  The fixer's run ends with an exception at its
    [DELETE ... RETURNING COUNT( * )]: the shop keeps its two sitemap
    pages and the old [total_pages] 2, and no row is inserted.  The
    scaled processor replaces the pages on the same input: 20 rows, and
    [total_pages] 20. *)
Theorem fix_sitemap_database_raises_at_delete :
  let candidates :=
    DatabaseSitemapFixer.parse_company_real_pages
      Samples.shop_fromstring Samples.shop_http_get "shop.example" in
  let fixed :=
    DatabaseSitemapFixer.fix_sitemap_database StoreSpec.accepts_short_urls
      (DatabaseSitemapFixer.parse_company_real_pages
         Samples.shop_fromstring Samples.shop_http_get)
      1000 Samples.shop_db [Samples.shop] in
  let scaled :=
    (Phase3ScaledProcessor.fix_company_with_real_pages StoreSpec.accepts_short_urls
       (Phase3ScaledProcessor.extract_company_real_pages
          Samples.shop_fromstring Samples.shop_http_get)
       1000 Samples.shop_db Samples.shop Samples.no_stats).1.2 in
  (List.length candidates = 21%nat
   /\ fixed = DatabaseSitemapFixer.Raised Samples.shop_db
   /\ map Store.url (Store.website_pages (DatabaseSitemapFixer.store_of fixed))
      = ["https://shop.example/sitemap.xml"; "https://shop.example/page-sitemap.xml"]
   /\ Store.total_pages
        <$> (Store.website_structures (DatabaseSitemapFixer.store_of fixed) !! 1)
      = Some 2)
  /\ (Store.count_pages scaled 1 = 20
      /\ Store.total_pages <$> (Store.website_structures scaled !! 1) = Some 20).
Proof.
  cbv zeta. split; [split; [|split; [|split]] | split].
  - vm_compute. reflexivity.
  - rewrite fixer_never_writes.
    replace (existsb _ [Samples.shop]) with true by (vm_compute; reflexivity).
    reflexivity.
  - rewrite fixer_never_writes.
    replace (existsb _ [Samples.shop]) with true by (vm_compute; reflexivity).
    reflexivity.
  - rewrite fixer_never_writes.
    replace (existsb _ [Samples.shop]) with true by (vm_compute; reflexivity).
    vm_compute. reflexivity.
  - vm_compute. reflexivity.
  - vm_compute. reflexivity.
Qed.

(** C6: with fewer than five candidates the scaled processor and the
    final script report failure and leave the store as it was: no page is
    deleted and no structure is updated. *)
Theorem reconciliation_skipped_below_threshold
    (accepts : list Store.row -> Store.row -> bool) (now : Z)
    (pool : Store.db) (company : Store.company) :
  (forall (extract : string -> list Phase3ScaledProcessor.page)
          (st : Phase3ScaledProcessor.stats),
     Z.of_nat (List.length (extract (Store.company_domain company))) < 5 ->
     (Phase3ScaledProcessor.fix_company_with_real_pages
        accepts extract now pool company st).1 = (false, pool))
  /\ (forall extract : string -> list Phase3Final.page,
        Z.of_nat (List.length (extract (Store.company_domain company))) < 5 ->
        Phase3Final.fix_company_pages accepts extract now pool company
        = ((false, 0), pool)).
Proof.
  split.
  - intros extract st Hlen.
    unfold Phase3ScaledProcessor.fix_company_with_real_pages.
    replace (Z.of_nat (List.length (extract (Store.company_domain company))) <? 5)
      with true by (symmetry; apply Z.ltb_lt; exact Hlen).
    reflexivity.
  - intros extract Hlen. unfold Phase3Final.fix_company_pages.
    replace (Z.of_nat (List.length (extract (Store.company_domain company))) <? 5)
      with true by (symmetry; apply Z.ltb_lt; exact Hlen).
    reflexivity.
Qed.

Lemma reconciliation_skipped_below_threshold_witness :
  (Phase3ScaledProcessor.fix_company_with_real_pages StoreSpec.accepts_short_urls
     (fun _ => [Samples.short_page 0; Samples.short_page 1])
     1000 Samples.shop_db Samples.shop Samples.no_stats).1
  = (false, Samples.shop_db)
  /\ Phase3Final.fix_company_pages StoreSpec.accepts_short_urls (fun _ => [])
       1000 Samples.shop_db Samples.shop
     = ((false, 0), Samples.shop_db).
Proof.
  pose proof (reconciliation_skipped_below_threshold StoreSpec.accepts_short_urls
                1000 Samples.shop_db Samples.shop) as [Hscaled Hfinal].
  split.
  - apply (Hscaled (fun _ => [Samples.short_page 0; Samples.short_page 1])).
    simpl. lia.
  - apply (Hfinal (fun _ => [])). simpl. lia.
Defined.

(** In the pilot script, a run that replaces the pages leaves the rows
    that the store accepted and stores their number. *)
Lemma pilot_total_is_inserted
    (accepts : list Store.row -> Store.row -> bool)
    (extract : string -> list Phase2PilotFix.page) (now : Z)
    (pool : Store.db) (company_name : string) (company : Store.company) :
  Store.company_named pool company_name = Some company ->
  10 <= Z.of_nat (List.length (extract (Store.company_domain company))) ->
  let sid := Store.structure_id company in
  let candidates :=
    map (Phase2PilotFix.row_of sid)
        (firstn 200 (extract (Store.company_domain company))) in
  let kept := Store.website_pages (Store.delete_pages pool sid) in
  let inserted := StoreSpec.accepted_rows accepts kept candidates in
  let result := Phase2PilotFix.fix_company_sitemap accepts extract now pool company_name in
  result.1 = true
  /\ Store.website_pages result.2 = (kept ++ inserted)%list
  /\ Store.total_pages <$> (Store.website_structures result.2 !! sid)
     = (fun _ => Z.of_nat (List.length inserted))
         <$> (Store.website_structures pool !! sid).
Proof.
  intros Hfound Hlen sid candidates kept inserted result.
  subst result. unfold Phase2PilotFix.fix_company_sitemap. rewrite Hfound.
  replace (Z.of_nat (List.length (extract (Store.company_domain company))) <? 10)
    with false by (symmetry; apply Z.ltb_ge; exact Hlen).
  change (PyStr.slice_to 200 (extract (Store.company_domain company)))
    with (firstn 200 (extract (Store.company_domain company))).
  rewrite ReconcilerFacts.pilot_insert_loop_rows, StoreFacts.insert_rows_spec.
  fold sid. fold candidates. fold kept. fold inserted.
  cbn [fst snd Store.update_structure Store.website_pages Store.website_structures
       StoreSpec.with_pages]. rewrite Z.add_0_l.
  split; [reflexivity|]. split; [reflexivity|].
  rewrite lookup_alter_eq. unfold Store.delete_pages.
  cbn [Store.website_structures].
  destruct (Store.website_structures pool !! sid); reflexivity.
Qed.

(** C7: in the scaled processor and in the pilot script, a candidate
    whose insertion the store refuses is passed over and the run goes on.
    Let the candidates be [front], then [page], then [back], and let the
    store refuse [page] at its turn.  The run reports success; the rows of
    [front] that were inserted are still in the store, behind the rows of
    the other structures; the candidates of [back] were offered after
    them and those the store accepted follow; and the stored count is the
    number of these rows. *)
Theorem insertion_failure_is_skipped
    (accepts : list Store.row -> Store.row -> bool) (now : Z) (pool : Store.db) :
  (forall extract company st front page back,
     let sid := Store.structure_id company in
     let kept := Store.website_pages (Store.delete_pages pool sid) in
     let rows_before :=
       StoreSpec.accepted_rows accepts kept
         (map (Phase3ScaledProcessor.row_of sid) front) in
     let rows_after :=
       StoreSpec.accepted_rows accepts (kept ++ rows_before)
         (map (Phase3ScaledProcessor.row_of sid) back) in
     let run :=
       Phase3ScaledProcessor.fix_company_with_real_pages
         accepts extract now pool company st in
     5 <= Z.of_nat (List.length (extract (Store.company_domain company))) ->
     firstn 300 (extract (Store.company_domain company)) = (front ++ page :: back)%list ->
     accepts (kept ++ rows_before)%list (Phase3ScaledProcessor.row_of sid page) = false ->
     run.1.1 = true
     /\ Store.website_pages run.1.2 = (kept ++ rows_before ++ rows_after)%list
     /\ Store.total_pages <$> (Store.website_structures run.1.2 !! sid)
        = (fun _ => Z.of_nat (List.length (rows_before ++ rows_after)))
            <$> (Store.website_structures pool !! sid))
  /\ (forall extract company_name company front page back,
        let sid := Store.structure_id company in
        let kept := Store.website_pages (Store.delete_pages pool sid) in
        let rows_before :=
          StoreSpec.accepted_rows accepts kept
            (map (Phase2PilotFix.row_of sid) front) in
        let rows_after :=
          StoreSpec.accepted_rows accepts (kept ++ rows_before)
            (map (Phase2PilotFix.row_of sid) back) in
        let run :=
          Phase2PilotFix.fix_company_sitemap accepts extract now pool company_name in
        Store.company_named pool company_name = Some company ->
        10 <= Z.of_nat (List.length (extract (Store.company_domain company))) ->
        firstn 200 (extract (Store.company_domain company))
        = (front ++ page :: back)%list ->
        accepts (kept ++ rows_before)%list (Phase2PilotFix.row_of sid page) = false ->
        run.1 = true
        /\ Store.website_pages run.2 = (kept ++ rows_before ++ rows_after)%list
        /\ Store.total_pages <$> (Store.website_structures run.2 !! sid)
           = (fun _ => Z.of_nat (List.length (rows_before ++ rows_after)))
               <$> (Store.website_structures pool !! sid)).
Proof.
  split.
  - intros extract company st front page back sid kept rows_before rows_after run
           Hlen Hsplit Hrefused.
    destruct (scaled_total_is_inserted accepts extract now pool company st Hlen)
      as (Htrue & Hpages & _ & Htotal).
    fold sid in Hpages, Htotal. fold kept in Hpages, Htotal. fold run in Htrue, Hpages, Htotal.
    rewrite Hsplit, List.map_app in Hpages, Htotal. cbn [map] in Hpages, Htotal.
    rewrite (StoreFacts.accepted_rows_skip accepts kept _ _ _ Hrefused) in Hpages, Htotal.
    split; [exact Htrue|]. split; [exact Hpages | exact Htotal].
  - intros extract company_name company front page back sid kept rows_before rows_after run
           Hfound Hlen Hsplit Hrefused.
    destruct (pilot_total_is_inserted accepts extract now pool company_name company
                Hfound Hlen) as (Htrue & Hpages & Htotal).
    fold sid in Hpages, Htotal. fold kept in Hpages, Htotal. fold run in Htrue, Hpages, Htotal.
    rewrite Hsplit, List.map_app in Hpages, Htotal. cbn [map] in Hpages, Htotal.
    rewrite (StoreFacts.accepted_rows_skip accepts kept _ _ _ Hrefused) in Hpages, Htotal.
    split; [exact Htrue|]. split; [exact Hpages | exact Htotal].
Qed.

(** The shop offers two short pages, the page with the long URL and three
    more short pages: the run reports success, the five short pages are
    stored in their order and the stored count is 5. *)
Lemma insertion_failure_is_skipped_witness :
  let extract := fun _ : string =>
    [Samples.short_page 0; Samples.short_page 1; Samples.long_page;
     Samples.short_page 2; Samples.short_page 3; Samples.short_page 4] in
  let run :=
    Phase3ScaledProcessor.fix_company_with_real_pages StoreSpec.accepts_short_urls
      extract 1000 Samples.shop_db Samples.shop Samples.no_stats in
  run.1.1 = true
  /\ map Store.url (Store.website_pages run.1.2)
     = map Samples.item_url [0; 1; 2; 3; 4]%nat
  /\ Store.total_pages <$> (Store.website_structures run.1.2 !! 1) = Some 5.
Proof.
  intros extract run.
  destruct (proj1 (insertion_failure_is_skipped StoreSpec.accepts_short_urls 1000
                     Samples.shop_db)
              extract Samples.shop Samples.no_stats
              [Samples.short_page 0; Samples.short_page 1] Samples.long_page
              [Samples.short_page 2; Samples.short_page 3; Samples.short_page 4])
    as (Htrue & Hpages & Htotal).
  - vm_compute. discriminate.
  - reflexivity.
  - vm_compute. reflexivity.
  - fold run in Htrue, Hpages, Htotal.
    split; [exact Htrue|]. split.
    + rewrite Hpages. vm_compute. reflexivity.
    + refine (eq_trans Htotal _). vm_compute. reflexivity.
Defined.

(** ** The stores between the statements *)

Module VisibleFacts.
Import Store StoreSpec StoreFacts ReplaceSpec Visible.

Lemma last_default {A} (x : A) (l : list A) (d d' : A) :
  List.last (x :: l) d = List.last (x :: l) d'.
Proof.
  revert x. induction l as [|y l IH]; intros x; [reflexivity|].
  change (List.last (y :: l) d = List.last (y :: l) d'). apply IH.
Qed.

Lemma last_cons {A} (x : A) (l : list A) (d : A) :
  List.last (x :: l) d = List.last l x.
Proof.
  destruct l as [|y l]; [reflexivity|].
  change (List.last (y :: l) d = List.last (y :: l) x). apply last_default.
Qed.

Section Insert.
Variable accepts : list row -> row -> bool.

(** The insertion loop ends in the last of its stores and counts them. *)
Lemma insert_states_last (rows : list row) (d : db) (inserted : Z) :
  insert_rows accepts rows d inserted
  = (List.last (insert_states accepts rows d) d,
     inserted + Z.of_nat (List.length (insert_states accepts rows d))).
Proof.
  revert d inserted. induction rows as [|r rest IH]; intros d n.
  - cbn [insert_rows insert_states List.last List.length]. rewrite Z.add_0_r. reflexivity.
  - cbn [insert_rows insert_states]. destruct (insert_page accepts d r) as [d'|].
    + rewrite IH, last_cons. cbn [List.length]. f_equal. lia.
    + apply IH.
Qed.

(** Each of its stores holds, behind the rows of the start, a front part
    of the rows it accepts, and the structures of the start. *)
Lemma insert_states_front (rows : list row) (d : db) :
  Forall (fun d' =>
            website_structures d' = website_structures d
            /\ exists front rest,
                 website_pages d' = (website_pages d ++ front)%list
                 /\ accepted_rows accepts (website_pages d) rows = (front ++ rest)%list)
         (insert_states accepts rows d).
Proof.
  revert d. induction rows as [|r rest IH]; intros d; [constructor|].
  cbn [insert_states accepted_rows]. unfold insert_page.
  destruct (accepts (website_pages d) r); [|apply IH].
  set (d' := {| companies := companies d; website_structures := website_structures d;
                website_pages := (website_pages d ++ [r])%list |}).
  constructor.
  - split; [reflexivity|]. exists [r], (accepted_rows accepts (website_pages d ++ [r]) rest).
    split; reflexivity.
  - specialize (IH d'). eapply List.Forall_impl; [|exact IH].
    intros d'' [Hs (front & rest' & Hp & Ha)]. split; [exact Hs|].
    exists (r :: front), rest'. split.
    + rewrite Hp. cbn [website_pages d']. rewrite <- List.app_assoc. reflexivity.
    + cbn [website_pages d'] in Ha. rewrite Ha. reflexivity.
Qed.

(** The stores of a replacement: the last is the store that the
    replacement leaves, the one after the [DELETE] holds no page of the
    structure, and all but the first and the last are in progress. *)
Lemma replace_states_spec (now : Z) (sid : Z) (rows : list row) (pool : db) :
  let after :=
    update_structure (insert_rows accepts rows (delete_pages pool sid) 0).1
      (insert_rows accepts rows (delete_pages pool sid) 0).2 now sid in
  exists inserts,
    replace_states accepts now sid rows pool
    = (pool :: delete_pages pool sid :: inserts ++ [after])%list
    /\ pages_of (delete_pages pool sid) sid = []
    /\ Forall (in_progress sid pool after) (delete_pages pool sid :: inserts).
Proof.
  intros after. subst after. rewrite insert_states_last. cbn [fst snd]. rewrite Z.add_0_l.
  exists (insert_states accepts rows (delete_pages pool sid)).
  split; [reflexivity|].
  assert (Hnone : pages_of (delete_pages pool sid) sid = []).
  { unfold pages_of, delete_pages. cbn [website_pages]. apply filter_none. }
  split; [exact Hnone|].
  pose proof (insert_states_last rows (delete_pages pool sid) 0) as Hlast.
  rewrite insert_rows_spec in Hlast. injection Hlast as Hlast _.
  assert (Hafter : pages_of (update_structure
                               (List.last (insert_states accepts rows (delete_pages pool sid))
                                          (delete_pages pool sid))
                               (Z.of_nat (List.length
                                  (insert_states accepts rows (delete_pages pool sid))))
                               now sid) sid
                   = List.filter (owned_by sid)
                       (accepted_rows accepts (website_pages (delete_pages pool sid)) rows)).
  { unfold pages_of at 1. cbn [update_structure website_pages]. rewrite <- Hlast.
    cbn [with_pages website_pages]. rewrite List.filter_app, filter_none. reflexivity. }
  constructor.
  - split; [|reflexivity]. rewrite Hnone. eexists. reflexivity.
  - eapply List.Forall_impl; [|apply insert_states_front].
    intros d [Hs (front & rest & Hp & Ha)]. split; [|exact Hs].
    exists (List.filter (owned_by sid) rest). rewrite Hafter, Ha, List.filter_app.
    f_equal. unfold pages_of. rewrite Hp, List.filter_app.
    fold (pages_of (delete_pages pool sid) sid). rewrite Hnone. reflexivity.
Qed.

End Insert.

End VisibleFacts.

(** C9, as stated, fails: between the [DELETE] and the first [INSERT] of
    the scaled processor's run for the shop, a reader finds no page of the
    shop, which had two pages before the run and has twenty after it, and
    still finds the old count 2 in its structure. *)
Lemma reader_sees_deleted_pages :
  let extract :=
    Phase3ScaledProcessor.extract_company_real_pages
      Samples.shop_fromstring Samples.shop_http_get in
  let states :=
    Visible.scaled_states StoreSpec.accepts_short_urls extract 1000
      Samples.shop_db Samples.shop in
  let after :=
    (Phase3ScaledProcessor.fix_company_with_real_pages StoreSpec.accepts_short_urls
       extract 1000 Samples.shop_db Samples.shop Samples.no_stats).1.2 in
  nth_error states 1 = Some (Store.delete_pages Samples.shop_db 1)
  /\ ReplaceSpec.pages_of (Store.delete_pages Samples.shop_db 1) 1 = []
  /\ Store.total_pages
       <$> (Store.website_structures (Store.delete_pages Samples.shop_db 1) !! 1)
     = Some 2
  /\ List.length (ReplaceSpec.pages_of Samples.shop_db 1) = 2%nat
  /\ List.length (ReplaceSpec.pages_of after 1) = 20%nat
  /\ ~ Visible.atomic_for 1 Samples.shop_db after states.
Proof.
  cbv zeta.
  assert (Hstate :
    nth_error
      (Visible.scaled_states StoreSpec.accepts_short_urls
         (Phase3ScaledProcessor.extract_company_real_pages
            Samples.shop_fromstring Samples.shop_http_get) 1000
         Samples.shop_db Samples.shop) 1
    = Some (Store.delete_pages Samples.shop_db 1)) by (vm_compute; reflexivity).
  split; [exact Hstate|].
  split; [vm_compute; reflexivity|].
  split; [vm_compute; reflexivity|].
  split; [vm_compute; reflexivity|].
  split; [vm_compute; reflexivity|].
  intros Hall. unfold Visible.atomic_for in Hall.
  rewrite List.Forall_forall in Hall.
  destruct (Hall _ (nth_error_In _ _ Hstate)) as [H|H]; vm_compute in H; discriminate H.
Qed.

(** C9, amended: the statements of a replacement are committed one
    after the other.  The stores that a reader can see during a run of the
    scaled processor or of the pilot script that replaces the pages are,
    in this order: the store before the run; the store after the
    [DELETE], without any page of the structure; the stores after the
    accepted [INSERT]s; and the store that the run leaves.  In every store
    between the first and the last the pages of the structure are a front
    part of those that the run leaves and the structures, with the old
    count, are those of the store before the run. *)
Theorem reconciliation_states_in_order
    (accepts : list Store.row -> Store.row -> bool) (now : Z) (pool : Store.db) :
  (forall extract company st,
     let sid := Store.structure_id company in
     let after :=
       (Phase3ScaledProcessor.fix_company_with_real_pages
          accepts extract now pool company st).1.2 in
     5 <= Z.of_nat (List.length (extract (Store.company_domain company))) ->
     exists inserts,
       Visible.scaled_states accepts extract now pool company
       = (pool :: Store.delete_pages pool sid :: inserts ++ [after])%list
       /\ ReplaceSpec.pages_of (Store.delete_pages pool sid) sid = []
       /\ Forall (Visible.in_progress sid pool after)
                 (Store.delete_pages pool sid :: inserts))
  /\ (forall extract company_name company,
        let sid := Store.structure_id company in
        let after :=
          (Phase2PilotFix.fix_company_sitemap accepts extract now pool company_name).2 in
        Store.company_named pool company_name = Some company ->
        10 <= Z.of_nat (List.length (extract (Store.company_domain company))) ->
        exists inserts,
          Visible.pilot_states accepts extract now pool company_name
          = (pool :: Store.delete_pages pool sid :: inserts ++ [after])%list
          /\ ReplaceSpec.pages_of (Store.delete_pages pool sid) sid = []
          /\ Forall (Visible.in_progress sid pool after)
                    (Store.delete_pages pool sid :: inserts)).
Proof.
  split.
  - intros extract company st sid after Hlen. subst after.
    unfold Visible.scaled_states, Phase3ScaledProcessor.fix_company_with_real_pages.
    replace (Z.of_nat (List.length (extract (Store.company_domain company))) <? 5)
      with false by (symmetry; apply Z.ltb_ge; exact Hlen).
    rewrite ReconcilerFacts.scaled_insert_loop_rows.
    fold sid.
    destruct (StoreSpec.insert_rows accepts _ (Store.delete_pages pool sid) 0)
      as [loaded inserted] eqn:E.
    cbn [fst snd].
    pose proof (VisibleFacts.replace_states_spec accepts now sid
                  (map (Phase3ScaledProcessor.row_of sid)
                       (PyStr.slice_to 300 (extract (Store.company_domain company))))
                  pool) as H.
    cbv zeta in H. rewrite E in H. exact H.
  - intros extract company_name company sid after Hfound Hlen. subst after.
    unfold Visible.pilot_states, Phase2PilotFix.fix_company_sitemap. rewrite Hfound.
    replace (Z.of_nat (List.length (extract (Store.company_domain company))) <? 10)
      with false by (symmetry; apply Z.ltb_ge; exact Hlen).
    rewrite ReconcilerFacts.pilot_insert_loop_rows.
    fold sid.
    destruct (StoreSpec.insert_rows accepts _ (Store.delete_pages pool sid) 0)
      as [loaded inserted] eqn:E.
    cbn [fst snd].
    pose proof (VisibleFacts.replace_states_spec accepts now sid
                  (map (Phase2PilotFix.row_of sid)
                       (PyStr.slice_to 200 (extract (Store.company_domain company))))
                  pool) as H.
    cbv zeta in H. rewrite E in H. exact H.
Qed.

(** The run for the shop: a reader can see 23 stores, the store before
    the run, the store after the [DELETE], twenty stores after an
    [INSERT] and the store that the run leaves. *)
Lemma reconciliation_states_in_order_witness :
  let extract :=
    Phase3ScaledProcessor.extract_company_real_pages
      Samples.shop_fromstring Samples.shop_http_get in
  let after :=
    (Phase3ScaledProcessor.fix_company_with_real_pages StoreSpec.accepts_short_urls
       extract 1000 Samples.shop_db Samples.shop Samples.no_stats).1.2 in
  exists inserts,
    Visible.scaled_states StoreSpec.accepts_short_urls extract 1000
      Samples.shop_db Samples.shop
    = (Samples.shop_db :: Store.delete_pages Samples.shop_db 1 :: inserts ++ [after])%list
    /\ ReplaceSpec.pages_of (Store.delete_pages Samples.shop_db 1) 1 = []
    /\ Forall (Visible.in_progress 1 Samples.shop_db after)
              (Store.delete_pages Samples.shop_db 1 :: inserts).
Proof.
  intros extract after.
  apply (proj1 (reconciliation_states_in_order StoreSpec.accepts_short_urls 1000
                  Samples.shop_db)
           extract Samples.shop Samples.no_stats).
  vm_compute. discriminate.
Defined.

(** * Further properties of the scripts *)

(** ** The classifier of bi_page_classifier.py *)

Module ClassifierMore.
Import PyStr PyStrFacts BiPageClassifier BiPageClassifierFacts ClassifierSpec.

Lemma lower_or_empty_some (s : string) : lower_or_empty (Some s) = lower s.
Proof. destruct s; reflexivity. Qed.

Lemma app_assoc (a b c : string) : (a ++ b) ++ c = a ++ b ++ c.
Proof. induction a as [|x a IH]; simpl; [reflexivity | rewrite IH; reflexivity]. Qed.

Lemma str_in_app (p a s b : string) :
  str_in p s = true -> str_in p (a ++ s ++ b) = true.
Proof.
  rewrite !str_in_spec. intros [x [y ->]].
  exists (a ++ x), (y ++ b).
  rewrite !app_assoc. reflexivity.
Qed.

Lemma any_in_app (patterns : list string) (a s b : string) :
  any_in patterns s = true -> any_in patterns (a ++ s ++ b) = true.
Proof.
  unfold any_in. rewrite !List.existsb_exists.
  intros [p [Hp Hin]]. exists p. split; [exact Hp | apply str_in_app; exact Hin].
Qed.

(** When the taxonomy lists its entries by rising tier, none above 7, a
    text that matches wherever another one does gets a tier that is not
    higher. *)
Lemma classify_loop_monotone (taxonomy : list (string * config))
    (ul tl ul' tl' : string) :
  StronglySorted (fun e1 e2 : string * config => tier e1.2 <= tier e2.2) taxonomy ->
  Forall (fun e : string * config => tier e.2 <= 7) taxonomy ->
  (forall e, In e taxonomy ->
             entry_matches ul tl e = true -> entry_matches ul' tl' e = true) ->
  tier_of (classify_loop taxonomy ul' tl') <= tier_of (classify_loop taxonomy ul tl).
Proof.
  rewrite !classify_loop_find.
  induction taxonomy as [|e rest IH]; intros Hsorted Hmax Hmatch; simpl; [reflexivity|].
  apply StronglySorted_inv in Hsorted as [Hrest Hhead].
  apply Forall_cons_iff in Hmax as [He Hmax].
  rewrite List.Forall_forall in Hhead.
  destruct (entry_matches ul' tl' e) eqn:E'.
  - destruct (entry_matches ul tl e) eqn:E; [reflexivity|].
    destruct (List.find (entry_matches ul tl) rest) as [e2|] eqn:F.
    + apply find_in in F. unfold tier_of, result_of. simpl. apply Hhead. exact F.
    + unfold tier_of, result_of, unclassified. simpl. exact He.
  - destruct (entry_matches ul tl e) eqn:E.
    + rewrite (Hmatch e (or_introl eq_refl) E) in E'. discriminate.
    + apply IH; [exact Hrest | exact Hmax |].
      intros e0 Hin. apply Hmatch. right. exact Hin.
Qed.

Lemma taxonomy_sorted :
  StronglySorted (fun e1 e2 : string * config => tier e1.2 <= tier e2.2) BI_TAXONOMY.
Proof.
  unfold BI_TAXONOMY.
  repeat (apply SSorted_cons; [|repeat constructor; simpl; lia]).
  apply SSorted_nil.
Qed.

Lemma taxonomy_max :
  Forall (fun e : string * config => tier e.2 <= 7) BI_TAXONOMY.
Proof.
  eapply List.Forall_impl; [|exact taxonomy_tiers]. simpl. intros e [? _]. lia.
Qed.

(** Entries with the same name are the same entry. *)
Lemma taxonomy_names (e1 e2 : string * config) :
  In e1 BI_TAXONOMY -> In e2 BI_TAXONOMY -> e1.1 = e2.1 -> e1 = e2.
Proof.
  unfold BI_TAXONOMY. simpl.
  intros H1 H2.
  repeat (destruct H1 as [<- | H1]); try contradiction;
    repeat (destruct H2 as [<- | H2]); try contradiction;
    simpl; intros E; first [reflexivity | discriminate E].
Qed.

(** A result is the triple of an entry or the fallback. *)
Lemma classify_cases (url title : option string) :
  (exists e, In e BI_TAXONOMY /\ classify_page_bi url title = result_of e)
  \/ classify_page_bi url title = unclassified.
Proof.
  unfold classify_page_bi. rewrite classify_loop_find.
  destruct (List.find _ _) as [e|] eqn:F; [left | right; reflexivity].
  exists e. split; [exact (find_in _ _ _ F) | reflexivity].
Qed.

End ClassifierMore.

Module ClassifierShadow.
Import PyStr BiPageClassifier ClassifierSpec.

Lemma existsb_orb_true (f : string -> bool) (l : list string) (p : string) :
  In p l -> f p = true -> existsb f l = true.
Proof. intros Hin Hp. apply List.existsb_exists. exists p. split; assumption. Qed.

(** A text that holds a URL pattern or a title pattern of products is
    settled by one of the first three entries. *)
Lemma products_or_earlier (ul tl : string) :
  any_in ["/products"; "/catalog"; "/portfolio"; "/brands"; "/shop"] ul = true
  \/ any_in ["products"; "catalog"; "portfolio"; "brands"; "offerings"; "shop"] tl = true ->
  first_three (classify_loop BI_TAXONOMY ul tl).
Proof.
  intros H. unfold BI_TAXONOMY, first_three, category_of.
  cbn [classify_loop url_patterns title_patterns tier intelligence].
  repeat match goal with
         | |- context [if any_in ?l ?s then _ else _] =>
             destruct (any_in l s) eqn:?; [simpl; tauto|]
         end.
  destruct H; congruence.
Qed.

(** A title that holds "offerings" is settled by careers or services. *)
Lemma services_or_earlier (ul tl : string) :
  str_in "offerings" tl = true ->
  category_of (classify_loop BI_TAXONOMY ul tl) = "careers"
  \/ category_of (classify_loop BI_TAXONOMY ul tl) = "services".
Proof.
  intros H. unfold BI_TAXONOMY, category_of.
  cbn [classify_loop url_patterns title_patterns tier intelligence].
  repeat match goal with
         | |- context [if any_in ?l ?s then _ else _] =>
             destruct (any_in l s) eqn:?; [simpl; tauto|]
         end.
  match goal with
  | E : any_in ("services" :: _) tl = false |- _ =>
      unfold any_in in E; cbn [existsb] in E; rewrite H in E;
      rewrite !orb_true_r in E; discriminate E
  end.
Qed.

End ClassifierShadow.

(** X1: making the URL and the title longer, by text before and after,
    never gives a tier number above the one the shorter texts get. *)
Theorem classify_page_bi_longer_text (a u b c t d : string) :
  ClassifierSpec.tier_of
    (BiPageClassifier.classify_page_bi (Some (a ++ u ++ b)) (Some (c ++ t ++ d)))
  <= ClassifierSpec.tier_of (BiPageClassifier.classify_page_bi (Some u) (Some t)).
Proof.
  unfold BiPageClassifier.classify_page_bi.
  rewrite !ClassifierMore.lower_or_empty_some, !PyStrFacts.lower_app.
  apply ClassifierMore.classify_loop_monotone.
  - exact ClassifierMore.taxonomy_sorted.
  - exact ClassifierMore.taxonomy_max.
  - intros e _. unfold BiPageClassifier.entry_matches.
    rewrite !orb_true_iff. intros [H|H]; [left | right];
      apply ClassifierMore.any_in_app; exact H.
Qed.

(** X2: the category decides the whole triple: two results with the same
    category have the same tier and the same intelligence text. *)
Theorem classify_page_bi_category_decides (url title url' title' : option string) :
  ClassifierSpec.category_of (BiPageClassifier.classify_page_bi url title)
  = ClassifierSpec.category_of (BiPageClassifier.classify_page_bi url' title') ->
  BiPageClassifier.classify_page_bi url title
  = BiPageClassifier.classify_page_bi url' title'.
Proof.
  pose proof BiPageClassifierFacts.taxonomy_tiers as HT.
  rewrite List.Forall_forall in HT.
  destruct (ClassifierMore.classify_cases url title) as [[e1 [F1 ->]] | ->];
    destruct (ClassifierMore.classify_cases url' title') as [[e2 [F2 ->]] | ->];
    unfold ClassifierSpec.category_of, BiPageClassifier.result_of,
           BiPageClassifier.unclassified; cbn [fst snd]; intros E.
  - rewrite (ClassifierMore.taxonomy_names e1 e2 F1 F2 E). reflexivity.
  - destruct (HT e1 F1) as [_ Hn]. congruence.
  - destruct (HT e2 F2) as [_ Hn]. congruence.
  - reflexivity.
Qed.

Lemma classify_page_bi_category_decides_witness :
  BiPageClassifier.classify_page_bi (Some "https://x.com/jobs") None
  = BiPageClassifier.classify_page_bi (Some "https://y.org/") (Some "Open Positions").
Proof.
  apply (classify_page_bi_category_decides
           (Some "https://x.com/jobs") None (Some "https://y.org/") (Some "Open Positions")).
  reflexivity.
Defined.

(** X3: the pattern "/portfolio" and the title pattern "portfolio" of
    case studies never decide: a URL that holds "/portfolio" or a title
    that holds "portfolio" is classified by one of the first three
    entries, which list them for products; likewise a title that holds
    "offerings", listed for products, is classified as careers or
    services. *)
Theorem classify_page_bi_shadowed_patterns (url title : option string) :
  let ul := BiPageClassifier.lower_or_empty url in
  let tl := BiPageClassifier.lower_or_empty title in
  (PyStr.str_in "/portfolio" ul = true \/ PyStr.str_in "portfolio" tl = true ->
   ClassifierSpec.first_three (BiPageClassifier.classify_page_bi url title))
  /\ (PyStr.str_in "offerings" tl = true ->
      ClassifierSpec.category_of (BiPageClassifier.classify_page_bi url title) = "careers"
      \/ ClassifierSpec.category_of (BiPageClassifier.classify_page_bi url title)
         = "services").
Proof.
  intros ul tl. unfold BiPageClassifier.classify_page_bi. fold ul tl. split.
  - intros H. apply ClassifierShadow.products_or_earlier.
    unfold PyStr.any_in. cbn [existsb].
    destruct H as [H|H]; rewrite H; [left | right]; rewrite !orb_true_r; reflexivity.
  - apply ClassifierShadow.services_or_earlier.
Qed.

Lemma classify_page_bi_shadowed_patterns_witness :
  ClassifierSpec.first_three
    (BiPageClassifier.classify_page_bi
       (Some "https://x.com/portfolio/case-studies") (Some "Case Studies")).
Proof.
  apply (proj1 (classify_page_bi_shadowed_patterns
                  (Some "https://x.com/portfolio/case-studies") (Some "Case Studies"))).
  left. reflexivity.
Defined.

(** ** The URL classifiers of the other scripts *)

Module UrlClassifierFacts.
Import PyStr ExtractSpec.

Ltac settle_branches :=
  repeat match goal with
         | |- context [if ?c then _ else _] => destruct c
         end;
  (split; [unfold taxonomy_triples, bi_triple; simpl; auto 20
          | unfold page_type_fits; simpl;
            first [left; split; [reflexivity | discriminate]
                  | right; split; reflexivity]]).

Lemma advanced_agrees (url : string) :
  In (bi_triple (AdvancedSitemapParser.classify_page_for_bi url)) taxonomy_triples
  /\ page_type_fits (AdvancedSitemapParser.classify_page_for_bi url).
Proof. unfold AdvancedSitemapParser.classify_page_for_bi. cbv zeta. settle_branches. Qed.

Lemma scaled_agrees (url : string) :
  In (bi_triple (Phase3ScaledProcessor.get_enhanced_bi_classification url)) taxonomy_triples
  /\ page_type_fits (Phase3ScaledProcessor.get_enhanced_bi_classification url).
Proof.
  unfold Phase3ScaledProcessor.get_enhanced_bi_classification. cbv zeta. settle_branches.
Qed.

Lemma final_agrees (url : string) :
  In (bi_triple (Phase3FinalParser.classify_page_bi url)) taxonomy_triples
  /\ page_type_fits (Phase3FinalParser.classify_page_bi url).
Proof. unfold Phase3FinalParser.classify_page_bi. cbv zeta. settle_branches. Qed.

Lemma pilot_agrees (url : string) :
  In (bi_triple (Phase2PilotParser.classify_business_page url)) taxonomy_triples
  /\ page_type_fits (Phase2PilotParser.classify_business_page url).
Proof. unfold Phase2PilotParser.classify_business_page. cbv zeta. settle_branches. Qed.

Lemma fixer_agrees (url : string) :
  In (DatabaseSitemapFixer.get_bi_classification
        (DatabaseSitemapFixer.classify_real_page url)) taxonomy_triples.
Proof.
  unfold DatabaseSitemapFixer.classify_real_page. cbv zeta.
  repeat match goal with
         | |- context [if ?c then _ else _] => destruct c
         end;
  vm_compute; auto 20.
Qed.

Lemma fixer_page_type_fits (url : string) :
  let page_type := DatabaseSitemapFixer.classify_real_page url in
  let category := (DatabaseSitemapFixer.get_bi_classification page_type).1.1 in
  (page_type = category /\ category <> "unclassified")
  \/ (page_type = "other" /\ category = "unclassified").
Proof.
  unfold DatabaseSitemapFixer.classify_real_page. cbv zeta.
  repeat match goal with
         | |- context [if ?c then _ else _] => destruct c
         end;
  vm_compute;
  first [left; split; [reflexivity | discriminate] | right; split; reflexivity].
Qed.

Lemma fixer_missing_key (k : string) :
  ~ In k ["careers"; "services"; "products"; "about"; "team"; "news"; "contact"; "other"] ->
  DatabaseSitemapFixer.get_bi_classification k = DatabaseSitemapFixer.bi_other.
Proof.
  intros H. unfold DatabaseSitemapFixer.get_bi_classification, DatabaseSitemapFixer.bi_map.
  rewrite not_elem_of_list_to_map_1; [reflexivity|].
  rewrite list_elem_of_In. exact H.
Qed.

End UrlClassifierFacts.

(** X4: the URL classifiers of the advanced parser, the scaled
    processor, the final script, the pilot script and the database fixer
    (its [classify_real_page] followed by [get_bi_classification]) return,
    for every URL, a category with the tier and the intelligence text that
    the taxonomy of bi_page_classifier.py gives it (or the fallback), and
    a page type that is the category, "other" standing for the
    unclassified; the fixer's table answers a page type it does not list
    with the fallback. *)
Theorem url_classifiers_use_taxonomy_triples (url : string) :
  (In (ExtractSpec.bi_triple (AdvancedSitemapParser.classify_page_for_bi url))
      ExtractSpec.taxonomy_triples
   /\ ExtractSpec.page_type_fits (AdvancedSitemapParser.classify_page_for_bi url))
  /\ (In (ExtractSpec.bi_triple (Phase3ScaledProcessor.get_enhanced_bi_classification url))
        ExtractSpec.taxonomy_triples
      /\ ExtractSpec.page_type_fits
           (Phase3ScaledProcessor.get_enhanced_bi_classification url))
  /\ (In (ExtractSpec.bi_triple (Phase3FinalParser.classify_page_bi url))
        ExtractSpec.taxonomy_triples
      /\ ExtractSpec.page_type_fits (Phase3FinalParser.classify_page_bi url))
  /\ (In (ExtractSpec.bi_triple (Phase2PilotParser.classify_business_page url))
        ExtractSpec.taxonomy_triples
      /\ ExtractSpec.page_type_fits (Phase2PilotParser.classify_business_page url))
  /\ (In (DatabaseSitemapFixer.get_bi_classification
            (DatabaseSitemapFixer.classify_real_page url))
         ExtractSpec.taxonomy_triples
      /\ (let page_type := DatabaseSitemapFixer.classify_real_page url in
          let category := (DatabaseSitemapFixer.get_bi_classification page_type).1.1 in
          (page_type = category /\ category <> "unclassified")
          \/ (page_type = "other" /\ category = "unclassified")))
  /\ (forall page_type : string,
        ~ In page_type
            ["careers"; "services"; "products"; "about"; "team"; "news"; "contact"; "other"] ->
        DatabaseSitemapFixer.get_bi_classification page_type
        = ("unclassified", 7, "Unknown business intelligence value")).
Proof.
  repeat split;
    first [ apply UrlClassifierFacts.advanced_agrees
          | apply UrlClassifierFacts.scaled_agrees
          | apply UrlClassifierFacts.final_agrees
          | apply UrlClassifierFacts.pilot_agrees
          | apply UrlClassifierFacts.fixer_agrees
          | apply UrlClassifierFacts.fixer_page_type_fits
          | apply UrlClassifierFacts.fixer_missing_key ].
Qed.

Lemma url_classifiers_use_taxonomy_triples_witness :
  DatabaseSitemapFixer.get_bi_classification "locations"
  = ("unclassified", 7, "Unknown business intelligence value").
Proof.
  apply (proj2 (proj2 (proj2 (proj2 (proj2
           (url_classifiers_use_taxonomy_triples "https://x.com/")))))).
  simpl. intros H.
  repeat (destruct H as [H|H]; [discriminate H|]). exact H.
Defined.

(** ** What the extractors yield *)

Module YieldFacts.
Import PyStr Xml ExtractSpec.

(** A turn-by-turn agreement carries over to the whole document. *)
Lemma omap_agree {A B} (f : A -> option B) (g : A -> option string)
    (proj : B -> string) (h : string -> string) (filt : string -> bool)
    (l : list A) :
  (forall e, map proj (option_list (f e))
             = List.filter filt (map h (option_list (g e)))) ->
  map proj (omap f l) = List.filter filt (map h (omap g l)).
Proof.
  intros H. induction l as [|e l IH]; [reflexivity|].
  cbn [omap list_omap]. specialize (H e).
  destruct (f e) as [y|]; destruct (g e) as [t|]; cbn [option_list map List.filter] in *.
  - destruct (filt (h t)); [|discriminate H].
    injection H as ->. rewrite IH. reflexivity.
  - discriminate H.
  - destruct (filt (h t)); [discriminate H | exact IH].
  - exact IH.
Qed.

Lemma scaled_turn (domain : string) (e : element) :
  map Phase3ScaledProcessor.url (option_list (Phase3ScaledProcessor.extract_turn domain e))
  = List.filter (Phase3ScaledProcessor.is_real_page domain)
      (map strip (option_list (loc_text e))).
Proof.
  unfold Phase3ScaledProcessor.extract_turn, loc_text.
  destruct (find (ns "loc") e) as [l|]; [|reflexivity].
  destruct (text_of l) as [[|c t]|]; [reflexivity| |reflexivity].
  cbn [option_list map List.filter].
  destruct (Phase3ScaledProcessor.is_real_page domain (strip (String c t))); reflexivity.
Qed.

Lemma final_turn (domain : string) (e : element) :
  map Phase3Final.url (option_list (Phase3FinalParser.extract_turn domain e))
  = List.filter (Phase3FinalParser.is_real_page domain)
      (map strip (option_list (loc_text e))).
Proof.
  unfold Phase3FinalParser.extract_turn, loc_text.
  destruct (find (ns "loc") e) as [l|]; [|reflexivity].
  destruct (text_of l) as [[|c t]|]; [reflexivity| |reflexivity].
  cbn [option_list map List.filter].
  destruct (Phase3FinalParser.is_real_page domain (strip (String c t))); reflexivity.
Qed.

Lemma pilot_turn (domain : string) (e : element) :
  map Phase2PilotFix.url (option_list (Phase2PilotParser.extract_turn domain e))
  = List.filter (Phase2PilotParser.is_real_page domain)
      (map strip (option_list (loc_text e))).
Proof.
  unfold Phase2PilotParser.extract_turn, loc_text.
  destruct (find (ns "loc") e) as [l|]; [|reflexivity].
  destruct (text_of l) as [[|c t]|]; [reflexivity| |reflexivity].
  cbn [option_list map List.filter].
  destruct (Phase2PilotParser.is_real_page domain (strip (String c t))); reflexivity.
Qed.

Lemma fixer_turn (domain : string) (e : element) :
  map DatabaseSitemapFixer.url (option_list (DatabaseSitemapFixer.extract_turn domain e))
  = List.filter (fixer_is_real_page domain)
      (map (fun t => t) (option_list (loc_text e))).
Proof.
  unfold DatabaseSitemapFixer.extract_turn, loc_text, fixer_is_real_page.
  destruct (find (ns "loc") e) as [l|]; [|reflexivity].
  destruct (text_of l) as [[|c t]|]; [reflexivity| |reflexivity].
  cbn [option_list map List.filter].
  destruct (str_in domain (String c t) && _); [|reflexivity].
  destruct (DatabaseSitemapFixer.get_bi_classification _) as [[a b] d]. reflexivity.
Qed.

End YieldFacts.

(** X5: the extractors of the scaled processor, the final script, the
    pilot script and the database fixer yield one entry for each [loc]
    text that passes their filter, in document order and with
    repetitions kept; a document that does not parse yields nothing. *)
Theorem extractors_yield_filtered_locs
    (fromstring : string -> option Xml.element) (xml_content domain : string) :
  match fromstring xml_content with
  | None =>
      Phase3ScaledProcessor.parse_sitemap_for_real_pages fromstring xml_content domain = []
      /\ Phase3FinalParser.parse_sitemap_direct fromstring xml_content domain = []
      /\ Phase2PilotParser.parse_direct_sitemap fromstring xml_content domain = []
      /\ DatabaseSitemapFixer.extract_urls_from_sitemap_xml fromstring xml_content domain = []
  | Some root =>
      map Phase3ScaledProcessor.url
        (Phase3ScaledProcessor.parse_sitemap_for_real_pages fromstring xml_content domain)
      = List.filter (Phase3ScaledProcessor.is_real_page domain)
          (ExtractSpec.stripped_locs root)
      /\ map Phase3Final.url
           (Phase3FinalParser.parse_sitemap_direct fromstring xml_content domain)
         = List.filter (Phase3FinalParser.is_real_page domain)
             (ExtractSpec.stripped_locs root)
      /\ map Phase2PilotFix.url
           (Phase2PilotParser.parse_direct_sitemap fromstring xml_content domain)
         = List.filter (Phase2PilotParser.is_real_page domain)
             (ExtractSpec.stripped_locs root)
      /\ map DatabaseSitemapFixer.url
           (DatabaseSitemapFixer.extract_urls_from_sitemap_xml fromstring xml_content domain)
         = List.filter (ExtractSpec.fixer_is_real_page domain) (ExtractSpec.raw_locs root)
  end.
Proof.
  unfold Phase3ScaledProcessor.parse_sitemap_for_real_pages,
         Phase3FinalParser.parse_sitemap_direct,
         Phase2PilotParser.parse_direct_sitemap,
         DatabaseSitemapFixer.extract_urls_from_sitemap_xml,
         ExtractSpec.stripped_locs, ExtractSpec.raw_locs.
  destruct (fromstring xml_content) as [root|]; [|repeat split; reflexivity].
  split; [|split; [|split]].
  - apply YieldFacts.omap_agree, YieldFacts.scaled_turn.
  - apply YieldFacts.omap_agree, YieldFacts.final_turn.
  - apply YieldFacts.omap_agree, YieldFacts.pilot_turn.
  - rewrite <- (List.map_id (omap ExtractSpec.loc_text _)).
    apply YieldFacts.omap_agree, YieldFacts.fixer_turn.
Qed.

Module AdvancedYieldFacts.
Import PyStr Xml ExtractSpec AdvancedSitemapParser.

Section Advanced.
Variable urlparse_path : string -> option string.
Variable pyfloat : Type.
Variable float : string -> option pyfloat.

Abbreviation extract_turn := (extract_turn urlparse_path pyfloat float).
Abbreviation extract_loop := (extract_loop urlparse_path pyfloat float).







End Advanced.

End AdvancedYieldFacts.



(** ** The advanced parser's discovery *)

Module AdvancedWalkFacts.
Import PyStr Xml Http ExtractSpec AdvancedSitemapParser.

Section Advanced.
Variable fromstring : string -> option element.
Variable urlparse_path : string -> option string.
Variable pyfloat : Type.
Variable float : string -> option pyfloat.
Variable http_get : string -> response.

Abbreviation extract := (extract_real_pages_from_xml fromstring urlparse_path pyfloat float).
Abbreviation index_loop := (index_loop fromstring urlparse_path pyfloat float http_get).

Abbreviation sound := (advanced_sound pyfloat).

Lemma first_found_find (candidates : list string) :
  first_found http_get candidates = List.find (answers_200 http_get) candidates.
Proof.
  induction candidates as [|u rest IH]; [reflexivity|].
  cbn [first_found List.find]. unfold answers_200 at 1.
  destruct (http_get u) as [status body|]; [|exact IH].
  destruct (status =? 200); [reflexivity | exact IH].
Qed.

Lemma classify_sound (domain : string) (p : page pyfloat) :
  is_real_page domain (url p) = true -> sound domain (classify pyfloat p).
Proof. intros H. split; [exact H | reflexivity]. Qed.

Lemma append_pages_sound (domain : string) (limit_pages : Z)
    (sub_pages : list (page pyfloat)) (real_pages : list (classified_page pyfloat)) :
  Forall (fun p => is_real_page domain (url p) = true) sub_pages ->
  Forall (sound domain) real_pages ->
  Forall (sound domain) (append_pages pyfloat limit_pages sub_pages real_pages).
Proof.
  revert real_pages. induction sub_pages as [|p rest IH]; intros acc Hsub Hacc.
  - exact Hacc.
  - cbn [append_pages]. apply Forall_cons_iff in Hsub as [Hp Hrest].
    destruct (Z.of_nat (List.length acc) >=? limit_pages); [exact Hacc|].
    apply IH; [exact Hrest|].
    apply Forall_app. split; [exact Hacc|].
    constructor; [apply classify_sound; exact Hp | constructor].
Qed.

Lemma extract_sound (xml_content domain : string) :
  Forall (fun p => is_real_page domain (url p) = true) (extract xml_content domain).
Proof.
  apply List.Forall_forall. intros p Hp.
  eapply ExtractorFacts.advanced_extract_filter. exact Hp.
Qed.

Lemma index_loop_sound (domain : string) (limit_pages : Z)
    (sitemap_elements : list element) (real_pages : list (classified_page pyfloat)) :
  Forall (sound domain) real_pages ->
  Forall (sound domain) (index_loop domain limit_pages sitemap_elements real_pages).
Proof.
  revert real_pages. induction sitemap_elements as [|e rest IH]; intros acc Hacc.
  - exact Hacc.
  - cbn [AdvancedSitemapParser.index_loop].
    destruct (Z.of_nat (List.length acc) >=? limit_pages); [exact Hacc|].
    destruct (find (ns "loc") e) as [loc_elem|]; [|apply IH; exact Hacc].
    destruct (get http_get (text_of loc_elem)) as [status sub_xml|];
      [|apply IH; exact Hacc].
    destruct (status =? 200); [|apply IH; exact Hacc].
    apply IH, append_pages_sound; [apply extract_sound | exact Hacc].
Qed.

Lemma slice_to_incl {A} (n : Z) (l : list A) (x : A) :
  In x (slice_to n l) -> In x l.
Proof.
  assert (Hfirst : forall k, In x (firstn k l) -> In x l).
  { intros k H. rewrite <- (List.firstn_skipn k l). apply List.in_or_app. left. exact H. }
  unfold slice_to. destruct (0 <=? n); apply Hfirst.
Qed.

Lemma parse_sound (domain : string) (limit_pages : Z) :
  Forall (sound domain)
    (parse_company_real_pages fromstring urlparse_path pyfloat float http_get
       domain limit_pages).
Proof.
  unfold parse_company_real_pages.
  destruct (find_main_sitemap _ _) as [main|]; [|constructor].
  destruct (http_get main) as [status xml|]; [|constructor].
  destruct (status =? 200); [|constructor].
  destruct (fromstring xml) as [root|]; [|constructor].
  destruct (findall (ns "sitemap") root) as [|e els].
  - apply List.Forall_forall. intros cp Hcp.
    apply List.in_map_iff in Hcp as [p [<- Hp]].
    apply classify_sound. apply slice_to_incl in Hp.
    eapply ExtractorFacts.advanced_extract_filter. exact Hp.
  - apply index_loop_sound. constructor.
Qed.

End Advanced.

End AdvancedWalkFacts.

(** X7: the advanced parser looks for the main sitemap at its four
    conventional URLs in their listed order and takes the first that
    answers 200; when none does it returns no page; and every page it
    returns, for any limit, passes the filter of its extractor and carries
    the classification of its own URL. *)
Theorem advanced_discovery_is_sound
    (fromstring : string -> option Xml.element)
    (urlparse_path : string -> option string)
    (pyfloat : Type) (float : string -> option pyfloat)
    (http_get : string -> Http.response) (domain : string) (limit_pages : Z) :
  AdvancedSitemapParser.find_main_sitemap http_get domain
  = List.find (ExtractSpec.answers_200 http_get)
      [ "https://" ++ domain ++ "/sitemap.xml";
        "https://www." ++ domain ++ "/sitemap.xml";
        "https://" ++ domain ++ "/sitemap_index.xml";
        "https://" ++ domain ++ "/sitemaps.xml" ]
  /\ (AdvancedSitemapParser.find_main_sitemap http_get domain = None ->
      AdvancedSitemapParser.parse_company_real_pages fromstring urlparse_path
        pyfloat float http_get domain limit_pages = [])
  /\ Forall (ExtractSpec.advanced_sound pyfloat domain)
       (AdvancedSitemapParser.parse_company_real_pages fromstring urlparse_path
          pyfloat float http_get domain limit_pages).
Proof.
  split; [|split].
  - apply AdvancedWalkFacts.first_found_find.
  - intros H. unfold AdvancedSitemapParser.parse_company_real_pages.
    rewrite H. reflexivity.
  - apply AdvancedWalkFacts.parse_sound.
Qed.

Lemma advanced_discovery_is_sound_witness :
  AdvancedSitemapParser.parse_company_real_pages Samples.fromstring Url.plain_path
    Z Samples.float Samples.http_get "nowhere.example" 500 = [].
Proof.
  apply (proj1 (proj2 (advanced_discovery_is_sound Samples.fromstring Url.plain_path
                         Z Samples.float Samples.http_get "nowhere.example" 500))).
  vm_compute. reflexivity.
Defined.

(** ** Walks that stop at a count *)

Module SoftLimitFacts.
Import Xml Http.

(** A loop over sub-sitemap elements that adds what each contributes and
    stops after an answered element that takes the count to 300. *)
Section SoftLimit.
Variable A : Type.
Variable loop : list element -> list A -> list A.
Variable sub : element -> list A.
Variable answered : element -> bool.
Hypothesis loop_nil : forall acc, loop [] acc = acc.
Hypothesis loop_step : forall e rest acc,
  loop (e :: rest) acc =
  if answered e && (Z.of_nat (List.length (acc ++ sub e)) >=? 300)
  then (acc ++ sub e)%list
  else loop rest (acc ++ sub e).
Hypothesis unanswered_empty : forall e, answered e = false -> sub e = [].

Lemma soft_continue (e : element) (acc : list A) :
  Z.of_nat (List.length acc) < 300 ->
  answered e && (Z.of_nat (List.length (acc ++ sub e)) >=? 300) = false ->
  Z.of_nat (List.length (acc ++ sub e)) < 300.
Proof.
  intros Hacc E. apply andb_false_iff in E as [E|E].
  - rewrite (unanswered_empty _ E), List.app_nil_r. exact Hacc.
  - rewrite Z.geb_leb in E. apply Z.leb_gt in E. exact E.
Qed.

(** An element that contributes nothing can be left out of the walk. *)
Lemma soft_skip (pre : list element) (e : element) (post : list element)
    (acc : list A) :
  Z.of_nat (List.length acc) < 300 ->
  sub e = [] ->
  loop (pre ++ e :: post) acc = loop (pre ++ post) acc.
Proof.
  intros Hacc He. revert acc Hacc.
  induction pre as [|x pre IH]; intros acc Hacc; cbn [List.app].
  - rewrite loop_step, He, List.app_nil_r.
    replace (Z.of_nat (List.length acc) >=? 300) with false
      by (symmetry; rewrite Z.geb_leb; apply Z.leb_gt; exact Hacc).
    rewrite andb_false_r. reflexivity.
  - rewrite !loop_step.
    destruct (answered x && (Z.of_nat (List.length (acc ++ sub x)) >=? 300)) eqn:E;
      [reflexivity|].
    apply IH. apply soft_continue; assumption.
Qed.

(** The elements that contribute nothing can all be left out. *)
Lemma soft_filter (elems : list element) (acc : list A) :
  Z.of_nat (List.length acc) < 300 ->
  loop elems acc
  = loop (List.filter (fun e => WalkerMoreSpec.has_pages (sub e)) elems) acc.
Proof.
  revert acc. induction elems as [|e rest IH]; intros acc Hacc; [reflexivity|].
  cbn [List.filter]. destruct (sub e) as [|p ps] eqn:He; cbn [WalkerMoreSpec.has_pages].
  - rewrite loop_step, He, List.app_nil_r.
    replace (Z.of_nat (List.length acc) >=? 300) with false
      by (symmetry; rewrite Z.geb_leb; apply Z.leb_gt; exact Hacc).
    rewrite andb_false_r. apply IH. exact Hacc.
  - rewrite !loop_step.
    destruct (answered e && (Z.of_nat (List.length (acc ++ sub e)) >=? 300)) eqn:E;
      [reflexivity|].
    apply IH. apply soft_continue; assumption.
Qed.

(** When no element contributes more than [m] pages the walk ends with
    fewer than [300 + m]. *)
Lemma soft_bound (m : nat) (elems : list element) (acc : list A) :
  Z.of_nat (List.length acc) < 300 ->
  Forall (fun e => (List.length (sub e) <= m)%nat) elems ->
  Z.of_nat (List.length (loop elems acc)) < 300 + Z.of_nat m.
Proof.
  revert acc. induction elems as [|e rest IH]; intros acc Hacc Hm.
  - rewrite loop_nil. lia.
  - apply Forall_cons_iff in Hm as [He Hrest]. rewrite loop_step.
    destruct (answered e && (Z.of_nat (List.length (acc ++ sub e)) >=? 300)) eqn:E.
    + rewrite List.length_app. lia.
    + apply IH; [apply soft_continue; assumption | exact Hrest].
Qed.

End SoftLimit.

End SoftLimitFacts.

Module FinalWalkFacts.
Import Xml Http Phase3FinalParser WalkerSpec WalkerMoreSpec.

Section Final.
Variable fromstring : string -> option element.
Variable http_get : string -> response.

Lemma final_index_loop_step (domain : string) (e : element) (rest : list element)
    (all_pages : list Phase3Final.page) :
  index_loop fromstring http_get domain (e :: rest) all_pages =
  if scaled_answered http_get e
     && (Z.of_nat (List.length (all_pages ++ final_sub_pages fromstring http_get domain e))
         >=? 300)
  then (all_pages ++ final_sub_pages fromstring http_get domain e)%list
  else index_loop fromstring http_get domain rest
         (all_pages ++ final_sub_pages fromstring http_get domain e).
Proof.
  unfold final_sub_pages, scaled_answered.
  cbn [Phase3FinalParser.index_loop].
  destruct (find (ns "loc") e) as [loc_elem|]; cbn [andb];
    [|rewrite List.app_nil_r; reflexivity].
  destruct (get http_get (text_of loc_elem)) as [status sub_xml|]; cbn [andb];
    [|rewrite List.app_nil_r; reflexivity].
  destruct (status =? 200); cbn [andb]; [|rewrite List.app_nil_r; reflexivity].
  reflexivity.
Qed.

Lemma final_unanswered_empty (domain : string) (e : element) :
  scaled_answered http_get e = false -> final_sub_pages fromstring http_get domain e = [].
Proof.
  unfold final_sub_pages, scaled_answered.
  destruct (find (ns "loc") e) as [loc_elem|]; [|reflexivity].
  destruct (get http_get (text_of loc_elem)) as [status sub_xml|]; [|reflexivity].
  destruct (status =? 200); [discriminate | reflexivity].
Qed.

End Final.

End FinalWalkFacts.

(** The first [n] of the contributing ones among the first [n] are all
    of them. *)
Lemma firstn_filter_firstn {A} (f : A -> bool) (n : nat) (l : list A) :
  firstn n (List.filter f (firstn n l)) = List.filter f (firstn n l).
Proof.
  apply List.firstn_all2.
  etransitivity; [apply List.filter_length_le|]. apply List.firstn_le_length.
Qed.

(** X8: in the index walks of the scaled processor (first ten
    sub-sitemaps) and of the final script (first five), a document that
    does not parse gives no page, and when no sub-sitemap taken contributes
    more than [m] pages the walk returns fewer than [300 + m] pages. *)
Theorem soft_limit_walk_bound
    (fromstring : string -> option Xml.element)
    (http_get : string -> Http.response) (xml_content domain : string) (m : nat) :
  (fromstring xml_content = None ->
   Phase3ScaledProcessor.parse_sitemap_index_for_real_pages
     fromstring http_get xml_content domain = []
   /\ Phase3FinalParser.parse_sitemap_index fromstring http_get xml_content domain = [])
  /\ (forall root, fromstring xml_content = Some root ->
        Forall (fun e =>
                  (List.length (WalkerSpec.scaled_sub_pages fromstring http_get domain e)
                   <= m)%nat)
               (firstn 10 (Xml.findall (Xml.ns "sitemap") root)) ->
        Z.of_nat (List.length
                    (Phase3ScaledProcessor.parse_sitemap_index_for_real_pages
                       fromstring http_get xml_content domain)) < 300 + Z.of_nat m)
  /\ (forall root, fromstring xml_content = Some root ->
        Forall (fun e =>
                  (List.length (WalkerMoreSpec.final_sub_pages fromstring http_get domain e)
                   <= m)%nat)
               (firstn 5 (Xml.findall (Xml.ns "sitemap") root)) ->
        Z.of_nat (List.length
                    (Phase3FinalParser.parse_sitemap_index
                       fromstring http_get xml_content domain)) < 300 + Z.of_nat m).
Proof.
  unfold Phase3ScaledProcessor.parse_sitemap_index_for_real_pages,
         Phase3FinalParser.parse_sitemap_index.
  split; [|split].
  - intros ->. split; reflexivity.
  - intros root -> Hscaled.
    apply (SoftLimitFacts.soft_bound _
             (Phase3ScaledProcessor.index_loop fromstring http_get domain)
             (WalkerSpec.scaled_sub_pages fromstring http_get domain)
             (WalkerSpec.scaled_answered http_get)).
    + reflexivity.
    + apply WalkerFacts.scaled_index_loop_step.
    + apply WalkerFacts.scaled_unanswered_empty.
    + simpl. lia.
    + exact Hscaled.
  - intros root -> Hfinal.
    apply (SoftLimitFacts.soft_bound _
             (Phase3FinalParser.index_loop fromstring http_get domain)
             (WalkerMoreSpec.final_sub_pages fromstring http_get domain)
             (WalkerSpec.scaled_answered http_get)).
    + reflexivity.
    + apply FinalWalkFacts.final_index_loop_step.
    + apply FinalWalkFacts.final_unanswered_empty.
    + simpl. lia.
    + exact Hfinal.
Qed.

(** X9: in the same two walks the listed sub-sitemaps that contribute
    nothing (no [loc], a failed or refused fetch, a body that does not
    parse, no URL that passes) neither stop the walk nor change what the
    others contribute; they only take their places among the first ten
    (five).  The walk over an index returns what it returns for an index
    that lists the contributing ones among the first ten (five) listed. *)
Theorem soft_limit_walk_skips_failures
    (fromstring : string -> option Xml.element)
    (http_get : string -> Http.response) (domain : string)
    (xml_content xml_content' : string) (root root' : Xml.element) :
  fromstring xml_content = Some root ->
  fromstring xml_content' = Some root' ->
  (Xml.findall (Xml.ns "sitemap") root'
   = List.filter (WalkerMoreSpec.scaled_contributes fromstring http_get domain)
       (firstn 10 (Xml.findall (Xml.ns "sitemap") root)) ->
   Phase3ScaledProcessor.parse_sitemap_index_for_real_pages
     fromstring http_get xml_content domain
   = Phase3ScaledProcessor.parse_sitemap_index_for_real_pages
       fromstring http_get xml_content' domain)
  /\ (Xml.findall (Xml.ns "sitemap") root'
      = List.filter (WalkerMoreSpec.final_contributes fromstring http_get domain)
          (firstn 5 (Xml.findall (Xml.ns "sitemap") root)) ->
      Phase3FinalParser.parse_sitemap_index fromstring http_get xml_content domain
      = Phase3FinalParser.parse_sitemap_index fromstring http_get xml_content' domain).
Proof.
  intros Hroot Hroot'.
  unfold Phase3ScaledProcessor.parse_sitemap_index_for_real_pages,
         Phase3FinalParser.parse_sitemap_index.
  rewrite Hroot, Hroot'. split; intros ->.
  - change (PyStr.slice_to 10 ?l) with (firstn 10 l).
    rewrite firstn_filter_firstn.
    apply (SoftLimitFacts.soft_filter _
             (Phase3ScaledProcessor.index_loop fromstring http_get domain)
             (WalkerSpec.scaled_sub_pages fromstring http_get domain)
             (WalkerSpec.scaled_answered http_get)).
    + apply WalkerFacts.scaled_index_loop_step.
    + apply WalkerFacts.scaled_unanswered_empty.
    + simpl. lia.
  - change (PyStr.slice_to 5 ?l) with (firstn 5 l).
    rewrite firstn_filter_firstn.
    apply (SoftLimitFacts.soft_filter _
             (Phase3FinalParser.index_loop fromstring http_get domain)
             (WalkerMoreSpec.final_sub_pages fromstring http_get domain)
             (WalkerSpec.scaled_answered http_get)).
    + apply FinalWalkFacts.final_index_loop_step.
    + apply FinalWalkFacts.final_unanswered_empty.
    + simpl. lia.
Qed.

Module PlainWalkFacts.
Import Xml Http WalkerMoreSpec.

Lemma pilot_index_loop_concat (fromstring : string -> option element)
    (http_get : string -> response) (domain : string)
    (elems : list element) (acc : list Phase2PilotFix.page) :
  Phase2PilotParser.index_loop fromstring http_get domain elems acc
  = (acc ++ concat (map (pilot_sub_pages fromstring http_get domain) elems))%list.
Proof.
  revert acc. induction elems as [|e rest IH]; intros acc.
  - simpl. rewrite List.app_nil_r. reflexivity.
  - cbn [Phase2PilotParser.index_loop map concat]. unfold pilot_sub_pages at 1.
    destruct (find (ns "loc") e) as [loc_elem|]; [|apply IH].
    destruct (get http_get (text_of loc_elem)) as [status sub_xml|]; [|apply IH].
    destruct (status =? 200); [|apply IH].
    rewrite IH, <- List.app_assoc. reflexivity.
Qed.

Lemma fixer_index_loop_concat (fromstring : string -> option element)
    (http_get : string -> response) (domain : string)
    (elems : list element) (acc : list DatabaseSitemapFixer.page) :
  DatabaseSitemapFixer.index_loop fromstring http_get domain elems acc
  = (acc ++ concat (map (fixer_sub_pages fromstring http_get domain) elems))%list.
Proof.
  revert acc. induction elems as [|e rest IH]; intros acc.
  - simpl. rewrite List.app_nil_r. reflexivity.
  - cbn [DatabaseSitemapFixer.index_loop map concat]. unfold fixer_sub_pages at 1.
    destruct (find (ns "loc") e) as [loc_elem|]; [|apply IH].
    destruct (get http_get (text_of loc_elem)) as [status sub_xml|]; [|apply IH].
    destruct (status =? 200); [|apply IH].
    rewrite IH, <- List.app_assoc. reflexivity.
Qed.

End PlainWalkFacts.

(** X10: the index walks of the pilot script and of the database fixer
    have no page limit: the pilot script returns what the first five
    listed sub-sitemaps contribute, the fixer's loop what all of them
    contribute, each in listed order; a sub-sitemap that fails is passed
    over. *)
Theorem plain_walks_concatenate
    (fromstring : string -> option Xml.element)
    (http_get : string -> Http.response) (xml_content domain : string)
    (sitemap_elements : list Xml.element) :
  Phase2PilotParser.parse_sitemap_index fromstring http_get xml_content domain
  = match fromstring xml_content with
    | None => []
    | Some root =>
        concat (map (WalkerMoreSpec.pilot_sub_pages fromstring http_get domain)
                    (firstn 5 (Xml.findall (Xml.ns "sitemap") root)))
    end
  /\ DatabaseSitemapFixer.index_loop fromstring http_get domain sitemap_elements []
     = concat (map (WalkerMoreSpec.fixer_sub_pages fromstring http_get domain)
                   sitemap_elements).
Proof.
  split.
  - unfold Phase2PilotParser.parse_sitemap_index.
    destruct (fromstring xml_content) as [root|]; [|reflexivity].
    apply PlainWalkFacts.pilot_index_loop_concat.
  - apply PlainWalkFacts.fixer_index_loop_concat.
Qed.

(** ** Replacing the pages of a structure *)

Module ReplaceFacts.
Import Store StoreSpec StoreFacts ReplaceSpec.




Lemma owned_by_other (sid other : Z) (x : row) :
  other <> sid -> owned_by sid x = true -> owned_by other x = false.
Proof.
  unfold owned_by. intros Hne H. apply Z.eqb_eq in H. apply Z.eqb_neq. lia.
Qed.

Lemma filter_other (sid other : Z) (l : list row) :
  other <> sid ->
  List.filter (owned_by other) (List.filter (fun r => negb (owned_by sid r)) l)
  = List.filter (owned_by other) l.
Proof.
  intros Hne. induction l as [|x l IH]; simpl; [reflexivity|].
  destruct (owned_by sid x) eqn:E1; simpl.
  - rewrite (owned_by_other sid other x Hne E1). exact IH.
  - destruct (owned_by other x); rewrite IH; reflexivity.
Qed.

Section Replaced.
Variable accepts : list row -> row -> bool.
Variable now : Z.
Variable sid : Z.
Variable rows : list row.
Hypothesis rows_owned : Forall (fun r => owned_by sid r = true) rows.

Lemma replaced_pages (d : db) :
  website_pages (replaced accepts now sid rows d)
  = (website_pages (delete_pages d sid)
     ++ accepted_rows accepts (website_pages (delete_pages d sid)) rows)%list.
Proof. reflexivity. Qed.



(** The pages of the structure are then the accepted rows. *)
Lemma replaced_pages_of (d : db) :
  pages_of (replaced accepts now sid rows d) sid
  = accepted_rows accepts (website_pages (delete_pages d sid)) rows.
Proof.
  unfold pages_of. rewrite replaced_pages, List.filter_app.
  unfold delete_pages at 1. cbn [website_pages]. rewrite filter_none.
  cbn [List.app]. apply filter_all, accepted_rows_owned. exact rows_owned.
Qed.

(** The pages and the record of another structure stay as they were. *)
Lemma replaced_frame (d : db) (other : Z) :
  other <> sid ->
  pages_of (replaced accepts now sid rows d) other = pages_of d other
  /\ website_structures (replaced accepts now sid rows d) !! other
     = website_structures d !! other.
Proof.
  intros Hne. split.
  - unfold pages_of. rewrite replaced_pages, List.filter_app.
    assert (Hins : List.filter (owned_by other)
                     (accepted_rows accepts (website_pages (delete_pages d sid)) rows) = []).
    { pose proof (accepted_rows_owned accepts sid
                    (website_pages (delete_pages d sid)) rows rows_owned) as H.
      induction H as [|x l Hx _ IH]; simpl; [reflexivity|].
      rewrite (owned_by_other sid other x Hne Hx). exact IH. }
    rewrite Hins, List.app_nil_r. unfold delete_pages. cbn [website_pages].
    apply filter_other. exact Hne.
  - unfold replaced. cbn [website_structures update_structure with_pages delete_pages].
    apply lookup_alter_ne. congruence.
Qed.

Lemma accepted_rows_le (existing : list row) :
  (List.length (accepted_rows accepts existing rows) <= List.length rows)%nat.
Proof.
  clear rows_owned. revert existing.
  induction rows as [|r rest IH]; intros existing; simpl; [lia|].
  destruct (accepts existing r); simpl;
    [specialize (IH (existing ++ [r])%list) | specialize (IH existing)]; lia.
Qed.

Lemma accepted_rows_all (existing : list row) :
  (forall ex r, accepts ex r = true) ->
  accepted_rows accepts existing rows = rows.
Proof.
  clear rows_owned. intros Hall. revert existing.
  induction rows as [|r rest IH]; intros existing; simpl; [reflexivity|].
  rewrite Hall, IH. reflexivity.
Qed.

End Replaced.

(** What the three counting reconcilers do once past their guards. *)
Lemma scaled_run (accepts : list row -> row -> bool)
    (extract : string -> list Phase3ScaledProcessor.page) (now : Z)
    (pool : db) (company : company) (st : Phase3ScaledProcessor.stats) :
  (Phase3ScaledProcessor.fix_company_with_real_pages accepts extract now pool company st).1
  = if Z.of_nat (List.length (extract (company_domain company))) <? 5
    then (false, pool)
    else (true,
          replaced accepts now (structure_id company)
            (map (Phase3ScaledProcessor.row_of (structure_id company))
                 (firstn 300 (extract (company_domain company)))) pool).
Proof.
  unfold Phase3ScaledProcessor.fix_company_with_real_pages.
  destruct (Z.of_nat (List.length (extract (company_domain company))) <? 5);
    [reflexivity|].
  change (PyStr.slice_to 300 (extract (company_domain company)))
    with (firstn 300 (extract (company_domain company))).
  rewrite ReconcilerFacts.scaled_insert_loop_rows, insert_rows_spec.
  unfold replaced. rewrite Z.add_0_l. reflexivity.
Qed.

Lemma final_insert_loop_rows (accepts : list row -> row -> bool) (sid : Z)
    (pages : list Phase3Final.page) (d : db) (inserted : Z) :
  Phase3Final.insert_loop accepts sid pages d inserted =
  insert_rows accepts (map (Phase3Final.row_of sid) pages) d inserted.
Proof.
  revert d inserted. induction pages as [|p rest IH]; intros d n; simpl; [reflexivity|].
  destruct (insert_page accepts d _); apply IH.
Qed.

Lemma final_run (accepts : list row -> row -> bool)
    (extract : string -> list Phase3Final.page) (now : Z)
    (pool : db) (company : company) :
  Phase3Final.fix_company_pages accepts extract now pool company
  = if Z.of_nat (List.length (extract (company_domain company))) <? 5
    then ((false, 0), pool)
    else
      let rows := map (Phase3Final.row_of (structure_id company))
                      (firstn 200 (extract (company_domain company))) in
      ((true,
        Z.of_nat (List.length
                    (accepted_rows accepts
                       (website_pages (delete_pages pool (structure_id company))) rows))),
       replaced accepts now (structure_id company) rows pool).
Proof.
  unfold Phase3Final.fix_company_pages.
  destruct (Z.of_nat (List.length (extract (company_domain company))) <? 5);
    [reflexivity|].
  change (PyStr.slice_to 200 (extract (company_domain company)))
    with (firstn 200 (extract (company_domain company))).
  rewrite final_insert_loop_rows, insert_rows_spec.
  unfold replaced. rewrite Z.add_0_l. reflexivity.
Qed.

Lemma pilot_run (accepts : list row -> row -> bool)
    (extract : string -> list Phase2PilotFix.page) (now : Z)
    (pool : db) (company_name : string) :
  Phase2PilotFix.fix_company_sitemap accepts extract now pool company_name
  = match company_named pool company_name with
    | None => (false, pool)
    | Some company =>
        if Z.of_nat (List.length (extract (company_domain company))) <? 10
        then (false, pool)
        else (true,
              replaced accepts now (structure_id company)
                (map (Phase2PilotFix.row_of (structure_id company))
                     (firstn 200 (extract (company_domain company)))) pool)
    end.
Proof.
  unfold Phase2PilotFix.fix_company_sitemap.
  destruct (company_named pool company_name) as [company|]; [|reflexivity].
  destruct (Z.of_nat (List.length (extract (company_domain company))) <? 10);
    [reflexivity|].
  change (PyStr.slice_to 200 (extract (company_domain company)))
    with (firstn 200 (extract (company_domain company))).
  rewrite ReconcilerFacts.pilot_insert_loop_rows, insert_rows_spec.
  unfold replaced. rewrite Z.add_0_l. reflexivity.
Qed.

Lemma final_rows_owned (sid : Z) (pages : list Phase3Final.page) :
  Forall (fun r => owned_by sid r = true) (map (Phase3Final.row_of sid) pages).
Proof.
  apply List.Forall_forall. intros r Hr. apply List.in_map_iff in Hr as [p [<- _]].
  unfold owned_by. simpl. apply Z.eqb_refl.
Qed.

Lemma pilot_rows_owned (sid : Z) (pages : list Phase2PilotFix.page) :
  Forall (fun r => owned_by sid r = true) (map (Phase2PilotFix.row_of sid) pages).
Proof.
  apply List.Forall_forall. intros r Hr. apply List.in_map_iff in Hr as [p [<- _]].
  unfold owned_by. simpl. apply Z.eqb_refl.
Qed.

End ReplaceFacts.


(** X12: a run for one company changes neither the pages nor the record
    of any other structure (scaled processor, final script, pilot
    script); and the run of the database fixer changes no structure at
    all, for its [DELETE] is refused before anything is written. *)
Theorem reconciliation_leaves_others
    (accepts : list Store.row -> Store.row -> bool) (now : Z)
    (pool : Store.db) (company : Store.company) (other : Z) :
  other <> Store.structure_id company ->
  (forall extract st,
     let after :=
       (Phase3ScaledProcessor.fix_company_with_real_pages
          accepts extract now pool company st).1.2 in
     ReplaceSpec.pages_of after other = ReplaceSpec.pages_of pool other
     /\ Store.website_structures after !! other = Store.website_structures pool !! other)
  /\ (forall extract,
        let after := (Phase3Final.fix_company_pages accepts extract now pool company).2 in
        ReplaceSpec.pages_of after other = ReplaceSpec.pages_of pool other
        /\ Store.website_structures after !! other
           = Store.website_structures pool !! other)
  /\ (forall extract company_name,
        Store.company_named pool company_name = Some company ->
        let after :=
          (Phase2PilotFix.fix_company_sitemap accepts extract now pool company_name).2 in
        ReplaceSpec.pages_of after other = ReplaceSpec.pages_of pool other
        /\ Store.website_structures after !! other
           = Store.website_structures pool !! other)
  /\ (forall parse problem_companies,
        DatabaseSitemapFixer.store_of
          (DatabaseSitemapFixer.fix_sitemap_database accepts parse now pool
             problem_companies)
        = pool).
Proof.
  intros Hne. split; [|split; [|split]].
  - intros extract st after. subst after. rewrite ReplaceFacts.scaled_run.
    destruct (Z.of_nat (List.length (extract (Store.company_domain company))) <? 5);
      [split; reflexivity|].
    cbn [fst snd]. apply ReplaceFacts.replaced_frame;
      [apply ReconcilerFacts.scaled_rows_owned | exact Hne].
  - intros extract after. subst after. rewrite ReplaceFacts.final_run.
    destruct (Z.of_nat (List.length (extract (Store.company_domain company))) <? 5);
      [split; reflexivity|].
    cbn [fst snd]. apply ReplaceFacts.replaced_frame;
      [apply ReplaceFacts.final_rows_owned | exact Hne].
  - intros extract company_name Hc after. subst after.
    rewrite ReplaceFacts.pilot_run, Hc.
    destruct (Z.of_nat (List.length (extract (Store.company_domain company))) <? 10);
      [split; reflexivity|].
    cbn [fst snd]. apply ReplaceFacts.replaced_frame;
      [apply ReplaceFacts.pilot_rows_owned | exact Hne].
  - intros parse problem_companies. rewrite fixer_never_writes.
    destruct (existsb _ problem_companies); reflexivity.
Qed.

Module CountFacts.
Import Store StoreSpec StoreFacts ReplaceSpec ReplaceFacts.

(** After a replacement the structure owns at most as many pages as rows
    were offered, and its record holds their number. *)
Lemma replaced_counts (accepts : list row -> row -> bool) (now sid : Z)
    (rows : list row) (d : db) (n : nat) :
  Forall (fun r => owned_by sid r = true) rows ->
  (List.length rows <= n)%nat ->
  (List.length (pages_of (replaced accepts now sid rows d) sid) <= n)%nat
  /\ total_pages <$> (website_structures (replaced accepts now sid rows d) !! sid)
     = (fun _ => Z.of_nat (List.length (pages_of (replaced accepts now sid rows d) sid)))
         <$> (website_structures d !! sid).
Proof.
  intros Howned Hn. rewrite replaced_pages_of by exact Howned. split.
  - pose proof (accepted_rows_le accepts rows (website_pages (delete_pages d sid))). lia.
  - unfold replaced. cbn [website_structures update_structure with_pages delete_pages].
    rewrite lookup_alter_eq.
    destruct (website_structures d !! sid); reflexivity.
Qed.

Lemma length_map_firstn {A B} (f : A -> B) (n : nat) (l : list A) :
  (List.length (map f (firstn n l)) <= n)%nat.
Proof. rewrite List.length_map. apply List.firstn_le_length. Qed.

End CountFacts.

(** X13: after a run that reports success the structure owns at most
    300 pages (scaled processor) or 200 pages (final script, pilot
    script), and the [total_pages] of its record is the number of pages it
    owns; the final script also returns that number. *)
Theorem successful_run_counts
    (accepts : list Store.row -> Store.row -> bool) (now : Z) (pool : Store.db) :
  (forall extract company st,
     let run :=
       Phase3ScaledProcessor.fix_company_with_real_pages
         accepts extract now pool company st in
     let sid := Store.structure_id company in
     run.1.1 = true ->
     (List.length (ReplaceSpec.pages_of run.1.2 sid) <= 300)%nat
     /\ Store.total_pages <$> (Store.website_structures run.1.2 !! sid)
        = (fun _ => Z.of_nat (List.length (ReplaceSpec.pages_of run.1.2 sid)))
            <$> (Store.website_structures pool !! sid))
  /\ (forall extract company,
        let run := Phase3Final.fix_company_pages accepts extract now pool company in
        let sid := Store.structure_id company in
        run.1.1 = true ->
        (List.length (ReplaceSpec.pages_of run.2 sid) <= 200)%nat
        /\ run.1.2 = Z.of_nat (List.length (ReplaceSpec.pages_of run.2 sid))
        /\ Store.total_pages <$> (Store.website_structures run.2 !! sid)
           = (fun _ => Z.of_nat (List.length (ReplaceSpec.pages_of run.2 sid)))
               <$> (Store.website_structures pool !! sid))
  /\ (forall extract company_name company,
        Store.company_named pool company_name = Some company ->
        let run := Phase2PilotFix.fix_company_sitemap accepts extract now pool company_name in
        let sid := Store.structure_id company in
        run.1 = true ->
        (List.length (ReplaceSpec.pages_of run.2 sid) <= 200)%nat
        /\ Store.total_pages <$> (Store.website_structures run.2 !! sid)
           = (fun _ => Z.of_nat (List.length (ReplaceSpec.pages_of run.2 sid)))
               <$> (Store.website_structures pool !! sid)).
Proof.
  split; [|split].
  - intros extract company st run sid. subst run sid.
    rewrite ReplaceFacts.scaled_run.
    destruct (Z.of_nat (List.length (extract (Store.company_domain company))) <? 5);
      cbn [fst snd]; [discriminate|]. intros _.
    apply CountFacts.replaced_counts;
      [apply ReconcilerFacts.scaled_rows_owned | apply CountFacts.length_map_firstn].
  - intros extract company run sid. subst run sid.
    rewrite ReplaceFacts.final_run.
    destruct (Z.of_nat (List.length (extract (Store.company_domain company))) <? 5);
      cbn [fst snd]; [discriminate|]. intros _. cbv zeta. cbn [fst snd].
    destruct (CountFacts.replaced_counts accepts now (Store.structure_id company)
                (map (Phase3Final.row_of (Store.structure_id company))
                     (firstn 200 (extract (Store.company_domain company)))) pool 200)
      as [Hle Htotal];
      [apply ReplaceFacts.final_rows_owned | apply CountFacts.length_map_firstn |].
    split; [exact Hle|]. split; [|exact Htotal].
    rewrite ReplaceFacts.replaced_pages_of by apply ReplaceFacts.final_rows_owned.
    reflexivity.
  - intros extract company_name company Hc run sid. subst run sid.
    rewrite ReplaceFacts.pilot_run, Hc.
    destruct (Z.of_nat (List.length (extract (Store.company_domain company))) <? 10);
      cbn [fst snd]; [discriminate|]. intros _.
    apply CountFacts.replaced_counts;
      [apply ReplaceFacts.pilot_rows_owned | apply CountFacts.length_map_firstn].
Qed.

(** X14: when the store accepts every row, a run that reports success
    leaves the structure with exactly the rows of the first 300 (scaled
    processor) or 200 (final script) candidates, in their order. *)
Theorem accepted_run_stores_candidates
    (accepts : list Store.row -> Store.row -> bool) (now : Z) (pool : Store.db)
    (company : Store.company) :
  (forall existing r, accepts existing r = true) ->
  (forall extract st,
     let run :=
       Phase3ScaledProcessor.fix_company_with_real_pages
         accepts extract now pool company st in
     run.1.1 = true ->
     ReplaceSpec.pages_of run.1.2 (Store.structure_id company)
     = map (Phase3ScaledProcessor.row_of (Store.structure_id company))
           (firstn 300 (extract (Store.company_domain company))))
  /\ (forall extract,
        let run := Phase3Final.fix_company_pages accepts extract now pool company in
        run.1.1 = true ->
        ReplaceSpec.pages_of run.2 (Store.structure_id company)
        = map (Phase3Final.row_of (Store.structure_id company))
              (firstn 200 (extract (Store.company_domain company)))).
Proof.
  intros Hall. split.
  - intros extract st run. subst run. rewrite ReplaceFacts.scaled_run.
    destruct (Z.of_nat (List.length (extract (Store.company_domain company))) <? 5);
      cbn [fst snd]; [discriminate|]. intros _.
    rewrite ReplaceFacts.replaced_pages_of by apply ReconcilerFacts.scaled_rows_owned.
    apply ReplaceFacts.accepted_rows_all. exact Hall.
  - intros extract run. subst run. rewrite ReplaceFacts.final_run.
    destruct (Z.of_nat (List.length (extract (Store.company_domain company))) <? 5);
      cbn [fst snd]; [discriminate|]. intros _. cbv zeta. cbn [fst snd].
    rewrite ReplaceFacts.replaced_pages_of by apply ReplaceFacts.final_rows_owned.
    apply ReplaceFacts.accepted_rows_all. exact Hall.
Qed.

(** ** From the sitemap to the store *)

Module PipelineFacts.
Import PyStr PyStrFacts Xml Http Store StoreSpec ExtractSpec.

Lemma clean_of_tests (domain u : string) :
  str_in domain u = true ->
  str_in "sitemap" (lower u) = false ->
  str_in ".xml" (lower u) = false ->
  clean_url domain u.
Proof.
  intros Hd Hs Hx. split; [exact Hd|]. split; assumption.
Qed.

Lemma scaled_filter_clean (domain u : string) :
  Phase3ScaledProcessor.is_real_page domain u = true -> clean_url domain u.
Proof.
  unfold Phase3ScaledProcessor.is_real_page.
  rewrite !andb_true_iff, !negb_true_iff. intros [[[[Hd Hs] Hx] _] _].
  apply clean_of_tests; assumption.
Qed.

Lemma final_filter_clean (domain u : string) :
  Phase3FinalParser.is_real_page domain u = true -> clean_url domain u.
Proof.
  unfold Phase3FinalParser.is_real_page.
  rewrite !andb_true_iff, !negb_true_iff. intros [[[Hd Hs] Hx] _].
  apply clean_of_tests; assumption.
Qed.

Lemma pilot_filter_clean (domain u : string) :
  Phase2PilotParser.is_real_page domain u = true -> clean_url domain u.
Proof.
  unfold Phase2PilotParser.is_real_page.
  rewrite !andb_true_iff, !negb_true_iff. intros [[Hd Hs] Hx].
  apply clean_of_tests; assumption.
Qed.

(** What a list of pages shows when its URLs are the ones that pass. *)
Lemma yielded_pass {B} (proj : B -> string) (filt : string -> bool)
    (pages : list B) (locs : list string) :
  map proj pages = List.filter filt locs ->
  Forall (fun p => filt (proj p) = true) pages.
Proof.
  intros H. apply List.Forall_forall. intros p Hp.
  assert (Hin : In (proj p) (List.filter filt locs))
    by (rewrite <- H; apply List.in_map; exact Hp).
  apply List.filter_In in Hin. tauto.
Qed.

Section Extractors.
Variable fromstring : string -> option element.
Variable http_get : string -> response.

Lemma scaled_parse_clean (xml_content domain : string) :
  Forall (fun p => clean_url domain (Phase3ScaledProcessor.url p))
    (Phase3ScaledProcessor.parse_sitemap_for_real_pages fromstring xml_content domain).
Proof.
  unfold Phase3ScaledProcessor.parse_sitemap_for_real_pages.
  destruct (fromstring xml_content) as [root|]; [|constructor].
  eapply List.Forall_impl; [intros p; apply scaled_filter_clean|].
  eapply yielded_pass. apply YieldFacts.omap_agree, YieldFacts.scaled_turn.
Qed.

Lemma final_parse_clean (xml_content domain : string) :
  Forall (fun p => clean_url domain (Phase3Final.url p))
    (Phase3FinalParser.parse_sitemap_direct fromstring xml_content domain).
Proof.
  unfold Phase3FinalParser.parse_sitemap_direct.
  destruct (fromstring xml_content) as [root|]; [|constructor].
  eapply List.Forall_impl; [intros p; apply final_filter_clean|].
  eapply yielded_pass. apply YieldFacts.omap_agree, YieldFacts.final_turn.
Qed.

Lemma pilot_parse_clean (xml_content domain : string) :
  Forall (fun p => clean_url domain (Phase2PilotFix.url p))
    (Phase2PilotParser.parse_direct_sitemap fromstring xml_content domain).
Proof.
  unfold Phase2PilotParser.parse_direct_sitemap.
  destruct (fromstring xml_content) as [root|]; [|constructor].
  eapply List.Forall_impl; [intros p; apply pilot_filter_clean|].
  eapply yielded_pass. apply YieldFacts.omap_agree, YieldFacts.pilot_turn.
Qed.

Lemma scaled_index_clean (domain : string) (elems : list element)
    (acc : list Phase3ScaledProcessor.page) :
  Forall (fun p => clean_url domain (Phase3ScaledProcessor.url p)) acc ->
  Forall (fun p => clean_url domain (Phase3ScaledProcessor.url p))
    (Phase3ScaledProcessor.index_loop fromstring http_get domain elems acc).
Proof.
  revert acc. induction elems as [|e rest IH]; intros acc Hacc; [exact Hacc|].
  cbn [Phase3ScaledProcessor.index_loop].
  destruct (find (ns "loc") e) as [l|]; [|apply IH; exact Hacc].
  destruct (get http_get (text_of l)) as [status sub_xml|]; [|apply IH; exact Hacc].
  destruct (status =? 200); [|apply IH; exact Hacc].
  assert (Hall : Forall (fun p => clean_url domain (Phase3ScaledProcessor.url p))
                   (acc ++ Phase3ScaledProcessor.parse_sitemap_for_real_pages
                             fromstring sub_xml domain))
    by (apply Forall_app; split; [exact Hacc | apply scaled_parse_clean]).
  cbv zeta. destruct (_ >=? 300); [exact Hall | apply IH; exact Hall].
Qed.

Lemma final_index_clean (domain : string) (elems : list element)
    (acc : list Phase3Final.page) :
  Forall (fun p => clean_url domain (Phase3Final.url p)) acc ->
  Forall (fun p => clean_url domain (Phase3Final.url p))
    (Phase3FinalParser.index_loop fromstring http_get domain elems acc).
Proof.
  revert acc. induction elems as [|e rest IH]; intros acc Hacc; [exact Hacc|].
  cbn [Phase3FinalParser.index_loop].
  destruct (find (ns "loc") e) as [l|]; [|apply IH; exact Hacc].
  destruct (get http_get (text_of l)) as [status sub_xml|]; [|apply IH; exact Hacc].
  destruct (status =? 200); [|apply IH; exact Hacc].
  assert (Hall : Forall (fun p => clean_url domain (Phase3Final.url p))
                   (acc ++ Phase3FinalParser.parse_sitemap_direct
                             fromstring sub_xml domain))
    by (apply Forall_app; split; [exact Hacc | apply final_parse_clean]).
  cbv zeta. destruct (_ >=? 300); [exact Hall | apply IH; exact Hall].
Qed.

Lemma pilot_index_clean (domain : string) (elems : list element)
    (acc : list Phase2PilotFix.page) :
  Forall (fun p => clean_url domain (Phase2PilotFix.url p)) acc ->
  Forall (fun p => clean_url domain (Phase2PilotFix.url p))
    (Phase2PilotParser.index_loop fromstring http_get domain elems acc).
Proof.
  revert acc. induction elems as [|e rest IH]; intros acc Hacc; [exact Hacc|].
  cbn [Phase2PilotParser.index_loop].
  destruct (find (ns "loc") e) as [l|]; [|apply IH; exact Hacc].
  destruct (get http_get (text_of l)) as [status sub_xml|]; [|apply IH; exact Hacc].
  destruct (status =? 200); [|apply IH; exact Hacc].
  cbv zeta. apply IH, Forall_app. split; [exact Hacc | apply pilot_parse_clean].
Qed.

Lemma scaled_extract_clean (domain : string) :
  Forall (fun p => clean_url domain (Phase3ScaledProcessor.url p))
    (Phase3ScaledProcessor.extract_company_real_pages fromstring http_get domain).
Proof.
  unfold Phase3ScaledProcessor.extract_company_real_pages.
  assert (H : forall urls acc,
             Forall (fun p => clean_url domain (Phase3ScaledProcessor.url p)) acc ->
             Forall (fun p => clean_url domain (Phase3ScaledProcessor.url p))
               (Phase3ScaledProcessor.urls_loop fromstring http_get domain urls acc)).
  { induction urls as [|u rest IH]; intros acc Hacc; [exact Hacc|].
    cbn [Phase3ScaledProcessor.urls_loop].
    destruct (http_get u) as [status xml|]; [|apply IH; exact Hacc].
    destruct (status =? 200); [|apply IH; exact Hacc].
    cbv zeta.
    assert (Hall : Forall (fun p => clean_url domain (Phase3ScaledProcessor.url p))
                     (acc ++ (if str_in "sitemapindex" xml || str_in "<sitemap>" xml
                              then Phase3ScaledProcessor.parse_sitemap_index_for_real_pages
                                     fromstring http_get xml domain
                              else Phase3ScaledProcessor.parse_sitemap_for_real_pages
                                     fromstring xml domain))).
    { apply Forall_app. split; [exact Hacc|].
      destruct (str_in "sitemapindex" xml || str_in "<sitemap>" xml);
        [|apply scaled_parse_clean].
      unfold Phase3ScaledProcessor.parse_sitemap_index_for_real_pages.
      destruct (fromstring xml); [apply scaled_index_clean|]; constructor. }
    destruct (_ >? 0); [exact Hall | apply IH; exact Hall]. }
  apply H. constructor.
Qed.

Lemma final_extract_clean (domain : string) :
  Forall (fun p => clean_url domain (Phase3Final.url p))
    (Phase3FinalParser.extract_real_pages fromstring http_get domain).
Proof.
  unfold Phase3FinalParser.extract_real_pages.
  assert (H : forall urls acc,
             Forall (fun p => clean_url domain (Phase3Final.url p)) acc ->
             Forall (fun p => clean_url domain (Phase3Final.url p))
               (Phase3FinalParser.urls_loop fromstring http_get domain urls acc)).
  { induction urls as [|u rest IH]; intros acc Hacc; [exact Hacc|].
    cbn [Phase3FinalParser.urls_loop].
    destruct (http_get u) as [status xml|]; [|apply IH; exact Hacc].
    destruct (status =? 200); [|apply IH; exact Hacc].
    cbv zeta.
    assert (Hall : Forall (fun p => clean_url domain (Phase3Final.url p))
                     (acc ++ (if str_in "sitemapindex" xml
                              then Phase3FinalParser.parse_sitemap_index
                                     fromstring http_get xml domain
                              else Phase3FinalParser.parse_sitemap_direct
                                     fromstring xml domain))).
    { apply Forall_app. split; [exact Hacc|].
      destruct (str_in "sitemapindex" xml); [|apply final_parse_clean].
      unfold Phase3FinalParser.parse_sitemap_index.
      destruct (fromstring xml); [apply final_index_clean|]; constructor. }
    destruct (_ >? 0); [exact Hall | apply IH; exact Hall]. }
  apply H. constructor.
Qed.

Lemma pilot_extract_clean (domain : string) :
  Forall (fun p => clean_url domain (Phase2PilotFix.url p))
    (Phase2PilotParser.extract_real_pages_for_company fromstring http_get domain).
Proof.
  unfold Phase2PilotParser.extract_real_pages_for_company.
  assert (H : forall urls acc,
             Forall (fun p => clean_url domain (Phase2PilotFix.url p)) acc ->
             Forall (fun p => clean_url domain (Phase2PilotFix.url p))
               (Phase2PilotParser.urls_loop fromstring http_get domain urls acc)).
  { induction urls as [|u rest IH]; intros acc Hacc; [exact Hacc|].
    cbn [Phase2PilotParser.urls_loop].
    destruct (http_get u) as [status xml|]; [|apply IH; exact Hacc].
    destruct (status =? 200); [|apply IH; exact Hacc].
    destruct (str_in "sitemapindex" xml || str_in "<sitemap>" xml);
      apply Forall_app; (split; [exact Hacc|]); [|apply pilot_parse_clean].
    unfold Phase2PilotParser.parse_sitemap_index.
    destruct (fromstring xml); [apply pilot_index_clean|]; constructor. }
  apply H. constructor.
Qed.

End Extractors.

Lemma accepted_rows_incl (accepts : list row -> row -> bool)
    (existing rows : list row) (r : row) :
  In r (accepted_rows accepts existing rows) -> In r rows.
Proof.
  revert existing. induction rows as [|x rest IH]; intros existing; simpl; [tauto|].
  destruct (accepts existing x); simpl.
  - intros [-> | H]; [left; reflexivity | right; eapply IH; exact H].
  - intros H. right. eapply IH. exact H.
Qed.

(** The accepted rows of clean candidates are clean. *)
Lemma accepted_clean {P : Type} (accepts : list row -> row -> bool)
    (row_of : P -> row) (purl : P -> string) (domain : string)
    (existing : list row) (pages : list P) (n : nat) :
  (forall p, url (row_of p) = purl p) ->
  Forall (fun p => clean_url domain (purl p)) pages ->
  Forall (fun r => clean_url domain (url r))
    (accepted_rows accepts existing (map row_of (firstn n pages))).
Proof.
  intros Hurl Hpages. apply List.Forall_forall. intros r Hr.
  apply accepted_rows_incl, List.in_map_iff in Hr as [p [<- Hp]].
  rewrite Hurl. rewrite List.Forall_forall in Hpages. apply Hpages.
  rewrite <- (List.firstn_skipn n pages). apply List.in_or_app. left. exact Hp.
Qed.

End PipelineFacts.

(** X15: when the scaled processor, the final script or the pilot script
    reports success, with its own extraction behind it, every page that
    the structure then owns has a URL that holds the company's domain and
    neither "sitemap" nor ".xml": the company no longer matches the
    predicate by which it was selected. *)
Theorem successful_run_stores_clean_urls
    (fromstring : string -> option Xml.element) (http_get : string -> Http.response)
    (accepts : list Store.row -> Store.row -> bool) (now : Z) (pool : Store.db) :
  (forall company st,
     let run :=
       Phase3ScaledProcessor.fix_company_with_real_pages accepts
         (Phase3ScaledProcessor.extract_company_real_pages fromstring http_get)
         now pool company st in
     run.1.1 = true ->
     Forall (fun r => ExtractSpec.clean_url (Store.company_domain company) (Store.url r))
       (ReplaceSpec.pages_of run.1.2 (Store.structure_id company)))
  /\ (forall company,
        let run :=
          Phase3Final.fix_company_pages accepts
            (Phase3FinalParser.extract_real_pages fromstring http_get)
            now pool company in
        run.1.1 = true ->
        Forall (fun r => ExtractSpec.clean_url (Store.company_domain company) (Store.url r))
          (ReplaceSpec.pages_of run.2 (Store.structure_id company)))
  /\ (forall company_name company,
        Store.company_named pool company_name = Some company ->
        let run :=
          Phase2PilotFix.fix_company_sitemap accepts
            (Phase2PilotParser.extract_real_pages_for_company fromstring http_get)
            now pool company_name in
        run.1 = true ->
        Forall (fun r => ExtractSpec.clean_url (Store.company_domain company) (Store.url r))
          (ReplaceSpec.pages_of run.2 (Store.structure_id company))).
Proof.
  split; [|split].
  - intros company st run. subst run. rewrite ReplaceFacts.scaled_run.
    destruct (_ <? 5); cbn [fst snd]; [discriminate|]. intros _.
    rewrite ReplaceFacts.replaced_pages_of by apply ReconcilerFacts.scaled_rows_owned.
    apply (PipelineFacts.accepted_clean accepts
             (Phase3ScaledProcessor.row_of (Store.structure_id company))
             Phase3ScaledProcessor.url);
      [reflexivity | apply PipelineFacts.scaled_extract_clean].
  - intros company run. subst run. rewrite ReplaceFacts.final_run.
    destruct (_ <? 5); cbn [fst snd]; [discriminate|]. intros _. cbv zeta. cbn [snd].
    rewrite ReplaceFacts.replaced_pages_of by apply ReplaceFacts.final_rows_owned.
    apply (PipelineFacts.accepted_clean accepts
             (Phase3Final.row_of (Store.structure_id company)) Phase3Final.url);
      [reflexivity | apply PipelineFacts.final_extract_clean].
  - intros company_name company Hc run. subst run.
    rewrite ReplaceFacts.pilot_run, Hc.
    destruct (_ <? 10); cbn [fst snd]; [discriminate|]. intros _.
    rewrite ReplaceFacts.replaced_pages_of by apply ReplaceFacts.pilot_rows_owned.
    apply (PipelineFacts.accepted_clean accepts
             (Phase2PilotFix.row_of (Store.structure_id company)) Phase2PilotFix.url);
      [reflexivity | apply PipelineFacts.pilot_extract_clean].
Qed.

(** ** The records that the extractors build *)

Module RecordFacts.
Import PyStr Xml ExtractSpec.

Lemma title_from_length (b : bool) (s : string) :
  String.length (title_from b s) = String.length s.
Proof.
  revert b. induction s as [|c s IH]; intros b; simpl; [reflexivity|].
  destruct (is_upper c || is_lower c); simpl; rewrite IH; reflexivity.
Qed.

(** Replacing one character by one character keeps the length. *)
Lemma replace_char_length (a b : ascii) (s : string) :
  String.length (replace (String a "") (String b "") s) = String.length s.
Proof.
  unfold replace. cbn [is_empty].
  induction s as [|c s IH]; [reflexivity|].
  cbn [replace_from startswith String.length Nat.sub].
  destruct (Ascii.eqb a c); cbn [andb];
    [cbn [String.append]|]; cbn [String.length]; rewrite IH; reflexivity.
Qed.

Lemma length_nonempty (s : string) : (0 < String.length s)%nat -> s <> "".
Proof. destruct s; simpl; [lia | discriminate]. Qed.

Lemma is_empty_length (s : string) : is_empty s = false -> (0 < String.length s)%nat.
Proof. destruct s; simpl; [discriminate | lia]. Qed.

Lemma last_in {A} (l : list A) (d : A) : l <> [] -> In (List.last l d) l.
Proof.
  induction l as [|x l IH]; [congruence|]. intros _.
  destruct l as [|y l]; [left; reflexivity|].
  right. apply IH. discriminate.
Qed.

(** The last segment of a path that has one is not empty. *)
Lemma last_segment_length (path : string) :
  segments path <> [] -> (0 < String.length (last_segment (segments path)))%nat.
Proof.
  intros Hne. apply is_empty_length.
  pose proof (last_in (segments path) EmptyString Hne) as Hin.
  unfold segments in Hin at 2. apply List.filter_In in Hin as [_ Hin].
  apply negb_true_iff in Hin. exact Hin.
Qed.

(** The title that the fixer, the final script and the pilot script make
    of a path is never empty. *)
Lemma plain_title_nonempty (path : string) :
  DatabaseSitemapFixer.generate_title_from_path path <> "".
Proof.
  unfold DatabaseSitemapFixer.generate_title_from_path.
  destruct (String.eqb path "/"); [discriminate|].
  destruct (segments path) as [|s0 segs] eqn:E; [discriminate|].
  apply length_nonempty. unfold title.
  rewrite title_from_length, !replace_char_length.
  rewrite <- E. apply last_segment_length. rewrite E. discriminate.
Qed.

Lemma final_title_eq (path : string) :
  Phase3FinalParser.generate_title path
  = DatabaseSitemapFixer.generate_title_from_path path.
Proof. reflexivity. Qed.

Lemma pilot_title_eq (path : string) :
  Phase2PilotParser.make_title_from_path path
  = DatabaseSitemapFixer.generate_title_from_path path.
Proof. reflexivity. Qed.

Lemma default_slash_nonempty (s : string) : (if is_empty s then "/" else s) <> "".
Proof. destruct s; simpl; discriminate. Qed.

Lemma ensure_slash (s : string) :
  startswith "/" (if startswith "/" s then s else "/" ++ s) = true.
Proof. destruct (startswith "/" s) eqn:E; [exact E | reflexivity]. Qed.

Lemma in_omap {A B} (f : A -> option B) (l : list A) (y : B) :
  In y (omap f l) -> exists x, f x = Some y.
Proof.
  rewrite <- list_elem_of_In, list_elem_of_omap. intros [x [_ H]]. exists x. exact H.
Qed.

End RecordFacts.

(** X17: the records that the extractors build are well formed.  In the
    database fixer the path starts with a slash, the title is not empty
    and the classification is a triple of the taxonomy; in the scaled
    processor the path is not empty, the depth is the number of segments
    of the path and the classification is that of the URL; in the final
    and the pilot scripts neither the path nor the title is empty and the
    classification is that of the URL. *)
Theorem yielded_records_well_formed
    (fromstring : string -> option Xml.element) (xml_content domain : string) :
  Forall (fun p =>
            PyStr.startswith "/" (DatabaseSitemapFixer.path p) = true
            /\ DatabaseSitemapFixer.title p <> ""
            /\ In (DatabaseSitemapFixer.bi_classification p, DatabaseSitemapFixer.tier p,
                   DatabaseSitemapFixer.intelligence_value p)
                  ExtractSpec.taxonomy_triples)
    (DatabaseSitemapFixer.extract_urls_from_sitemap_xml fromstring xml_content domain)
  /\ Forall (fun p =>
               Phase3ScaledProcessor.path p <> ""
               /\ Phase3ScaledProcessor.depth p
                  = List.length (PyStr.segments (Phase3ScaledProcessor.path p))
               /\ Phase3ScaledProcessor.bi p
                  = Phase3ScaledProcessor.get_enhanced_bi_classification
                      (Phase3ScaledProcessor.url p))
       (Phase3ScaledProcessor.parse_sitemap_for_real_pages fromstring xml_content domain)
  /\ Forall (fun p =>
               Phase3Final.path p <> "" /\ Phase3Final.title p <> ""
               /\ Phase3Final.bi p = Phase3FinalParser.classify_page_bi (Phase3Final.url p))
       (Phase3FinalParser.parse_sitemap_direct fromstring xml_content domain)
  /\ Forall (fun p =>
               Phase2PilotFix.path p <> "" /\ Phase2PilotFix.title p <> ""
               /\ Phase2PilotFix.bi p
                  = Phase2PilotParser.classify_business_page (Phase2PilotFix.url p))
       (Phase2PilotParser.parse_direct_sitemap fromstring xml_content domain).
Proof.
  unfold DatabaseSitemapFixer.extract_urls_from_sitemap_xml,
         Phase3ScaledProcessor.parse_sitemap_for_real_pages,
         Phase3FinalParser.parse_sitemap_direct,
         Phase2PilotParser.parse_direct_sitemap.
  destruct (fromstring xml_content) as [root|]; [|repeat split; constructor].
  split; [|split; [|split]]; apply List.Forall_forall; intros p Hp;
    apply RecordFacts.in_omap in Hp as [e He].
  - unfold DatabaseSitemapFixer.extract_turn in He.
    destruct (Xml.find (Xml.ns "loc") e) as [l|]; [|discriminate].
    destruct (Xml.text_of l) as [[|c t]|]; [discriminate| |discriminate].
    destruct (PyStr.str_in domain (String c t) && _); [|discriminate].
    pose proof (UrlClassifierFacts.fixer_agrees (String c t)) as Htriple.
    destruct (DatabaseSitemapFixer.get_bi_classification _) as [[a b] d].
    injection He as <-. cbn [DatabaseSitemapFixer.path DatabaseSitemapFixer.title
      DatabaseSitemapFixer.bi_classification DatabaseSitemapFixer.tier
      DatabaseSitemapFixer.intelligence_value].
    split; [|split; [apply RecordFacts.plain_title_nonempty | exact Htriple]].
    apply RecordFacts.ensure_slash.
  - unfold Phase3ScaledProcessor.extract_turn in He.
    destruct (Xml.find (Xml.ns "loc") e) as [l|]; [|discriminate].
    destruct (Xml.text_of l) as [[|c t]|]; [discriminate| |discriminate].
    destruct (Phase3ScaledProcessor.is_real_page domain _); [|discriminate].
    injection He as <-. cbn [Phase3ScaledProcessor.path Phase3ScaledProcessor.depth
      Phase3ScaledProcessor.bi Phase3ScaledProcessor.url].
    split; [apply RecordFacts.default_slash_nonempty | split; reflexivity].
  - unfold Phase3FinalParser.extract_turn in He.
    destruct (Xml.find (Xml.ns "loc") e) as [l|]; [|discriminate].
    destruct (Xml.text_of l) as [[|c t]|]; [discriminate| |discriminate].
    destruct (Phase3FinalParser.is_real_page domain _); [|discriminate].
    injection He as <-. cbn [Phase3Final.path Phase3Final.title Phase3Final.bi
      Phase3Final.url].
    split; [apply RecordFacts.default_slash_nonempty|].
    split; [rewrite RecordFacts.final_title_eq; apply RecordFacts.plain_title_nonempty
           | reflexivity].
  - unfold Phase2PilotParser.extract_turn in He.
    destruct (Xml.find (Xml.ns "loc") e) as [l|]; [|discriminate].
    destruct (Xml.text_of l) as [[|c t]|]; [discriminate| |discriminate].
    destruct (Phase2PilotParser.is_real_page domain _); [|discriminate].
    injection He as <-. cbn [Phase2PilotFix.path Phase2PilotFix.title Phase2PilotFix.bi
      Phase2PilotFix.url].
    split; [apply RecordFacts.default_slash_nonempty|].
    split; [rewrite RecordFacts.pilot_title_eq; apply RecordFacts.plain_title_nonempty
           | reflexivity].
Qed.

(** ** The migration of bi_page_classifier.py *)

Module MigrationFacts.
Import Migration.

Lemma update_absent (t : table) (u : Z * BiPageClassifier.classification) :
  ~ In u.1 (map id t) -> update t u = t.
Proof.
  unfold update. induction t as [|r t IH]; intros H; [reflexivity|].
  cbn [map] in *. rewrite IH by (intros Hin; apply H; right; exact Hin).
  replace (id r =? u.1) with false; [reflexivity|].
  symmetry. apply Z.eqb_neq. intros E. apply H. left. exact E.
Qed.

Lemma update_app (t1 t2 : table) (u : Z * BiPageClassifier.classification) :
  update (t1 ++ t2)%list u = (update t1 u ++ update t2 u)%list.
Proof. unfold update. apply List.map_app. Qed.

Lemma update_cons (r : page_row) (t : table) (u : Z * BiPageClassifier.classification) :
  update (r :: t) u = (update [r] u ++ update t u)%list.
Proof. reflexivity. Qed.

Lemma update_own (page : page_row) :
  update [page] (update_of page) = [reclassified page].
Proof.
  unfold update, update_of, reclassified. cbn [map fst snd].
  rewrite Z.eqb_refl. reflexivity.
Qed.

Lemma id_reclassified (t : table) : map id (map reclassified t) = map id t.
Proof. rewrite List.map_map. reflexivity. Qed.

(** A batch whose keys occur nowhere else is reclassified where it
    stands. *)
Lemma executemany_batch (pre batch post : table) :
  List.NoDup (map id (pre ++ batch ++ post)%list) ->
  executemany (pre ++ batch ++ post)%list (map update_of batch)
  = (pre ++ map reclassified batch ++ post)%list.
Proof.
  unfold executemany. revert pre.
  induction batch as [|b batch IH]; intros pre Hnd; [reflexivity|].
  cbn [map fold_left].
  assert (Hb : ~ In (id b) (map id pre) /\ ~ In (id b) (map id (batch ++ post)%list)).
  { rewrite List.map_app in Hnd. cbn [List.app map] in Hnd.
    apply List.NoDup_remove_2 in Hnd. rewrite List.in_app_iff in Hnd. tauto. }
  destruct Hb as [Hpre Hrest].
  cbn [List.app]. rewrite (update_app pre), update_cons, update_own.
  rewrite (update_absent pre) by exact Hpre.
  rewrite (update_absent (batch ++ post)%list) by exact Hrest.
  rewrite List.app_assoc.
  rewrite IH.
  - rewrite <- List.app_assoc. reflexivity.
  - rewrite <- List.app_assoc. cbn [List.app].
    rewrite !List.map_app in *. cbn [map List.app] in *.
    rewrite List.map_app. exact Hnd.
Qed.

Section Loop.
Variable original : table.
Hypothesis keys : List.NoDup (map id original).

Abbreviation done := (done_upto original).

Lemma done_all : done (List.length original) = map reclassified original.
Proof.
  unfold done_upto. rewrite List.firstn_all, List.skipn_all, List.app_nil_r. reflexivity.
Qed.

Lemma fetch_done (k : nat) :
  (k <= List.length original)%nat ->
  fetch (done k) (Z.of_nat k) batch_size = firstn 1000 (skipn k original).
Proof.
  intros Hk. unfold fetch, done_upto, batch_size. rewrite Nat2Z.id.
  rewrite List.skipn_app, List.length_map, List.length_firstn.
  replace (k - Nat.min k (List.length original))%nat with 0%nat by lia.
  rewrite List.skipn_all2 by (rewrite List.length_map, List.length_firstn; lia).
  reflexivity.
Qed.

Lemma done_step (k : nat) :
  (k <= List.length original)%nat ->
  let batch := firstn 1000 (skipn k original) in
  executemany (done k) (map update_of batch) = done (k + List.length batch).
Proof.
  intros Hk batch.
  assert (Hsplit : original
                   = (firstn k original ++ batch ++ skipn 1000 (skipn k original))%list).
  { subst batch. rewrite List.firstn_skipn, List.firstn_skipn. reflexivity. }
  assert (Hdone : done k
                  = (map reclassified (firstn k original) ++ batch
                     ++ skipn 1000 (skipn k original))%list).
  { unfold done_upto. subst batch. rewrite List.firstn_skipn. reflexivity. }
  rewrite Hdone, executemany_batch.
  - unfold done_upto.
    assert (Hlen : List.length batch = Nat.min 1000 (List.length original - k)).
    { subst batch. rewrite List.length_firstn, List.length_skipn. reflexivity. }
    assert (Hfirst : firstn (k + List.length batch) original
                     = (firstn k original ++ batch)%list).
    { rewrite Hsplit at 1. rewrite List.firstn_app, List.length_firstn.
      replace (Nat.min k (List.length original)) with k by lia.
      rewrite List.firstn_all2 by (rewrite List.length_firstn; lia).
      replace (k + List.length batch - k)%nat with (List.length batch) by lia.
      rewrite List.firstn_app, List.firstn_all, Nat.sub_diag. cbn [firstn].
      rewrite List.app_nil_r. reflexivity. }
    assert (Hskip : skipn (k + List.length batch) original
                    = skipn 1000 (skipn k original)).
    { rewrite List.skipn_skipn. subst batch.
      destruct (Nat.le_gt_cases 1000 (List.length original - k)) as [H|H].
      - rewrite Hlen, Nat.min_l by exact H. f_equal. lia.
      - rewrite Hlen, Nat.min_r by lia.
        rewrite !List.skipn_all2 by lia. reflexivity. }
    rewrite Hfirst, Hskip, List.map_app, <- List.app_assoc. reflexivity.
  - rewrite !List.map_app, id_reclassified, <- !List.map_app, <- Hsplit. exact keys.
Qed.

(** With fuel above the rows still to do, the loop ends with every row
    reclassified. *)
Lemma migrate_loop_done (fuel k : nat) :
  (k <= List.length original)%nat ->
  (List.length original - k < fuel)%nat ->
  migrate_loop fuel (Z.of_nat (List.length original)) (done k) (Z.of_nat k)
  = Some (map reclassified original, Z.of_nat (List.length original)).
Proof.
  revert k. induction fuel as [|fuel IH]; intros k Hk Hfuel; [lia|].
  cbn [migrate_loop].
  destruct (Z.of_nat k <? Z.of_nat (List.length original)) eqn:E.
  - apply Z.ltb_lt in E. rewrite fetch_done by exact Hk.
    pose proof (done_step k Hk) as Hstep. cbv zeta in Hstep.
    destruct (firstn 1000 (skipn k original)) as [|b batch] eqn:Eb.
    + exfalso.
      assert (Hl : List.length (firstn 1000 (skipn k original)) = 0%nat)
        by (rewrite Eb; reflexivity).
      rewrite List.length_firstn, List.length_skipn in Hl. lia.
    + cbn [map]. cbn [map] in Hstep.
      change (executemany (done k)
                ((id b, BiPageClassifier.classify_page_bi (url b) (title b))
                 :: map (fun page =>
                           (id page,
                            BiPageClassifier.classify_page_bi (url page) (title page)))
                        batch))
        with (executemany (done k) (update_of b :: map update_of batch)).
      rewrite Hstep, <- Nat2Z.inj_add.
      assert (Hl : (k + List.length (b :: batch) <= List.length original)%nat).
      { rewrite <- Eb, List.length_firstn, List.length_skipn. lia. }
      apply IH; [exact Hl|]. cbn [List.length] in *. lia.
  - apply Z.ltb_ge in E. assert (k = List.length original) by lia. subst k.
    rewrite done_all. reflexivity.
Qed.

End Loop.

End MigrationFacts.

(** X18: when the keys of the pages are distinct, [migrate_existing_pages]
    ends, in batches of 1000, with every page carrying the classification
    of its own URL and title, every other column and the order of the rows
    as they were, and it reports as processed the number of pages. *)
Theorem migrate_existing_pages_reclassifies (t : Migration.table) :
  List.NoDup (map Migration.id t) ->
  Migration.migrate_existing_pages t
  = Some (map Migration.reclassified t, Z.of_nat (List.length t)).
Proof.
  intros Hkeys. unfold Migration.migrate_existing_pages.
  apply (MigrationFacts.migrate_loop_done t Hkeys (S (List.length t)) 0); lia.
Qed.

Lemma migrate_existing_pages_reclassifies_witness :
  List.NoDup (map Migration.id Migration.sample_table)
  /\ Migration.migrate_existing_pages Migration.sample_table
     = Some (map Migration.reclassified Migration.sample_table, 3).
Proof.
  assert (H : List.NoDup (map Migration.id Migration.sample_table)).
  { simpl. repeat constructor; simpl; intros Hin;
      repeat (destruct Hin as [Hin|Hin]; [discriminate Hin|]); exact Hin. }
  split; [exact H|].
  exact (migrate_existing_pages_reclassifies Migration.sample_table H).
Defined.

Lemma soft_limit_walk_bound_witness :
  Z.of_nat (List.length
              (Phase3ScaledProcessor.parse_sitemap_index_for_real_pages
                 Samples.fromstring Samples.http_get
                 (Samples.sitemapindex_xml Samples.index_urls) "example.com"))
  < 300 + Z.of_nat 301.
Proof.
  assert (Hroot : Samples.fromstring (Samples.sitemapindex_xml Samples.index_urls)
                  = Some (Samples.sitemapindex Samples.index_urls))
    by (vm_compute; reflexivity).
  refine (proj1 (proj2 (soft_limit_walk_bound Samples.fromstring Samples.http_get
                          (Samples.sitemapindex_xml Samples.index_urls) "example.com" 301))
            _ Hroot _).
  apply List.Forall_forall. intros e He. vm_compute in He.
  destruct He as [<- | []]. apply Nat.leb_le. vm_compute. reflexivity.
Defined.

(** The index whose first sub-sitemap is gone gives the page that the
    index without it gives. *)
Lemma soft_limit_walk_skips_failures_witness :
  Phase3ScaledProcessor.parse_sitemap_index_for_real_pages
    MoreSamples.fromstring MoreSamples.http_get
    (Samples.sitemapindex_xml MoreSamples.both_urls) "example.com"
  = Phase3ScaledProcessor.parse_sitemap_index_for_real_pages
      MoreSamples.fromstring MoreSamples.http_get
      (Samples.sitemapindex_xml MoreSamples.live_urls) "example.com"
  /\ map Phase3ScaledProcessor.url
       (Phase3ScaledProcessor.parse_sitemap_index_for_real_pages
          MoreSamples.fromstring MoreSamples.http_get
          (Samples.sitemapindex_xml MoreSamples.live_urls) "example.com")
     = ["https://example.com/about"].
Proof.
  split; [|vm_compute; reflexivity].
  apply (proj1 (soft_limit_walk_skips_failures MoreSamples.fromstring MoreSamples.http_get
                  "example.com"
                  (Samples.sitemapindex_xml MoreSamples.both_urls)
                  (Samples.sitemapindex_xml MoreSamples.live_urls)
                  (Samples.sitemapindex MoreSamples.both_urls)
                  (Samples.sitemapindex MoreSamples.live_urls)
                  ltac:(vm_compute; reflexivity) ltac:(vm_compute; reflexivity))).
  vm_compute. reflexivity.
Defined.

(** The run for the shop in a store that also holds the bakery: the
    bakery keeps its page and its record. *)
Lemma reconciliation_leaves_others_witness :
  let after :=
    (Phase3ScaledProcessor.fix_company_with_real_pages StoreSpec.accepts_short_urls
       (Phase3ScaledProcessor.extract_company_real_pages
          Samples.shop_fromstring Samples.shop_http_get)
       1000 MoreSamples.town_db Samples.shop Samples.no_stats).1.2 in
  ReplaceSpec.pages_of after 2 = [MoreSamples.bakery_page]
  /\ Store.website_structures after !! 2 = Some MoreSamples.bakery_structure
  /\ Store.count_pages MoreSamples.town_db 1 = 2
  /\ Store.count_pages after 1 = 20.
Proof.
  intros after.
  assert (H : 2 <> Store.structure_id Samples.shop) by (simpl; lia).
  destruct (proj1 (reconciliation_leaves_others StoreSpec.accepts_short_urls 1000
                     MoreSamples.town_db Samples.shop 2 H)
              (Phase3ScaledProcessor.extract_company_real_pages
                 Samples.shop_fromstring Samples.shop_http_get)
              Samples.no_stats) as [Hpages Hrecord].
  fold after in Hpages, Hrecord.
  split; [rewrite Hpages; vm_compute; reflexivity|].
  split; [rewrite Hrecord; vm_compute; reflexivity|].
  split; vm_compute; reflexivity.
Defined.

Lemma successful_run_counts_witness :
  (Phase3ScaledProcessor.fix_company_with_real_pages StoreSpec.accepts_short_urls
     (Phase3ScaledProcessor.extract_company_real_pages
        Samples.shop_fromstring Samples.shop_http_get)
     1000 Samples.shop_db Samples.shop Samples.no_stats).1.1 = true
  /\ (List.length
        (ReplaceSpec.pages_of
           (Phase3ScaledProcessor.fix_company_with_real_pages StoreSpec.accepts_short_urls
              (Phase3ScaledProcessor.extract_company_real_pages
                 Samples.shop_fromstring Samples.shop_http_get)
              1000 Samples.shop_db Samples.shop Samples.no_stats).1.2 1) <= 300)%nat.
Proof.
  assert (H : (Phase3ScaledProcessor.fix_company_with_real_pages
                 StoreSpec.accepts_short_urls
                 (Phase3ScaledProcessor.extract_company_real_pages
                    Samples.shop_fromstring Samples.shop_http_get)
                 1000 Samples.shop_db Samples.shop Samples.no_stats).1.1 = true)
    by (vm_compute; reflexivity).
  split; [exact H|].
  exact (proj1 (proj1 (successful_run_counts StoreSpec.accepts_short_urls 1000
                         Samples.shop_db)
                  (Phase3ScaledProcessor.extract_company_real_pages
                     Samples.shop_fromstring Samples.shop_http_get)
                  Samples.shop Samples.no_stats H)).
Defined.

Lemma accepted_run_stores_candidates_witness :
  ReplaceSpec.pages_of
    (Phase3ScaledProcessor.fix_company_with_real_pages (fun _ _ => true)
       (Phase3ScaledProcessor.extract_company_real_pages
          Samples.shop_fromstring Samples.shop_http_get)
       1000 Samples.shop_db Samples.shop Samples.no_stats).1.2
    (Store.structure_id Samples.shop)
  = map (Phase3ScaledProcessor.row_of (Store.structure_id Samples.shop))
        (firstn 300
           (Phase3ScaledProcessor.extract_company_real_pages
              Samples.shop_fromstring Samples.shop_http_get
              (Store.company_domain Samples.shop))).
Proof.
  apply (proj1 (accepted_run_stores_candidates (fun _ _ => true) 1000
                  Samples.shop_db Samples.shop (fun _ _ => eq_refl))
           (Phase3ScaledProcessor.extract_company_real_pages
              Samples.shop_fromstring Samples.shop_http_get)
           Samples.no_stats).
  vm_compute. reflexivity.
Defined.

Lemma successful_run_stores_clean_urls_witness :
  Forall (fun r => ExtractSpec.clean_url "shop.example" (Store.url r))
    (ReplaceSpec.pages_of
       (Phase3ScaledProcessor.fix_company_with_real_pages StoreSpec.accepts_short_urls
          (Phase3ScaledProcessor.extract_company_real_pages
             Samples.shop_fromstring Samples.shop_http_get)
          1000 Samples.shop_db Samples.shop Samples.no_stats).1.2 1).
Proof.
  apply (proj1 (successful_run_stores_clean_urls Samples.shop_fromstring
                  Samples.shop_http_get StoreSpec.accepts_short_urls 1000
                  Samples.shop_db)
           Samples.shop Samples.no_stats).
  vm_compute. reflexivity.
Defined.

(** X19: the guards of the other two reconcilers.  The database fixer
    passes over a company, the store as it was, unless the extraction
    gives more than 20 pages; the pilot script reports failure and leaves the store as it was
    for a company it does not find and for fewer than 10 pages. *)
Theorem other_guards_leave_store
    (accepts : list Store.row -> Store.row -> bool) (now : Z) (pool : Store.db) :
  (forall parse company,
     Z.of_nat (List.length (parse (Store.company_domain company))) <= 20 ->
     DatabaseSitemapFixer.fix_company accepts parse now pool company
     = DatabaseSitemapFixer.Returned pool)
  /\ (forall extract company_name,
        Store.company_named pool company_name = None ->
        Phase2PilotFix.fix_company_sitemap accepts extract now pool company_name
        = (false, pool))
  /\ (forall extract company_name company,
        Store.company_named pool company_name = Some company ->
        Z.of_nat (List.length (extract (Store.company_domain company))) < 10 ->
        Phase2PilotFix.fix_company_sitemap accepts extract now pool company_name
        = (false, pool)).
Proof.
  split; [|split].
  - intros parse company Hlen. unfold DatabaseSitemapFixer.fix_company.
    replace (Z.of_nat (List.length (parse (Store.company_domain company))) >? 20)
      with false by (symmetry; rewrite Z.gtb_ltb; apply Z.ltb_ge; exact Hlen).
    reflexivity.
  - intros extract company_name Hc. rewrite ReplaceFacts.pilot_run, Hc. reflexivity.
  - intros extract company_name company Hc Hlen.
    rewrite ReplaceFacts.pilot_run, Hc.
    replace (Z.of_nat (List.length (extract (Store.company_domain company))) <? 10)
      with true by (symmetry; apply Z.ltb_lt; exact Hlen).
    reflexivity.
Qed.

Lemma other_guards_leave_store_witness :
  Phase2PilotFix.fix_company_sitemap StoreSpec.accepts_short_urls
    (Phase2PilotParser.extract_real_pages_for_company
       Samples.shop_fromstring Samples.shop_http_get)
    1000 Samples.shop_db "Nobody"
  = (false, Samples.shop_db).
Proof.
  apply (proj1 (proj2 (other_guards_leave_store StoreSpec.accepts_short_urls 1000
                         Samples.shop_db))).
  reflexivity.
Defined.

(** X20: the counters of the scaled processor.  Every call adds the
    structure's page count to [total_pages_before], also when the run is
    skipped; only a run that replaces the pages adds to
    [total_pages_after], and it adds the number of pages the structure
    then owns; the other counters are left alone. *)
Theorem scaled_stats_counters
    (accepts : list Store.row -> Store.row -> bool)
    (extract : string -> list Phase3ScaledProcessor.page) (now : Z)
    (pool : Store.db) (company : Store.company) (st : Phase3ScaledProcessor.stats) :
  let run :=
    Phase3ScaledProcessor.fix_company_with_real_pages accepts extract now pool company st in
  let sid := Store.structure_id company in
  Phase3ScaledProcessor.total_pages_before run.2
  = Phase3ScaledProcessor.total_pages_before st + Store.count_pages pool sid
  /\ Phase3ScaledProcessor.total_pages_after run.2
     = Phase3ScaledProcessor.total_pages_after st
       + (if run.1.1 then Store.count_pages run.1.2 sid else 0)
  /\ Phase3ScaledProcessor.processed run.2 = Phase3ScaledProcessor.processed st
  /\ Phase3ScaledProcessor.successful run.2 = Phase3ScaledProcessor.successful st
  /\ Phase3ScaledProcessor.failed run.2 = Phase3ScaledProcessor.failed st.
Proof.
  intros run sid. subst run sid.
  unfold Phase3ScaledProcessor.fix_company_with_real_pages.
  destruct (_ <? 5); cbn [fst snd]; [repeat split; simpl; lia|].
  change (PyStr.slice_to 300 (extract (Store.company_domain company)))
    with (firstn 300 (extract (Store.company_domain company))).
  rewrite ReconcilerFacts.scaled_insert_loop_rows, StoreFacts.insert_rows_spec.
  cbn [fst snd Phase3ScaledProcessor.total_pages_before
       Phase3ScaledProcessor.total_pages_after Phase3ScaledProcessor.processed
       Phase3ScaledProcessor.successful Phase3ScaledProcessor.failed].
  repeat split.
  rewrite Z.add_0_l. f_equal. symmetry.
  apply (StoreFacts.count_after_replace accepts (Store.structure_id company) pool).
  apply ReconcilerFacts.scaled_rows_owned.
Qed.
